(** * Nexus wallet connect: provider abstraction and normalization layer

    A shallow embedding of the balance normalizer ([02-normalizers.js]),
    of the provider contract and its capability guard
    ([01-base-provider.js]), of the adapters' capability descriptors, and
    of the facade with its connection-state store (the loader module),
    together with the properties stated about them.

    Conventions.
    - A JavaScript value that may be [undefined] is an [option]; a field
      that is absent from an object reads as [undefined].
    - Satoshi amounts handled by the normalizer are integers ([Z]),
      meant below 2^53 in magnitude, where the sums the code takes in
      double precision are exact; the facade divides by 10^8, so its
      numbers are rationals ([Q], kept in lowest terms).  [NaN] and the
      infinities are outside the model.
    - An [async] function is cut at each [await] on a wallet promise: what
      the promise settles to is supplied by the environment.
    - [console.warn] and [console.error] are recorded; [console.log] is
      not. *)

From Stdlib Require Import ZArith QArith Lia Ascii String.
From stdpp Require Import base list strings.

Set Warnings "-register-all".
Local Open Scope Z_scope.

(** ** JavaScript helpers *)

Module Js.

(** [x || y] where [x] is a number or [undefined]: [0] and [undefined]
    are falsy. *)
Definition truthyZ (x : option Z) : bool :=
  match x with
  | Some n => negb (n =? 0)
  | None => false
  end.

Definition orZ (x y : option Z) : option Z :=
  if truthyZ x then x else y.

(** [x || 0]: the chain ends in a number literal, so the result is a
    number. *)
Definition orZ0 (x : option Z) (d : Z) : Z :=
  match x with
  | Some n => if n =? 0 then d else n
  | None => d
  end.

(** Strings: the empty string and [undefined]/[null] are falsy. *)
Definition truthyS (x : option string) : bool :=
  match x with
  | Some s => negb (String.eqb s "")
  | None => false
  end.

Definition orS (x y : option string) : option string :=
  if truthyS x then x else y.

(** The values exchanged with an injected wallet object. *)
Inductive JsVal :=
| VUndefined
| VNull
| VBool (b : bool)
| VNum (q : Q)
| VStr (s : string)
| VArr (items : list JsVal)
| VObj (fields : list (string * JsVal)).

(** A thrown [Error] is identified by its message. *)
Definition Exn := string.

Inductive Result (A : Type) :=
| Ok (a : A)
| Throw (e : Exn).
Arguments Ok {A} a.
Arguments Throw {A} e.

(** [o[k]] on an object literal. *)
Fixpoint assoc {A : Type} (k : string) (l : list (string * A)) : option A :=
  match l with
  | [] => None
  | (k', v) :: rest => if String.eqb k k' then Some v else assoc k rest
  end.

Definition truthy (v : JsVal) : bool :=
  match v with
  | VUndefined | VNull => false
  | VBool b => b
  | VNum q => negb (Qeq_bool q 0)
  | VStr s => negb (String.eqb s "")
  | VArr _ | VObj _ => true
  end.

Definition or (x y : JsVal) : JsVal := if truthy x then x else y.

(** [null] and [undefined] *)
Definition is_nullish (v : JsVal) : bool :=
  match v with
  | VUndefined | VNull => true
  | _ => false
  end.

Definition nullish_name (v : JsVal) : string :=
  match v with
  | VNull => "null"
  | _ => "undefined"
  end.

(** [v.k] for the property names used by the code ([list],
    [inscriptions]): reading a property of [undefined] or [null] throws
    a [TypeError]; a property an object does not have is [undefined]. *)
Definition get_prop (v : JsVal) (k : string) : Result JsVal :=
  match v with
  | VUndefined | VNull =>
      Throw ("TypeError: Cannot read properties of " +:+ nullish_name v +:+
             " (reading '" +:+ k +:+ "')")
  | VObj fields => Ok (default VUndefined (assoc k fields))
  | VArr items =>
      Ok (if String.eqb k "length"
          then VNum (inject_Z (Z.of_nat (length items))) else VUndefined)
  | VStr s =>
      Ok (if String.eqb k "length"
          then VNum (inject_Z (Z.of_nat (String.length s))) else VUndefined)
  | VBool _ | VNum _ => Ok VUndefined
  end.

(** [s.split('.')] *)
Fixpoint split_dot (s : string) : list string :=
  match s with
  | EmptyString => [EmptyString]
  | String c rest =>
      if Ascii.eqb c "."%char then EmptyString :: split_dot rest
      else match split_dot rest with
           | h :: t => String c h :: t
           | [] => [String c EmptyString]
           end
  end.

(** What a provider's [getBalance] resolves to, as the facade reads it:
    a number, an object whose [confirmed]/[unconfirmed]/[total] fields
    are numbers or absent, or anything else ([undefined], [null], a
    string, ...). *)
Record BalanceFields := {
  bal_confirmed : option Q;
  bal_unconfirmed : option Q;
  bal_total : option Q
}.

Inductive BalanceData :=
| BNumber (q : Q)
| BObject (o : BalanceFields)
| BOther.




(** [v.k] once [v] is known to be neither [undefined] nor [null]. *)
Definition prop (v : JsVal) (k : string) : JsVal :=
  match get_prop v k with
  | Ok x => x
  | Throw _ => VUndefined
  end.

(** [v !== false] *)
Definition is_not_false (v : JsVal) : bool :=
  match v with
  | VBool false => false
  | _ => true
  end.

(** [typeof v === 'object'] *)
Definition typeof_object (v : JsVal) : bool :=
  match v with
  | VNull | VArr _ | VObj _ => true
  | _ => false
  end.

(** [v[0]] *)
Definition index0 (v : JsVal) : Result JsVal :=
  match v with
  | VUndefined | VNull =>
      Throw ("TypeError: Cannot read properties of " +:+ nullish_name v +:+
             " (reading '0')")
  | VArr items => Ok (default VUndefined (head items))
  | VStr (String c _) => Ok (VStr (String c EmptyString))
  | VObj fields => Ok (default VUndefined (assoc "0" fields))
  | _ => Ok VUndefined
  end.

End Js.

(** ** Data normalizers ([02-normalizers.js]) *)

Module Normalizers.
Import Js.

(** The object formats read by [normalizeBalance]: each of the six field
    names it looks at is a number or absent. *)
Record BalanceObject := {
  confirmed : option Z;
  amount : option Z;
  total : option Z;
  unconfirmed : option Z;
  pending : option Z;
  confirm : option Z
}.

(** [@param {Object|number} balance] *)
Inductive RawBalance :=
| RawNumber (n : Z)
| RawObject (o : BalanceObject).

(** The normalized object [{confirmed, unconfirmed, total}]. *)
Record Balance := {
  nconfirmed : Z;
  nunconfirmed : Z;
  ntotal : Z
}.

Definition normalizeBalance (balance : RawBalance) (walletName : string) : Balance :=
  match balance with
  | RawNumber n =>
      {| nconfirmed := n; nunconfirmed := 0; ntotal := n |}
  | RawObject b =>
      (* Handle object formats *)
      let confirmed0 := orZ0 (orZ (orZ (confirmed b) (amount b)) (total b)) 0 in
      let unconfirmed0 := orZ0 (orZ (unconfirmed b) (pending b)) 0 in
      (* Calculate total (overwritten below) *)
      let total0 := orZ0 (total b) (confirmed0 + unconfirmed0) in
      (* Wallet-specific adjustments *)
      let '(c, u) :=
        if String.eqb walletName "Xverse" then
          (orZ0 (confirmed b) 0, orZ0 (unconfirmed b) 0)
        else if String.eqb walletName "UniSat" then
          (orZ0 (orZ (confirm b) (confirmed b)) 0,
           orZ0 (orZ (pending b) (unconfirmed b)) 0)
        else (confirmed0, unconfirmed0) in
      {| nconfirmed := c; nunconfirmed := u; ntotal := c + u |}
  end.

(** The object literal [{confirmed: c, unconfirmed: u, total: t}]. *)
Definition canonical_object (c u t : Z) : BalanceObject :=
  {| confirmed := Some c; amount := None; total := Some t;
     unconfirmed := Some u; pending := None; confirm := None |}.

(** The object literal [{confirm: c, pending: p}]. *)
Definition confirm_pending_object (c p : Z) : BalanceObject :=
  {| confirmed := None; amount := None; total := None;
     unconfirmed := None; pending := Some p; confirm := Some c |}.

(** Reading a normalized balance back as an input object. *)
Definition as_object (b : Balance) : BalanceObject :=
  canonical_object (nconfirmed b) (nunconfirmed b) (ntotal b).


(** The object returned by [normalizePsbtOptions]. *)
Record PsbtOptions := {
  autoFinalized : bool;
  toSignInputs : JsVal
}.

(** [options.inputsToSign.map(input => ({address: input.address,
      signingIndexes: input.signingIndexes || input.signingIndexes || [0]}))] *)
Fixpoint map_inputsToSign (inputs : list JsVal) : Result (list JsVal) :=
  match inputs with
  | [] => Ok []
  | input :: rest =>
      match get_prop input "address" with
      | Throw e => Throw e
      | Ok a =>
          let si := prop input "signingIndexes" in
          match map_inputsToSign rest with
          | Throw e => Throw e
          | Ok rs =>
              Ok (VObj [("address", a);
                        ("signingIndexes", or (or si si) (VArr [VNum 0%Q]))] :: rs)
          end
      end
  end.

Definition normalizePsbtOptions (options : JsVal) (walletName : string)
  : Result PsbtOptions :=
  match get_prop options "autoFinalized" with
  | Throw e => Throw e
  | Ok af =>
      let normalized :=
        {| autoFinalized := is_not_false af;   (* Default true *)
           toSignInputs := or (or (prop options "toSignInputs")
                                  (prop options "inputsToSign")) (VArr []) |} in
      (* Wallet-specific adjustments *)
      if String.eqb walletName "Xverse" then
        match prop options "inputsToSign" with
        | VArr inputs =>
            match map_inputsToSign inputs with
            | Throw e => Throw e
            | Ok mapped =>
                Ok {| autoFinalized := autoFinalized normalized;
                      toSignInputs := VArr mapped |}
            end
        | _ => Ok normalized
        end
      else if String.eqb walletName "UniSat" then
        Ok {| autoFinalized := autoFinalized normalized;
              toSignInputs := or (prop options "toSignInputs") (VArr []) |}
      else Ok normalized
  end.

(** The object returned by [normalizeInscription]; an absent value is
    [VUndefined]. *)
Record Inscription := {
  inscriptionId : JsVal;
  inscriptionNumber : JsVal;
  address : JsVal;
  outputValue : JsVal;
  content : JsVal;
  contentType : JsVal;
  contentLength : JsVal;
  timestamp : JsVal;
  genesisTransaction : JsVal;
  location : JsVal;
  output : JsVal;
  offset : JsVal
}.

Definition normalizeInscription (inscription : JsVal) (walletName : string)
  : Result Inscription :=
  match get_prop inscription "inscriptionId" with
  | Throw e => Throw e
  | Ok _ =>
      let i := prop inscription in
      (* Base normalized format *)
      let inscriptionNumber0 := or (i "inscriptionNumber") (i "number") in
      let contentType0 :=
        or (or (i "contentType") (i "content_type")) (i "mimeType") in
      (* Wallet-specific adjustments *)
      let '(contentType1, inscriptionNumber1) :=
        if String.eqb walletName "Xverse" then
          (or (i "contentType") (i "mimeType"), i "number")
        else if String.eqb walletName "UniSat" then
          (i "contentType", i "inscriptionNumber")
        else (contentType0, inscriptionNumber0) in
      Ok {| inscriptionId := or (i "inscriptionId") (i "id");
            inscriptionNumber := inscriptionNumber1;
            address := i "address";
            outputValue := or (or (i "outputValue") (i "output_value")) (i "value");
            content := i "content";
            contentType := contentType1;
            contentLength := or (i "contentLength") (i "content_length");
            timestamp := i "timestamp";
            genesisTransaction :=
              or (or (i "genesisTransaction") (i "genesis_transaction")) (i "genesis_tx");
            location := i "location";
            output := i "output";
            offset := i "offset" |}
  end.

(** A normalized inscription as an object: all twelve keys are present,
    some with the value [undefined]. *)
Definition inscription_object (n : Inscription) : JsVal :=
  VObj [("inscriptionId", inscriptionId n);
        ("inscriptionNumber", inscriptionNumber n);
        ("address", address n);
        ("outputValue", outputValue n);
        ("content", content n);
        ("contentType", contentType n);
        ("contentLength", contentLength n);
        ("timestamp", timestamp n);
        ("genesisTransaction", genesisTransaction n);
        ("location", location n);
        ("output", output n);
        ("offset", offset n)].

(** [list.map(inscription => normalizers.inscription(inscription, walletName))] *)
Fixpoint map_normalizeInscription (items : list JsVal) (walletName : string)
  : Result (list JsVal) :=
  match items with
  | [] => Ok []
  | inscription :: rest =>
      match normalizeInscription inscription walletName with
      | Throw e => Throw e
      | Ok n =>
          match map_normalizeInscription rest walletName with
          | Throw e => Throw e
          | Ok ns => Ok (inscription_object n :: ns)
          end
      end
  end.

End Normalizers.

(** ** Capability descriptors and the guard ([01-base-provider.js]) *)

Module Capability.
Import Js.

(** [this.features]: boolean flags, possibly nested one level
    ([brc20: { transfer: false, ... }]). *)
Inductive Feature :=
| FBool (b : bool)
| FNode (entries : list (string * Feature)).

(** [current === true] *)
Definition is_true (current : option Feature) : bool :=
  match current with
  | Some (FBool true) => true
  | _ => false
  end.

(** The loop of [supportsMethod]; [current] is [None] when it is
    [undefined]. *)
Fixpoint walk (current : option Feature) (parts : list string) : bool :=
  match parts with
  | [] => is_true current
  | part :: rest =>
      match current with
      | Some (FNode entries) => walk (assoc part entries) rest
      | _ => is_true current
      end
  end.

Definition supportsMethod (features : Feature) (methodPath : string) : bool :=
  walk (Some features) (split_dot methodPath).

(** The flag at [methodPath] is written [false] in the descriptor. *)
Fixpoint flag_at (current : option Feature) (parts : list string) : option Feature :=
  match parts with
  | [] => current
  | part :: rest =>
      match current with
      | Some (FNode entries) => flag_at (assoc part entries) rest
      | _ => None
      end
  end.

Definition declared_false (features : Feature) (methodPath : string) : bool :=
  match flag_at (Some features) (split_dot methodPath) with
  | Some (FBool false) => true
  | _ => false
  end.

End Capability.

(** ** The provider contract ([01-base-provider.js]) *)

Module BaseWalletProvider.
Import Js Capability.

(** The injected wallet object ([this.walletInstance]): which methods it
    has, and what the promise returned by a call settles to.  The answer
    may depend on how many calls the wallet has served so far. *)
Record Handle := {
  has_method : string -> bool;
  respond : string -> nat -> list JsVal -> Result JsVal
}.

Record Provider := {
  name : string;
  isConnected : bool;
  address : option string;
  publicKey : option string;
  walletInstance : option Handle;
  features : Feature
}.

(** One invocation of a method of the injected wallet object. *)
Record HandleCall := {
  hc_method : string;
  hc_args : list JsVal
}.

Inductive ConsoleMsg :=
| WarnPaginationLimit (wallet : string) (limit : Z).

Record Effects := {
  calls : list HandleCall;
  console : list ConsoleMsg
}.

Definition no_effects : Effects := {| calls := []; console := [] |}.

(** Provider methods run in a state-and-exception monad over the calls
    made to the wallet object and the console. *)
Definition M (A : Type) : Type := Effects -> Result A * Effects.

Definition ret {A} (a : A) : M A := fun st => (Ok a, st).

Definition throw {A} (e : Exn) : M A := fun st => (Throw e, st).

Definition bind {A B} (m : M A) (k : A -> M B) : M B :=
  fun st =>
    match m st with
    | (Ok a, st') => k a st'
    | (Throw e, st') => (Throw e, st')
    end.

Notation "x <- m ;; k" := (bind m (fun x => k))
  (at level 100, m at level 99, right associativity).
Notation "m ;;; k" := (bind m (fun _ => k))
  (at level 100, right associativity).

Definition console_warn (msg : ConsoleMsg) : M unit :=
  fun st => (Ok tt, {| calls := calls st; console := console st ++ [msg] |}).

(** [await this.walletInstance.method(...args)] *)
Definition call_handle (h : Handle) (method : string) (args : list JsVal) : M JsVal :=
  fun st =>
    (respond h method (length (calls st)) args,
     {| calls := calls st ++ [{| hc_method := method; hc_args := args |}];
        console := console st |}).

(** [requireInstalled]: on success the handle is at hand. *)
Definition requireInstalled (self : Provider) : M Handle :=
  match walletInstance self with
  | None => throw (name self +:+ " wallet not installed or not detected")
  | Some h => ret h
  end.

Definition requireConnected (self : Provider) : M unit :=
  if negb (isConnected self) || negb (truthyS (address self))
  then throw (name self +:+ " wallet not connected. Please connect first.")
  else ret tt.

Definition safeCall {A} (self : Provider) (methodPath : string)
    (callback : M A) (errorMsg : option string) : M A :=
  if negb (supportsMethod (features self) methodPath)
  then throw (if truthyS errorMsg then default EmptyString errorMsg
              else name self +:+ " does not support " +:+ methodPath)
  else callback.

(** The shape shared by the default callbacks:
    [if (this.walletInstance.m) return await this.walletInstance.m(...);
     throw new Error(`${this.name}: m not implemented`)]. *)
Definition call_or_not_implemented (self : Provider) (h : Handle)
    (method : string) (args : list JsVal) : M JsVal :=
  if has_method h method then call_handle h method args
  else throw (name self +:+ ": " +:+ method +:+ " not implemented").

Definition getPublicKey (self : Provider) : M JsVal :=
  h <- requireInstalled self ;;
  requireConnected self ;;;
  safeCall self "getPublicKey"
    (call_or_not_implemented self h "getPublicKey" []) None.

Definition getNetwork (self : Provider) : M JsVal :=
  h <- requireInstalled self ;;
  safeCall self "getNetwork"
    (call_or_not_implemented self h "getNetwork" []) None.

Definition switchNetwork (self : Provider) (network : JsVal) : M JsVal :=
  h <- requireInstalled self ;;
  safeCall self "switchNetwork"
    (call_or_not_implemented self h "switchNetwork" [network]) None.

Definition signPsbt (self : Provider) (psbtHex options : JsVal) : M JsVal :=
  h <- requireInstalled self ;;
  requireConnected self ;;;
  call_or_not_implemented self h "signPsbt" [psbtHex; options].

(** [for (const psbt of psbtHexs) results.push(await this.signPsbt(psbt, options))];
    [this.signPsbt] is the instance's own method. *)
Fixpoint sign_each (this_signPsbt : JsVal -> JsVal -> M JsVal)
    (psbtHexs : list JsVal) (options : JsVal) : M (list JsVal) :=
  match psbtHexs with
  | [] => ret []
  | psbt :: rest =>
      r <- this_signPsbt psbt options ;;
      rs <- sign_each this_signPsbt rest options ;;
      ret (r :: rs)
  end.

(** What [for (const x of v)] goes through: the elements of an array,
    the characters of a string; other values of the model are not
    iterable. *)
Definition iterate (v : JsVal) : M (list JsVal) :=
  match v with
  | VArr items => ret items
  | VStr s => ret (map (fun c => VStr (String c EmptyString)) (list_ascii_of_string s))
  | _ => throw "TypeError: psbtHexs is not iterable"
  end.

Definition signPsbts (self : Provider) (this_signPsbt : JsVal -> JsVal -> M JsVal)
    (psbtHexs options : JsVal) : M JsVal :=
  h <- requireInstalled self ;;
  requireConnected self ;;;
  safeCall self "signPsbts"
    (if has_method h "signPsbts"
     then call_handle h "signPsbts" [psbtHexs; options]
     else (items <- iterate psbtHexs ;;
           results <- sign_each this_signPsbt items options ;;
           ret (VArr results)))
    None.

Definition pushPsbt (self : Provider) (psbtHex : JsVal) : M JsVal :=
  h <- requireInstalled self ;;
  requireConnected self ;;;
  safeCall self "pushPsbt"
    (call_or_not_implemented self h "pushPsbt" [psbtHex]) None.

Definition pushTx (self : Provider) (rawTx : JsVal) : M JsVal :=
  h <- requireInstalled self ;;
  requireConnected self ;;;
  safeCall self "pushTx"
    (call_or_not_implemented self h "pushTx" [rawTx]) None.

Definition sendInscription (self : Provider)
    (toAddress inscriptionId options : JsVal) : M JsVal :=
  h <- requireInstalled self ;;
  requireConnected self ;;;
  safeCall self "sendInscription"
    (call_or_not_implemented self h "sendInscription"
       [toAddress; inscriptionId; options]) None.

Definition inscribe (self : Provider) (content options : JsVal) : M JsVal :=
  h <- requireInstalled self ;;
  requireConnected self ;;;
  safeCall self "inscribe"
    (call_or_not_implemented self h "inscribe" [content; options]) None.

Definition lift {A} (r : Result A) : M A := fun st => (r, st).

Definition getInscriptions (self : Provider) (cursor size : Z) : M JsVal :=
  h <- requireInstalled self ;;
  requireConnected self ;;;
  call_or_not_implemented self h "getInscriptions"
    [VNum (inject_Z cursor); VNum (inject_Z size)].

Definition pageSize : Z := 100.

(** Safety limit: max 10,000 inscriptions. *)
Definition maxPages : nat := 100.

(** [result.list || result.inscriptions || result] *)
Definition page_of (result : JsVal) : Result JsVal :=
  match get_prop result "list" with
  | Throw e => Throw e
  | Ok l =>
      if truthy l then Ok l
      else match get_prop result "inscriptions" with
           | Throw e => Throw e
           | Ok i => Ok (or i result)
           end
  end.

(** The [while (pageCount < maxPages)] loop of [getAllInscriptions];
    [remaining] is [maxPages - pageCount].  It yields the final
    [pageCount] and the accumulated list.  [this_getInscriptions] is the
    instance's own single-page method. *)
Fixpoint pages_loop (this_getInscriptions : Z -> Z -> M JsVal)
    (remaining : nat) (cursor : Z) (pageCount : nat)
    (allInscriptions : list JsVal) : M (nat * list JsVal) :=
  match remaining with
  | O => ret (pageCount, allInscriptions)
  | S remaining' =>
      result <- this_getInscriptions cursor pageSize ;;
      inscriptions <- lift (page_of result) ;;
      match inscriptions with
      | VArr items =>
          if Nat.eqb (length items) 0 then ret (pageCount, allInscriptions)
          else
            let allInscriptions' := allInscriptions ++ items in
            if Z.of_nat (length items) <? pageSize
            then ret (pageCount, allInscriptions')
            else pages_loop this_getInscriptions remaining'
                   (cursor + pageSize) (S pageCount) allInscriptions'
      | _ => ret (pageCount, allInscriptions)
      end
  end.

Definition getAllInscriptions (self : Provider)
    (this_getInscriptions : Z -> Z -> M JsVal) : M (list JsVal) :=
  requireInstalled self ;;;
  requireConnected self ;;;
  r <- pages_loop this_getInscriptions maxPages 0 0 [] ;;
  (if Nat.leb maxPages (fst r)
   then console_warn
          (WarnPaginationLimit (name self) (Z.of_nat maxPages * pageSize))
   else ret tt) ;;;
  ret (snd r).

(** *** The other default methods *)

Definition getAddress (self : Provider) : M JsVal :=
  h <- requireInstalled self ;;
  requireConnected self ;;;
  if has_method h "getAddress" then call_handle h "getAddress" []
  else if has_method h "requestAccounts" then
    (accounts <- call_handle h "requestAccounts" [] ;;
     lift (index0 accounts))
  else throw (name self +:+ ": No method available to get address").

(** [result.total || result.confirmed || result.balance || 0] *)
Definition balance_of_object (result : JsVal) : Result JsVal :=
  match get_prop result "total" with
  | Throw e => Throw e
  | Ok t =>
      Ok (or (or (or t (prop result "confirmed")) (prop result "balance"))
            (VNum 0%Q))
  end.

Definition getBalance (self : Provider) : M JsVal :=
  h <- requireInstalled self ;;
  requireConnected self ;;;
  if has_method h "getBalance" then
    (result <- call_handle h "getBalance" [] ;;
     (* Handle different return formats *)
     if typeof_object result then lift (balance_of_object result)
     else ret result)
  else throw (name self +:+ ": getBalance not implemented").

(** A parameter with a default value: the default stands in for
    [undefined]. *)
Definition with_default (arg dflt : JsVal) : JsVal :=
  match arg with
  | VUndefined => dflt
  | _ => arg
  end.

Definition signMessage (self : Provider) (message type : JsVal) : M JsVal :=
  h <- requireInstalled self ;;
  requireConnected self ;;;
  call_or_not_implemented self h "signMessage"
    [message; with_default type (VStr "ecdsa")].

Definition sendBitcoin (self : Provider) (toAddress satoshis options : JsVal)
  : M JsVal :=
  h <- requireInstalled self ;;
  requireConnected self ;;;
  call_or_not_implemented self h "sendBitcoin"
    [toAddress; satoshis; with_default options (VObj [])].

(** An assignment [this.field = value] made by a method. *)
Inductive Assignment :=
| SetIsConnected (b : bool)
| SetAddress (v : JsVal).

(** [connect]: its outcome, together with the assignments to [this] it
    made on the way, in order.  [this.getAddress] is the default
    method. *)
Definition connect (self : Provider) (st : Effects)
  : Result JsVal * list Assignment * Effects :=
  match walletInstance self with
  | None => (Throw (name self +:+ " wallet not installed or not detected"), [], st)
  | Some h =>
      if has_method h "connect" then
        match call_handle h "connect" [] st with
        | (Throw e, st') => (Throw e, [], st')
        | (Ok result, st') =>
            match get_prop result "address" with
            | Throw e => (Throw e, [SetIsConnected true], st')
            | Ok a =>
                (Ok result, [SetIsConnected true; SetAddress (or a result)], st')
            end
        end
      else
        (* Fallback for wallets without explicit connect *)
        match getAddress self st with
        | (Throw e, st') => (Throw e, [], st')
        | (Ok addr, st') =>
            (Ok (VObj [("address", addr)]),
             [SetIsConnected true; SetAddress addr], st')
        end
  end.

(** [disconnect]: on success, the instance with its connection fields
    cleared. *)
Definition disconnect (self : Provider) : M Provider :=
  (match walletInstance self with
   | Some h =>
       if has_method h "disconnect"
       then (call_handle h "disconnect" [] ;;; ret tt)
       else ret tt
   | None => ret tt
   end) ;;;
  ret {| name := name self; isConnected := false; address := None;
         publicKey := None; walletInstance := walletInstance self;
         features := features self |}.

(** The default methods that reach for the wallet. *)
Inductive DefaultOp :=
| DGetAddress | DGetPublicKey | DGetBalance | DGetNetwork | DSwitchNetwork
| DSignMessage | DSignPsbt | DSignPsbts | DPushPsbt | DPushTx | DSendBitcoin
| DSendInscription | DGetInscriptions | DGetAllInscriptions | DInscribe.

Definition all_default_ops : list DefaultOp :=
  [DGetAddress; DGetPublicKey; DGetBalance; DGetNetwork; DSwitchNetwork;
   DSignMessage; DSignPsbt; DSignPsbts; DPushPsbt; DPushTx; DSendBitcoin;
   DSendInscription; DGetInscriptions; DGetAllInscriptions; DInscribe].

(** [getNetwork] and [switchNetwork] call [requireInstalled] alone; the
    other methods call [requireConnected] as well. *)
Definition requires_connection (op : DefaultOp) : bool :=
  match op with
  | DGetNetwork | DSwitchNetwork => false
  | _ => true
  end.

Definition arg (args : list JsVal) (i : nat) : JsVal :=
  default VUndefined (args !! i).

(** A call [self.op(...args)] that runs the default method, on an
    instance whose [getInscriptions] and [signPsbt] are the default ones
    too.  [getInscriptions] is called with its default cursor and size. *)
Definition call_default (op : DefaultOp) (self : Provider) (args : list JsVal)
  : M JsVal :=
  match op with
  | DGetAddress => getAddress self
  | DGetPublicKey => getPublicKey self
  | DGetBalance => getBalance self
  | DGetNetwork => getNetwork self
  | DSwitchNetwork => switchNetwork self (arg args 0)
  | DSignMessage => signMessage self (arg args 0) (arg args 1)
  | DSignPsbt => signPsbt self (arg args 0) (with_default (arg args 1) (VObj []))
  | DSignPsbts =>
      signPsbts self (signPsbt self) (arg args 0) (with_default (arg args 1) (VObj []))
  | DPushPsbt => pushPsbt self (arg args 0)
  | DPushTx => pushTx self (arg args 0)
  | DSendBitcoin => sendBitcoin self (arg args 0) (arg args 1) (arg args 2)
  | DSendInscription =>
      sendInscription self (arg args 0) (arg args 1)
        (with_default (arg args 2) (VObj []))
  | DGetInscriptions => getInscriptions self 0 100
  | DGetAllInscriptions =>
      (all <- getAllInscriptions self (getInscriptions self) ;; ret (VArr all))
  | DInscribe => inscribe self (arg args 0) (with_default (arg args 1) (VObj []))
  end.

End BaseWalletProvider.

(** ** The adapters' capability descriptors

    The descriptors of the eight adapters (UniSat, Xverse, OKX, Leather,
    Phantom, Wizz, Magic Eden, Oyl), which of the guarded default
    methods each adapter class leaves to the provider contract, and the
    single-page [getInscriptions] of the UniSat and OKX classes. *)

Module Adapters.
Import Js Capability BaseWalletProvider.

Inductive Wallet :=
| UniSat | Xverse | OKX | Leather | Phantom | Wizz | MagicEden | Oyl.

Definition all_wallets : list Wallet :=
  [UniSat; Xverse; OKX; Leather; Phantom; Wizz; MagicEden; Oyl].

(** [super('...')] *)
Definition wallet_name (w : Wallet) : string :=
  match w with
  | UniSat => "UniSat"
  | Xverse => "Xverse" | OKX => "OKX" | Leather => "Leather"
  | Phantom => "Phantom" | Wizz => "Wizz" | MagicEden => "MagicEden"
  | Oyl => "Oyl"
  end.

Definition T := FBool true.
Definition F := FBool false.

Definition protocol_flags (brc20 runes atomicals arc20 : Feature)
  : list (string * Feature) :=
  [("brc20", brc20); ("runes", runes); ("atomicals", atomicals); ("arc20", arc20)].

Definition brc20_flags (b : Feature) : Feature :=
  FNode [("transfer", b); ("deploy", b); ("mint", b)].
Definition runes_flags (send mint etch : Feature) : Feature :=
  FNode [("send", send); ("mint", mint); ("etch", etch)].
Definition atomicals_flags (b : Feature) : Feature :=
  FNode [("transfer", b); ("mint", b)].
Definition arc20_flags (b : Feature) : Feature :=
  FNode [("transfer", b)].

Definition features_of (w : Wallet) : Feature :=
  match w with
  | UniSat => FNode ([
      ("connect", T); ("getAddress", T); ("getPublicKey", T);
      ("getBalance", T); ("getNetwork", T); ("switchNetwork", T);
      ("signMessage", T); ("signPsbt", T); ("signPsbts", T);
      ("pushPsbt", T); ("pushTx", F); ("sendBitcoin", T);
      ("sendInscription", F); ("getInscriptions", T);
      ("getAllInscriptions", T); ("inscribe", T)] ++
      protocol_flags
        (FNode [("transfer", T); ("deploy", F); ("mint", F); ("list", T)])
        (runes_flags T F F) (atomicals_flags F) (arc20_flags F))
  | Xverse => FNode [
      ("connect", T); ("getAddress", T); ("getPublicKey", T);
      ("getBalance", T); ("signMessage", T); ("signTransaction", T);
      ("signMultipleTransactions", T); ("sendBtcTransaction", T);
      ("getInscriptions", T); ("sendInscription", T);
      ("createInscription", T); ("createRepeatInscriptions", T);
      ("getUtxos", F); ("getBitcoinUtxos", F); ("getCapabilities", T);
      ("runes", T); ("eventListeners", T); ("networkSwitch", F);
      ("brc20", F); ("arc20", F); ("atomicals", F)]
  | OKX => FNode ([
      ("connect", T); ("getAddress", F); ("getPublicKey", T);
      ("getBalance", T); ("getNetwork", T); ("switchNetwork", F);
      ("signMessage", T); ("signPsbt", T); ("signPsbts", T);
      ("pushPsbt", T); ("pushTx", T); ("sendBitcoin", T);
      ("sendInscription", T); ("getInscriptions", T);
      ("getAllInscriptions", T); ("inscribe", T)] ++
      protocol_flags (brc20_flags T) (runes_flags F F F)
        (atomicals_flags F) (arc20_flags F))
  | Leather => FNode [
      ("connect", T); ("getAddress", T); ("getPublicKey", F);
      ("getBalance", F); ("getNetwork", F); ("switchNetwork", F);
      ("signMessage", T); ("signPsbt", T); ("signPsbts", F);
      ("pushPsbt", F); ("pushTx", F); ("sendBitcoin", F);
      ("sendInscription", F); ("getInscriptions", F);
      ("getAllInscriptions", F); ("inscribe", F);
      ("brc20", F); ("runes", F); ("atomicals", F); ("arc20", F);
      ("stacksSupport", T); ("structuredData", T); ("authentication", T);
      ("stacksTransaction", T); ("profileUpdate", T);
      ("getProductInfo", T); ("getURL", T)]
  | Phantom => FNode [
      ("connect", T); ("getAddress", T); ("getPublicKey", T);
      ("getBalance", T); ("getNetwork", T); ("signMessage", T);
      ("signPsbt", T); ("sendBitcoin", T); ("eventListeners", T)]
  | Wizz => FNode ([
      ("connect", T); ("getAddress", T); ("getPublicKey", T);
      ("getBalance", T); ("getNetwork", T); ("switchNetwork", T);
      ("signMessage", T); ("signPsbt", T); ("signPsbts", F);
      ("pushPsbt", T); ("pushTx", F); ("sendBitcoin", T);
      ("sendInscription", F); ("getInscriptions", T);
      ("getAllInscriptions", T); ("inscribe", T)] ++
      protocol_flags (brc20_flags T) (runes_flags T F F)
        (atomicals_flags T) (arc20_flags T) ++
      [("biHelix", T); ("cpfp", T); ("mempoolInjection", T); ("bip322", T)])
  | MagicEden => FNode ([
      ("connect", T); ("getAddress", T); ("getPublicKey", F);
      ("getBalance", F); ("getNetwork", T); ("switchNetwork", F);
      ("signMessage", T); ("signPsbt", T); ("signPsbts", T);
      ("signTransaction", T); ("pushPsbt", F); ("pushTx", F);
      ("sendBitcoin", T); ("sendInscription", F); ("getInscriptions", F);
      ("getAllInscriptions", F); ("inscribe", F)] ++
      protocol_flags (brc20_flags F) (runes_flags F F F)
        (atomicals_flags F) (arc20_flags F) ++
      [("jwtAuth", T); ("hardwareDetection", T)])
  | Oyl => FNode ([
      ("connect", T); ("getAddress", T); ("getPublicKey", F);
      ("getBalance", T); ("getNetwork", T); ("switchNetwork", T);
      ("signMessage", T); ("signPsbt", T); ("signPsbts", T);
      ("pushPsbt", T); ("pushTx", F); ("sendBitcoin", T);
      ("sendInscription", F); ("getInscriptions", T);
      ("getAllInscriptions", T); ("inscribe", F)] ++
      protocol_flags (brc20_flags F) (runes_flags F F F)
        (atomicals_flags F) (arc20_flags F) ++
      [("relayProvider", T)])
  end.

(** The default methods of the provider contract that go through
    [safeCall]. *)
Inductive GuardedOp :=
| OpGetPublicKey | OpGetNetwork | OpSwitchNetwork | OpSignPsbts
| OpPushPsbt | OpPushTx | OpSendInscription | OpInscribe.

Definition all_guarded_ops : list GuardedOp :=
  [OpGetPublicKey; OpGetNetwork; OpSwitchNetwork; OpSignPsbts;
   OpPushPsbt; OpPushTx; OpSendInscription; OpInscribe].

Definition op_name (op : GuardedOp) : string :=
  match op with
  | OpGetPublicKey => "getPublicKey" | OpGetNetwork => "getNetwork"
  | OpSwitchNetwork => "switchNetwork" | OpSignPsbts => "signPsbts"
  | OpPushPsbt => "pushPsbt" | OpPushTx => "pushTx"
  | OpSendInscription => "sendInscription" | OpInscribe => "inscribe"
  end.

(** [inherits w op]: the class of [w] does not define [op], so a call on
    an instance runs the default method. *)
Definition inherits (w : Wallet) (op : GuardedOp) : bool :=
  match w, op with
  | UniSat, (OpGetPublicKey | OpGetNetwork | OpSwitchNetwork
            | OpSignPsbts | OpPushPsbt | OpInscribe) => false
  | Xverse, (OpGetNetwork | OpGetPublicKey | OpInscribe) => false
  | OKX, OpSwitchNetwork => true
  | OKX, _ => false
  | Phantom, (OpGetPublicKey | OpGetNetwork) => false
  | Wizz, (OpGetPublicKey | OpGetNetwork | OpSwitchNetwork
          | OpPushPsbt | OpInscribe) => false
  | MagicEden, OpGetNetwork => false
  | Oyl, (OpGetNetwork | OpSwitchNetwork | OpSignPsbts | OpPushPsbt) => false
  | _, _ => true
  end.

(** The arguments of a call, one [JsVal] per parameter. *)
Definition nth_arg (args : list JsVal) (i : nat) : JsVal :=
  default VUndefined (args !! i).

(** The default method behind [op], applied to [args]. *)
Definition default_method (op : GuardedOp) (self : Provider)
    (this_signPsbt : JsVal -> JsVal -> M JsVal) (args : list JsVal) : M JsVal :=
  match op with
  | OpGetPublicKey => getPublicKey self
  | OpGetNetwork => getNetwork self
  | OpSwitchNetwork => switchNetwork self (nth_arg args 0)
  | OpSignPsbts =>
      signPsbts self this_signPsbt (nth_arg args 0)
        (with_default (nth_arg args 1) (VObj []))
  | OpPushPsbt => pushPsbt self (nth_arg args 0)
  | OpPushTx => pushTx self (nth_arg args 0)
  | OpSendInscription =>
      sendInscription self (nth_arg args 0) (nth_arg args 1)
        (with_default (nth_arg args 2) (VObj []))
  | OpInscribe =>
      inscribe self (nth_arg args 0) (with_default (nth_arg args 1) (VObj []))
  end.

(** Method resolution for a guarded operation on an instance of the
    class of [w]: the default method, when the class does not define the
    operation.  The adapters' own definitions of these operations are not
    part of the model ([None]). *)
Definition inherited_method (w : Wallet) (op : GuardedOp)
  : option (Provider -> (JsVal -> JsVal -> M JsVal) -> list JsVal -> M JsVal) :=
  if inherits w op then Some (default_method op) else None.

(** An instance of the adapter class of [w], as its constructor leaves
    it, with the injected object [h] (if any). *)
Definition new_provider (w : Wallet) (h : option Handle) : Provider :=
  {| name := wallet_name w; isConnected := false; address := None;
     publicKey := None; walletInstance := h; features := features_of w |}.

(** The instance after a successful [connect()] that yielded [addr]. *)
Definition connected_provider (w : Wallet) (h : option Handle) (addr : string)
  : Provider :=
  {| name := wallet_name w; isConnected := true; address := Some addr;
     publicKey := None; walletInstance := h; features := features_of w |}.

(** [MagicEdenProvider.getBalance] *)
Definition MagicEden_getBalance (self : Provider) : M BalanceData :=
  requireConnected self ;;;
  ret (BObject {| bal_confirmed := Some 0%Q; bal_unconfirmed := Some 0%Q;
                  bal_total := Some 0%Q |}).

(** The single-page method of [UniSatProvider] and of [OKXProvider]:
    [this.requireConnected();
     const result = await this.walletInstance.getInscriptions(cursor, size);
     if (result && result.list)
       return { list: result.list.map(i => normalizers.inscription(i, name)),
                total: result.total };
     return { list: [], total: 0 };]
    The two classes differ in the name handed to the normalizer. *)
Definition listing_getInscriptions (walletName : string) (self : Provider)
    (cursor size : Z) : M JsVal :=
  requireConnected self ;;;
  match walletInstance self with
  | None =>
      throw "TypeError: Cannot read properties of undefined (reading 'getInscriptions')"
  | Some h =>
      if has_method h "getInscriptions" then
        result <- call_handle h "getInscriptions"
                    [VNum (inject_Z cursor); VNum (inject_Z size)] ;;
        if truthy result && truthy (prop result "list") then
          match prop result "list" with
          | VArr items =>
              normalized <- lift (Normalizers.map_normalizeInscription items walletName) ;;
              ret (VObj [("list", VArr normalized); ("total", prop result "total")])
          | _ => throw "TypeError: result.list.map is not a function"
          end
        else ret (VObj [("list", VArr []); ("total", VNum 0%Q)])
      else throw "TypeError: this.walletInstance.getInscriptions is not a function"
  end.

Definition UniSat_getInscriptions : Provider -> Z -> Z -> M JsVal :=
  listing_getInscriptions "UniSat".

Definition OKX_getInscriptions : Provider -> Z -> Z -> M JsVal :=
  listing_getInscriptions "OKX".

End Adapters.

(** ** The facade and its connection-state store (the loader module) *)

Module Facade.
Import Js.

(** Identities of [Provider] instances, of state objects, and of calls
    of the facade's [async] functions. *)
Abbreviation pid := nat.
Abbreviation loc := nat.
Abbreviation tid := nat.

(** The connection-state object
    [{isConnected, walletType, address, publicKey, balance, provider}];
    [None] is [null]. *)
Record Snapshot := {
  isConnected : bool;
  walletType : option string;
  address : option string;
  publicKey : option string;
  balance : option Q;
  provider : option pid
}.

(** The initial value of [currentState], and the argument of the
    [setState] call in [disconnect]. *)
Definition disconnected : Snapshot :=
  {| isConnected := false; walletType := None; address := None;
     publicKey := None; balance := None; provider := None |}.

(** The argument of [setState]: an object literal with some of the
    fields. *)
Record Patch := {
  set_isConnected : option bool;
  set_walletType : option (option string);
  set_address : option (option string);
  set_publicKey : option (option string);
  set_balance : option (option Q);
  set_provider : option (option pid)
}.

(** [{ ...currentState, ...newState }] *)
Definition merge (s : Snapshot) (newState : Patch) : Snapshot :=
  {| isConnected := default (isConnected s) (set_isConnected newState);
     walletType := default (walletType s) (set_walletType newState);
     address := default (address s) (set_address newState);
     publicKey := default (publicKey s) (set_publicKey newState);
     balance := default (balance s) (set_balance newState);
     provider := default (provider s) (set_provider newState) |}.

Definition patch_all (s : Snapshot) : Patch :=
  {| set_isConnected := Some (isConnected s);
     set_walletType := Some (walletType s);
     set_address := Some (address s);
     set_publicKey := Some (publicKey s);
     set_balance := Some (balance s);
     set_provider := Some (provider s) |}.

Definition patch_balance (b : option Q) : Patch :=
  {| set_isConnected := None; set_walletType := None; set_address := None;
     set_publicKey := None; set_balance := Some b; set_provider := None |}.

(** A subscriber callback receives a state object.  What it does with
    it is given by the contents it leaves in that object, and by whether
    it returns or throws. *)
Inductive SubOutcome :=
| SubReturn (left : Snapshot)
| SubThrow (left : Snapshot) (e : Exn).

Record Subscriber := {
  sub_id : nat;
  callback : Snapshot -> SubOutcome
}.

(** The module-level state: the state objects allocated so far, the
    variable [currentState] (a reference to one of them), the set
    [subscribers] in insertion order, and a record of which object each
    callback invocation was handed. *)
Record Store := {
  heap : list Snapshot;
  currentState : loc;
  subscribers : list Subscriber;
  notified : list (nat * loc)
}.

Definition initial_store : Store :=
  {| heap := [disconnected]; currentState := 0%nat; subscribers := [];
     notified := [] |}.

Definition deref (st : Store) (l : loc) : Snapshot :=
  default disconnected (heap st !! l).

(** The contents of the object [currentState] refers to. *)
Definition current (st : Store) : Snapshot := deref st (currentState st).

Definition write (st : Store) (l : loc) (s : Snapshot) : Store :=
  {| heap := <[l := s]> (heap st); currentState := currentState st;
     subscribers := subscribers st; notified := notified st |}.

(** [callback(currentState)]: the callback is handed the reference held
    by the variable [currentState]. *)
Definition invoke (cb : Subscriber) (st : Store) : Result unit * Store :=
  let l := currentState st in
  let st1 := {| heap := heap st; currentState := currentState st;
                subscribers := subscribers st;
                notified := notified st ++ [(sub_id cb, l)] |} in
  match callback cb (deref st l) with
  | SubReturn s' => (Ok tt, write st1 l s')
  | SubThrow s' e => (Throw e, write st1 l s')
  end.

(** [subscribers.forEach(callback => callback(currentState))] *)
Fixpoint forEach (subs : list Subscriber) (st : Store) : Result unit * Store :=
  match subs with
  | [] => (Ok tt, st)
  | cb :: rest =>
      match invoke cb st with
      | (Ok _, st') => forEach rest st'
      | (Throw e, st') => (Throw e, st')
      end
  end.

Definition setState (newState : Patch) (st : Store) : Result unit * Store :=
  let st' := {| heap := heap st ++ [merge (current st) newState];
                currentState := length (heap st);
                subscribers := subscribers st;
                notified := notified st |} in
  forEach (subscribers st') st'.

(** [getState]: [{ ...currentState }], a fresh object. *)
Definition getState (st : Store) : loc * Store :=
  (length (heap st),
   {| heap := heap st ++ [current st]; currentState := currentState st;
      subscribers := subscribers st; notified := notified st |}).

Definition has_subscriber (id : nat) (subs : list Subscriber) : bool :=
  existsb (fun cb => Nat.eqb (sub_id cb) id) subs.

(** [subscribers.add(callback)]; the returned handle deletes it. *)
Definition subscribe (cb : Subscriber) (st : Store) : nat * Store :=
  (sub_id cb,
   {| heap := heap st; currentState := currentState st;
      subscribers := if has_subscriber (sub_id cb) (subscribers st)
                     then subscribers st else subscribers st ++ [cb];
      notified := notified st |}).

Definition unsubscribe (id : nat) (st : Store) : Store :=
  {| heap := heap st; currentState := currentState st;
     subscribers := filter (fun cb => sub_id cb <> id) (subscribers st);
     notified := notified st |}.

(** *** The asynchronous functions

    Every call of [connect], [disconnect] or [getBalance] is a task.  A
    task runs until it awaits a promise of the provider; the environment
    decides when, and to what, that promise settles. *)

Definition PROVIDER_CLASSES : list string :=
  ["UniSat"; "Xverse"; "OKX"; "Leather"; "Phantom"; "Wizz"; "MagicEden"; "Oyl"].

(** [WALLET_INFO[walletName].downloadUrl] *)
Definition downloadUrl (walletName : string) : string :=
  default "Visit wallet website"
    (assoc walletName
       [("UniSat", "https://unisat.io"); ("Xverse", "https://www.xverse.app");
        ("OKX", "https://www.okx.com/web3"); ("Leather", "https://leather.io");
        ("Phantom", "https://phantom.app"); ("Wizz", "https://wizzwallet.io");
        ("MagicEden", "https://wallet.magiceden.io"); ("Oyl", "https://oyl.io")]).

Definition nl : string := String "010"%char EmptyString.

Definition mem (x : string) (l : list string) : bool :=
  existsb (String.eqb x) l.

(** [PROVIDER_CLASSES] is an object literal: besides its own eight keys
    it answers to the names it inherits from [Object.prototype]. *)
Definition OBJECT_PROTOTYPE : list string :=
  ["constructor"; "hasOwnProperty"; "isPrototypeOf"; "propertyIsEnumerable";
   "toLocaleString"; "toString"; "valueOf"; "__proto__";
   "__defineGetter__"; "__defineSetter__"; "__lookupGetter__"; "__lookupSetter__"].

(** An [async] method called on a [Provider] instance.  The constructor
    call shows in [instances], and [isInstalled()] answers by
    [installed]; neither is recorded here. *)
Inductive ProviderCall :=
| PConnect (p : pid)
| PDisconnect (p : pid)
| PGetBalance (p : pid).

Inductive ConsoleMsg :=
| WarnDisconnectFailed (e : Exn)
| WarnBalance (e : Exn)
| ErrorConnect (walletName : string) (e : Exn)
| WarnBalanceMessage (message : JsVal).

(** Where a task is suspended. *)
Inductive Pending :=
| AwaitHandshake (p : pid) (walletName : string)
    (* connect: [await provider.connect()] *)
| AwaitConnectBalance (p : pid) (walletName : string)
    (* connect: [await provider.getBalance()] *)
| AwaitDisconnect
    (* disconnect: [await currentState.provider.disconnect()] *)
| AwaitBalance.
    (* getBalance: [await currentState.provider.getBalance()] *)

(** What the promise returned by a facade function resolves to. *)
Inductive Ret :=
| RetUndefined
| RetProvider (p : pid)
| RetValue (v : JsVal).

Inductive Task :=
| Suspended (k : Pending)
| Resolved (r : Ret)
| Rejected (e : Exn)
| RejectedWith (reason : JsVal).

Record World := {
  store : Store;
  installed : list string;     (* wallets whose [isInstalled()] holds *)
  instances : list string;     (* the instances created, by wallet name *)
  calls : list ProviderCall;
  console : list ConsoleMsg;
  tasks : list Task
}.

Definition initial_world (installed : list string) : World :=
  {| store := initial_store; installed := installed; instances := [];
     calls := []; console := []; tasks := [] |}.

Definition with_store (w : World) (st : Store) : World :=
  {| store := st; installed := installed w; instances := instances w;
     calls := calls w; console := console w; tasks := tasks w |}.

Definition log_call (c : ProviderCall) (w : World) : World :=
  {| store := store w; installed := installed w; instances := instances w;
     calls := calls w ++ [c]; console := console w; tasks := tasks w |}.

Definition log_console (m : ConsoleMsg) (w : World) : World :=
  {| store := store w; installed := installed w; instances := instances w;
     calls := calls w; console := console w ++ [m]; tasks := tasks w |}.

(** A call of an [async] function: a new task. *)
Definition spawn (t : Task) (w : World) : World :=
  {| store := store w; installed := installed w; instances := instances w;
     calls := calls w; console := console w; tasks := tasks w ++ [t] |}.

Definition set_task (t : tid) (x : Task) (w : World) : World :=
  {| store := store w; installed := installed w; instances := instances w;
     calls := calls w; console := console w; tasks := <[t := x]> (tasks w) |}.

Definition setState_in (newState : Patch) (w : World) : Result unit * World :=
  let '(r, st) := setState newState (store w) in (r, with_store w st).

Definition createProvider (walletName : string) (w : World) : Result pid * World :=
  if negb (mem walletName PROVIDER_CLASSES)
  then
    if String.eqb walletName "constructor"
    then (* [new Object()] has no [isInstalled] *)
      (Throw "TypeError: provider.isInstalled is not a function", w)
    else if mem walletName OBJECT_PROTOTYPE
    then (Throw "TypeError: ProviderClass is not a constructor", w)
    else (Throw ("Unknown wallet: " +:+ walletName), w)
  else
    (* new ProviderClass() *)
    let p := length (instances w) in
    let w' := {| store := store w; installed := installed w;
                 instances := instances w ++ [walletName];
                 calls := calls w; console := console w; tasks := tasks w |} in
    if negb (mem walletName (installed w))
    then (Throw (walletName +:+ " wallet is not installed." +:+ nl +:+ nl +:+
                 "Download: " +:+ downloadUrl walletName), w')
    else (Ok p, w').

(** What [provider.connect()] resolves to, as [connect] reads it:
    [result.address], [result.publicKey], and the instance's own
    [address] and [publicKey] at that moment. *)
Record Handshake := {
  result_address : option string;
  result_publicKey : option string;
  provider_address : option string;
  provider_publicKey : option string
}.

Definition truthyQ (x : option Q) : bool :=
  match x with
  | Some q => negb (Qeq_bool q 0)
  | None => false
  end.

(** [balanceData.total || balanceData.confirmed || 0] *)
Definition totalSats (o : BalanceFields) : Q :=
  if truthyQ (bal_total o) then default 0%Q (bal_total o)
  else if truthyQ (bal_confirmed o) then default 0%Q (bal_confirmed o)
  else 0%Q.

Definition sats_to_btc (sats : Q) : Q := Qred (sats / 100000000).

(** The conversion "to BTC number" of [getBalance] and [connect]. *)
Definition balanceInBTC (balanceData : BalanceData) : Q :=
  match balanceData with
  | BNumber q =>
      if negb (Qle_bool 1 q) && negb (Qle_bool q 0)
      then q                     (* already in BTC *)
      else sats_to_btc q         (* in satoshis *)
  | BObject o => sats_to_btc (totalSats o)
  | BOther => 0%Q
  end.

Definition connected_patch (walletName : string) (h : Handshake) (p : pid) : Patch :=
  {| set_isConnected := Some true;
     set_walletType := Some (Some walletName);
     set_address := Some (orS (result_address h) (provider_address h));
     set_publicKey := Some (orS (result_publicKey h) (provider_publicKey h));
     set_balance := None;
     set_provider := Some (Some p) |}.

(** A promise of the provider settles with a value, or is rejected
    with an [Error] ([Throw e], [e] its message).  The adapters also
    pass on what the wallet itself rejected with: [BalanceRejected] is a
    rejection of [provider.getBalance()] whose reason is a plain value,
    not an [Error]. *)
Inductive Event :=
| Connect (walletName : string)
| Disconnect
| GetBalance
| HandshakeSettled (t : tid) (r : Result Handshake)
| BalanceSettled (t : tid) (r : Result BalanceData)
| DisconnectSettled (t : tid) (r : Result unit)
| BalanceRejected (t : tid) (reason : JsVal).

(** [connect], up to [await provider.connect()]. *)
Definition connect_start (walletName : string) (w : World) : World :=
  match createProvider walletName w with
  | (Throw e, w') => spawn (Rejected e) w'
  | (Ok p, w') =>
      spawn (Suspended (AwaitHandshake p walletName)) (log_call (PConnect p) w')
  end.

(** The outer [catch (error)] of [connect]. *)
Definition connect_failed (t : tid) (walletName : string) (e : Exn) (w : World)
  : World :=
  set_task t (Rejected e) (log_console (ErrorConnect walletName e) w).

(** [connect], from the handshake to [await provider.getBalance()]. *)
Definition connect_handshake (t : tid) (p : pid) (walletName : string)
    (r : Result Handshake) (w : World) : World :=
  match r with
  | Throw e => connect_failed t walletName e w
  | Ok h =>
      match setState_in (connected_patch walletName h p) w with
      | (Throw e, w') => connect_failed t walletName e w'
      | (Ok _, w') =>
          set_task t (Suspended (AwaitConnectBalance p walletName))
            (log_call (PGetBalance p) w')
      end
  end.

(** [connect], from the balance to [return provider]. *)
Definition connect_balance (t : tid) (p : pid) (walletName : string)
    (r : Result BalanceData) (w : World) : World :=
  let inner :=
    match r with
    | Throw e => (Throw e, w)
    | Ok balanceData => setState_in (patch_balance (Some (balanceInBTC balanceData))) w
    end in
  match inner with
  | (Ok _, w') => set_task t (Resolved (RetProvider p)) w'
  | (Throw balanceError, w') =>
      match setState_in (patch_balance None) (log_console (WarnBalance balanceError) w') with
      | (Ok _, w'') => set_task t (Resolved (RetProvider p)) w''
      | (Throw e, w'') => connect_failed t walletName e w''
      end
  end.

(** The inner [catch (balanceError)] of [connect], entered with a reason
    that is not an [Error]: [balanceError.message] is read first, and
    what that throws goes to the outer [catch]. *)
Definition connect_balance_rejected (t : tid) (p : pid) (walletName : string)
    (reason : JsVal) (w : World) : World :=
  match get_prop reason "message" with
  | Throw e => connect_failed t walletName e w
  | Ok message =>
      match setState_in (patch_balance None)
              (log_console (WarnBalanceMessage message) w) with
      | (Ok _, w'') => set_task t (Resolved (RetProvider p)) w''
      | (Throw e, w'') => connect_failed t walletName e w''
      end
  end.

(** [disconnect], up to the [await]; without a provider it runs to the
    end. *)
Definition finish_disconnect (w : World) : Task * World :=
  match setState_in (patch_all disconnected) w with
  | (Ok _, w') => (Resolved RetUndefined, w')
  | (Throw e, w') => (Rejected e, w')
  end.

Definition disconnect_start (w : World) : World :=
  match provider (current (store w)) with
  | Some p => spawn (Suspended AwaitDisconnect) (log_call (PDisconnect p) w)
  | None => let '(t, w') := finish_disconnect w in spawn t w'
  end.

Definition disconnect_settled (t : tid) (r : Result unit) (w : World) : World :=
  let w1 := match r with
            | Throw error => log_console (WarnDisconnectFailed error) w
            | Ok _ => w
            end in
  let '(x, w2) := finish_disconnect w1 in set_task t x w2.

Definition getBalance_start (w : World) : World :=
  match provider (current (store w)) with
  | None => spawn (Rejected "No wallet connected") w
  | Some p => spawn (Suspended AwaitBalance) (log_call (PGetBalance p) w)
  end.

Definition getBalance_settled (t : tid) (r : Result BalanceData) (w : World) : World :=
  match r with
  | Throw e => set_task t (Rejected e) w
  | Ok balanceData =>
      let btc := balanceInBTC balanceData in
      match setState_in (patch_balance (Some btc)) w with
      | (Ok _, w') => set_task t (Resolved (RetValue (VNum btc))) w'
      | (Throw e, w') => set_task t (Rejected e) w'
      end
  end.

(** One event.  A settlement that no task is waiting for does not
    occur. *)
Definition step (w : World) (ev : Event) : World :=
  match ev with
  | Connect walletName => connect_start walletName w
  | Disconnect => disconnect_start w
  | GetBalance => getBalance_start w
  | HandshakeSettled t r =>
      match tasks w !! t with
      | Some (Suspended (AwaitHandshake p walletName)) =>
          connect_handshake t p walletName r w
      | _ => w
      end
  | BalanceSettled t r =>
      match tasks w !! t with
      | Some (Suspended (AwaitConnectBalance p walletName)) =>
          connect_balance t p walletName r w
      | Some (Suspended AwaitBalance) => getBalance_settled t r w
      | _ => w
      end
  | DisconnectSettled t r =>
      match tasks w !! t with
      | Some (Suspended AwaitDisconnect) => disconnect_settled t r w
      | _ => w
      end
  | BalanceRejected t reason =>
      match tasks w !! t with
      | Some (Suspended (AwaitConnectBalance p walletName)) =>
          connect_balance_rejected t p walletName reason w
      | Some (Suspended AwaitBalance) => set_task t (RejectedWith reason) w
      | _ => w
      end
  end.

Definition run (w : World) (evs : list Event) : World := foldl step w evs.

(** The pass-through functions ([pushPsbt], [pushTx], ...):
    [if (!currentState.provider) throw new Error('No wallet connected');
     return await currentState.provider.method(...args)]. *)
Definition pass_through {A} (provider : option BaseWalletProvider.Provider)
    (method : BaseWalletProvider.Provider -> BaseWalletProvider.M A)
  : BaseWalletProvider.M A :=
  match provider with
  | None => BaseWalletProvider.throw "No wallet connected"
  | Some p => method p
  end.

(** The normalization of [getInscriptions]: [result.list] when that is an
    array, [result] when it is an array itself, else [[]]. *)
Definition inscriptions_list (result : JsVal) : JsVal :=
  if truthy result && typeof_object result &&
     match prop result "list" with VArr _ => true | _ => false end
  then prop result "list"
  else match result with
       | VArr _ => result
       | _ => VArr []
       end.

(** [getInscriptions(...args)]; [method] is the active provider's
    [getInscriptions] applied to the arguments. *)
Definition getInscriptions (provider : option BaseWalletProvider.Provider)
    (method : BaseWalletProvider.Provider -> BaseWalletProvider.M JsVal)
  : BaseWalletProvider.M JsVal :=
  pass_through provider
    (fun p => BaseWalletProvider.bind (method p)
                (fun result => BaseWalletProvider.ret (inscriptions_list result))).

End Facade.

(** ** Sample wallets

    Injected wallet objects and subscribers used to instantiate the
    properties below. *)

Module Samples.
Import Js.

(** A wallet object with no methods. *)
Definition bare_handle : BaseWalletProvider.Handle :=
  {| BaseWalletProvider.has_method := fun _ => false;
     BaseWalletProvider.respond := fun _ _ _ => Ok VUndefined |}.

Definition inscription (i : nat) : JsVal :=
  VObj [("inscriptionId", VStr "i0"); ("inscriptionNumber", VNum (inject_Z (Z.of_nat i)))].

Definition page_items (n : nat) : list JsVal := map inscription (seq 0 n).

(** A wallet whose [getInscriptions] answers [{list, total}]: a full page
    of 100 on each of the first [full] requests, [k] items afterwards. *)
Definition paged_handle (full k : nat) : BaseWalletProvider.Handle :=
  {| BaseWalletProvider.has_method := fun m => String.eqb m "getInscriptions";
     BaseWalletProvider.respond := fun m i _ =>
       if String.eqb m "getInscriptions"
       then Ok (VObj [("list", VArr (page_items (if Nat.ltb i full then 100 else k)));
                      ("total", VNum (inject_Z (Z.of_nat (full * 100 + k))))])
       else Throw "not a function" |}.

(** A wallet that never signals the end of its inscriptions: every
    request is answered with [{list, total}] and a full page. *)
Definition endless_handle : BaseWalletProvider.Handle :=
  {| BaseWalletProvider.has_method := fun m => String.eqb m "getInscriptions";
     BaseWalletProvider.respond := fun m _ _ =>
       if String.eqb m "getInscriptions"
       then Ok (VObj [("list", VArr (page_items 100));
                      ("total", VNum (inject_Z 1000000))])
       else Throw "not a function" |}.

(** [state => { state.walletType = 'evil' }] *)
Definition tamper : Facade.Subscriber :=
  {| Facade.sub_id := 0%nat;
     Facade.callback := fun s =>
       Facade.SubReturn
         {| Facade.isConnected := Facade.isConnected s;
            Facade.walletType := Some "evil";
            Facade.address := Facade.address s;
            Facade.publicKey := Facade.publicKey s;
            Facade.balance := Facade.balance s;
            Facade.provider := Facade.provider s |} |}.

(** [state => { throw new Error('subscriber failed') }] *)
Definition thrower : Facade.Subscriber :=
  {| Facade.sub_id := 1%nat;
     Facade.callback := fun s => Facade.SubThrow s "subscriber failed" |}.

(** [state => { console.log(state) }]: reads, neither writes nor throws. *)
Definition observer : Facade.Subscriber :=
  {| Facade.sub_id := 2%nat;
     Facade.callback := fun s => Facade.SubReturn s |}.

Definition sample_handshake (addr : string) : Facade.Handshake :=
  {| Facade.result_address := Some addr; Facade.result_publicKey := None;
     Facade.provider_address := Some addr; Facade.provider_publicKey := None |}.

(** The canonical balance [{confirmed: c, unconfirmed: u, total: c + u}]
    as a provider hands it to the facade. *)
Definition canonical_balance (c u : Z) : BalanceData :=
  BObject {| bal_confirmed := Some (inject_Z c);
             bal_unconfirmed := Some (inject_Z u);
             bal_total := Some (inject_Z (c + u)) |}.

(** A wallet whose every method resolves with [null]. *)
Definition null_handle : BaseWalletProvider.Handle :=
  {| BaseWalletProvider.has_method := fun _ => true;
     BaseWalletProvider.respond := fun _ _ _ => Ok VNull |}.

(** A wallet that signs: [signPsbt] resolves with the PSBT it was given,
    and there is no batch method. *)
Definition signing_handle : BaseWalletProvider.Handle :=
  {| BaseWalletProvider.has_method := fun m => String.eqb m "signPsbt";
     BaseWalletProvider.respond := fun m _ args =>
       if String.eqb m "signPsbt" then Ok (default VUndefined (head args))
       else Throw "not a function" |}.

(** A wallet that serves [full] pages of 100 records, as [{list}], and
    then answers with [last]. *)
Definition pages_then (full : nat) (last : Result JsVal) : BaseWalletProvider.Handle :=
  {| BaseWalletProvider.has_method := fun m => String.eqb m "getInscriptions";
     BaseWalletProvider.respond := fun m i _ =>
       if String.eqb m "getInscriptions"
       then (if Nat.ltb i full then Ok (VObj [("list", VArr (page_items 100))])
             else last)
       else Throw "not a function" |}.

End Samples.

(** ** Observations

    What the properties below speak about: the requests a pagination run
    makes and what the wallet serves, and how subscribers behave. *)

Module Observe.
Import Js.

(** The [i]-th page request: [getInscriptions(i * pageSize, pageSize)]. *)
Definition page_request (i : nat) : BaseWalletProvider.HandleCall :=
  {| BaseWalletProvider.hc_method := "getInscriptions";
     BaseWalletProvider.hc_args :=
       [VNum (inject_Z (Z.of_nat i * BaseWalletProvider.pageSize));
        VNum (inject_Z BaseWalletProvider.pageSize)] |}.

(** The cursor of the [i]-th page request of [getAllInscriptions]. *)
Definition page_cursor (i : nat) : Z := Z.of_nat i * BaseWalletProvider.pageSize.

(** The effects once the first [n] page requests
    [this.getInscriptions(0, 100)], [this.getInscriptions(100, 100)], ...
    have been made one after the other, starting from [st].
    [this_getInscriptions] is the single-page method of the instance,
    the default one or the one of its adapter class. *)
Fixpoint after_requests
    (this_getInscriptions : Z -> Z -> BaseWalletProvider.M JsVal)
    (st : BaseWalletProvider.Effects) (n : nat) : BaseWalletProvider.Effects :=
  match n with
  | O => st
  | S n' =>
      snd (this_getInscriptions (page_cursor n') BaseWalletProvider.pageSize
             (after_requests this_getInscriptions st n'))
  end.

(** What the [i]-th of these requests settles to. *)
Definition page_answer
    (this_getInscriptions : Z -> Z -> BaseWalletProvider.M JsVal)
    (st : BaseWalletProvider.Effects) (i : nat) : Result JsVal :=
  fst (this_getInscriptions (page_cursor i) BaseWalletProvider.pageSize
         (after_requests this_getInscriptions st i)).

Definition array_items (v : JsVal) : option (list JsVal) :=
  match v with
  | VArr items => Some items
  | _ => None
  end.

(** The records an answer carries: those of [{list: [...]}]; without a
    truthy [list], those of [{inscriptions: [...]}]; those of a bare
    array.  [None]: the answer carries no array of records. *)
Definition records_of (result : JsVal) : option (list JsVal) :=
  match result with
  | VArr items => Some items
  | VObj fields =>
      let l := default VUndefined (assoc "list" fields) in
      if truthy l then array_items l
      else array_items (default VUndefined (assoc "inscriptions" fields))
  | _ => None
  end.

Definition page_records
    (this_getInscriptions : Z -> Z -> BaseWalletProvider.M JsVal)
    (st : BaseWalletProvider.Effects) (i : nat) : list JsVal :=
  match page_answer this_getInscriptions st i with
  | Ok result => default [] (records_of result)
  | Throw _ => []
  end.

(** The [i]-th page request resolves with an answer that carries [n]
    records. *)
Definition serves_page
    (this_getInscriptions : Z -> Z -> BaseWalletProvider.M JsVal)
    (st : BaseWalletProvider.Effects) (i n : nat) : Prop :=
  exists result items,
    page_answer this_getInscriptions st i = Ok result /\
    records_of result = Some items /\
    length items = n.

(** The requests number [i], [i + 1], ..., [i + n - 1], made one after
    the other from [st], each resolve with a full page. *)
Fixpoint full_pages_from
    (this_getInscriptions : Z -> Z -> BaseWalletProvider.M JsVal)
    (st : BaseWalletProvider.Effects) (i n : nat) : bool :=
  match n with
  | O => true
  | S n' =>
      match this_getInscriptions (page_cursor i) BaseWalletProvider.pageSize st with
      | (Ok result, st') =>
          match records_of result with
          | Some items =>
              Nat.eqb (length items) 100 &&
              full_pages_from this_getInscriptions st' (S i) n'
          | None => false
          end
      | (Throw _, _) => false
      end
  end.

(** [console.warn(msg)] on top of the effects [st]. *)
Definition with_warning (msg : BaseWalletProvider.ConsoleMsg)
    (st : BaseWalletProvider.Effects) : BaseWalletProvider.Effects :=
  {| BaseWalletProvider.calls := BaseWalletProvider.calls st;
     BaseWalletProvider.console := BaseWalletProvider.console st ++ [msg] |}.

Definition add_calls (st : BaseWalletProvider.Effects)
    (cs : list BaseWalletProvider.HandleCall) : BaseWalletProvider.Effects :=
  {| BaseWalletProvider.calls := BaseWalletProvider.calls st ++ cs;
     BaseWalletProvider.console := BaseWalletProvider.console st |}.

(** Of a finished [getAllInscriptions]: how many records it returned, how
    many calls the wallet received, and what went to the console. *)
Definition outcome_size
    (r : Result (list JsVal) * BaseWalletProvider.Effects)
  : option (nat * nat * list BaseWalletProvider.ConsoleMsg) :=
  match r with
  | (Ok all, st) =>
      Some (length all, length (BaseWalletProvider.calls st),
            BaseWalletProvider.console st)
  | (Throw _, _) => None
  end.

(** What a callback leaves in the object it was handed. *)
Definition left_by (o : Facade.SubOutcome) : Facade.Snapshot :=
  match o with
  | Facade.SubReturn s => s
  | Facade.SubThrow s _ => s
  end.

Definition never_throws (cb : Facade.Subscriber) : Prop :=
  forall s, Facade.callback cb s = Facade.SubReturn (left_by (Facade.callback cb s)).

(** A callback that only reads the object it is handed. *)
Definition passive (cb : Facade.Subscriber) : Prop :=
  forall s, Facade.callback cb s = Facade.SubReturn s.

(** The contents of a published object after the callbacks have run on
    it, one after the other. *)
Definition published (subs : list Facade.Subscriber) (s : Facade.Snapshot)
  : Facade.Snapshot :=
  foldl (fun s cb => left_by (Facade.callback cb s)) s subs.

(** The canonical balance object
    [{confirmed, unconfirmed, total}] with integer fields and
    [total == confirmed + unconfirmed]. *)
Definition is_canonical_balance (v : JsVal) : Prop :=
  exists (fields : list (string * JsVal)) (c u : Z),
    v = VObj fields /\
    assoc "confirmed" fields = Some (VNum (inject_Z c)) /\
    assoc "unconfirmed" fields = Some (VNum (inject_Z u)) /\
    assoc "total" fields = Some (VNum (inject_Z (c + u))).

(** [walletName] names an adapter class whose wallet is installed:
    [createProvider] succeeds. *)
Definition creatable (w : Facade.World) (walletName : string) : Prop :=
  Facade.mem walletName Facade.PROVIDER_CLASSES = true /\
  Facade.mem walletName (Facade.installed w) = true.

(** The settlement of a balance promise. *)
Definition is_balance_event (ev : Facade.Event) : bool :=
  match ev with
  | Facade.BalanceSettled _ _ => true
  | Facade.BalanceRejected _ _ => true
  | _ => false
  end.

(** [w'] has the connection of [w]: the same wallet, provider and
    subscribers, the same calls made, and every [connect] that awaited
    its handshake in [w] still awaits it. *)
Definition same_connection (w w' : Facade.World) : Prop :=
  Facade.walletType (Facade.current (Facade.store w')) =
    Facade.walletType (Facade.current (Facade.store w)) /\
  Facade.provider (Facade.current (Facade.store w')) =
    Facade.provider (Facade.current (Facade.store w)) /\
  Facade.subscribers (Facade.store w') = Facade.subscribers (Facade.store w) /\
  Facade.calls w' = Facade.calls w /\
  forall t p n,
    Facade.tasks w !! t = Some (Facade.Suspended (Facade.AwaitHandshake p n)) ->
    Facade.tasks w' !! t = Some (Facade.Suspended (Facade.AwaitHandshake p n)).

(** The state agrees with the provider it refers to: with a provider,
    [isConnected] holds and [walletType] names the class of that
    instance; without one, [isConnected] is off and [walletType] is
    [null]. *)
Definition store_consistent (w : Facade.World) : Prop :=
  let s := Facade.current (Facade.store w) in
  match Facade.provider s with
  | Some p =>
      Facade.isConnected s = true /\
      exists n, Facade.walletType s = Some n /\ Facade.instances w !! p = Some n
  | None => Facade.isConnected s = false /\ Facade.walletType s = None
  end.

(** Every [connect] awaiting its handshake holds an instance of the
    class it was asked for. *)
Definition handshakes_wf (w : Facade.World) : Prop :=
  forall t p n,
    Facade.tasks w !! t = Some (Facade.Suspended (Facade.AwaitHandshake p n)) ->
    Facade.instances w !! p = Some n.

(** A normalized balance as a provider hands it to the facade. *)
Definition balance_data (b : Normalizers.Balance) : BalanceData :=
  BObject {| bal_confirmed := Some (inject_Z (Normalizers.nconfirmed b));
             bal_unconfirmed := Some (inject_Z (Normalizers.nunconfirmed b));
             bal_total := Some (inject_Z (Normalizers.ntotal b)) |}.

(** A value that [x || undefined] gives back: truthy, or [undefined]. *)
Definition survives_or (v : JsVal) : bool :=
  truthy v || match v with VUndefined => true | _ => false end.

(** The fields of a normalized inscription that are read through a chain
    of [||]. *)
Definition chained_fields (n : Normalizers.Inscription) : list JsVal :=
  [Normalizers.inscriptionId n; Normalizers.inscriptionNumber n;
   Normalizers.outputValue n; Normalizers.contentType n;
   Normalizers.contentLength n; Normalizers.genesisTransaction n].


(** A string without the separator ['.']. *)
Fixpoint dotless (s : string) : bool :=
  match s with
  | EmptyString => true
  | String c rest => negb (Ascii.eqb c "."%char) && dotless rest
  end.

Definition is_array (v : JsVal) : bool :=
  match v with
  | VArr _ => true
  | _ => false
  end.

(** The call [signPsbt(psbt, options)] on the wallet object. *)
Definition signPsbt_call (options psbt : JsVal) : BaseWalletProvider.HandleCall :=
  {| BaseWalletProvider.hc_method := "signPsbt";
     BaseWalletProvider.hc_args := [psbt; options] |}.

(** The error is a [TypeError], whatever its message. *)
Definition is_TypeError (e : Exn) : bool := String.prefix "TypeError: " e.


(** How the promise of [provider.getBalance()] fails: with an [Error]
    (given by its message), or with any other value as its reason. *)
Inductive BalanceFailure :=
| FailsWithError (e : Exn)
| FailsWith (reason : JsVal).

Definition balance_failed (t : Facade.tid) (f : BalanceFailure) : Facade.Event :=
  match f with
  | FailsWithError e => Facade.BalanceSettled t (Throw e)
  | FailsWith reason => Facade.BalanceRejected t reason
  end.

(** [balanceError.message] can be read: the reason is neither [null] nor
    [undefined]. *)
Definition has_message (f : BalanceFailure) : bool :=
  match f with
  | FailsWithError _ => true
  | FailsWith reason => negb (is_nullish reason)
  end.

(** What every reachable world satisfies, as long as subscribers only
    read the state. *)
Definition connection_invariant (w : Facade.World) : Prop :=
  Forall passive (Facade.subscribers (Facade.store w)) /\
  store_consistent w /\
  handshakes_wf w.

End Observe.

(** * Properties *)

(** ** Balance normalization *)

Section BalanceNormalization.
Import Js Normalizers.

Lemma orZ0_self n : orZ0 (Some n) 0 = n.
Proof. unfold orZ0. destruct (Z.eqb_spec n 0); congruence. Qed.

Lemma orZ_undefined_l x : orZ None x = x.
Proof. reflexivity. Qed.

Lemma orZ_nonzero n x : n <> 0 -> orZ (Some n) x = Some n.
Proof.
  intros Hn. unfold orZ, truthyZ.
  destruct (Z.eqb_spec n 0); [contradiction | reflexivity].
Qed.

Lemma orZ0_orZ_undefined_r n : orZ0 (orZ (Some n) None) 0 = n.
Proof.
  unfold orZ, truthyZ.
  destruct (Z.eqb_spec n 0) as [-> | Hn]; simpl; [reflexivity |].
  destruct (Z.eqb_spec n 0); congruence.
Qed.

(** A bare number is taken as confirmed satoshis. *)
Lemma normalizeBalance_number n walletName :
  normalizeBalance (RawNumber n) walletName =
  {| nconfirmed := n; nunconfirmed := 0; ntotal := n |}.
Proof. reflexivity. Qed.

(** For an object, [total] is recomputed, whatever the wallet. *)
Lemma normalizeBalance_total b walletName :
  ntotal (normalizeBalance (RawObject b) walletName) =
  nconfirmed (normalizeBalance (RawObject b) walletName) +
  nunconfirmed (normalizeBalance (RawObject b) walletName).
Proof.
  unfold normalizeBalance.
  destruct (String.eqb walletName "Xverse"); [reflexivity |].
  destruct (String.eqb walletName "UniSat"); reflexivity.
Qed.

(** C6, as stated, fails: with the discriminator ['OKX'] the field
    [confirm] is not read, and [{confirm: 100, pending: 50}] normalizes
    to [{confirmed: 0, unconfirmed: 50, total: 50}]. *)
Lemma confirm_pending_not_read_for_OKX :
  normalizeBalance (RawObject (confirm_pending_object 100 50)) "OKX" =
    {| nconfirmed := 0; nunconfirmed := 50; ntotal := 50 |} /\
  normalizeBalance (RawObject (confirm_pending_object 100 50)) "OKX" <>
    {| nconfirmed := 100; nunconfirmed := 50; ntotal := 150 |}.
Proof. split; [reflexivity | discriminate]. Qed.

(** C6, amended: [{confirm: 100, pending: 50}] normalizes to
    [{confirmed: 100, unconfirmed: 50, total: 150}] when the wallet-name
    discriminator is ['UniSat'], the one case that reads [confirm]; with
    ['Xverse'] the result is all zeros, and with any other discriminator
    it is [{confirmed: 0, unconfirmed: 50, total: 50}]. *)
Theorem normalizeBalance_confirm_pending walletName :
  normalizeBalance (RawObject (confirm_pending_object 100 50)) walletName =
  if String.eqb walletName "UniSat"
  then {| nconfirmed := 100; nunconfirmed := 50; ntotal := 150 |}
  else if String.eqb walletName "Xverse"
  then {| nconfirmed := 0; nunconfirmed := 0; ntotal := 0 |}
  else {| nconfirmed := 0; nunconfirmed := 50; ntotal := 50 |}.
Proof.
  unfold normalizeBalance.
  destruct (String.eqb_spec walletName "Xverse") as [-> | _]; [reflexivity |].
  destruct (String.eqb walletName "UniSat"); reflexivity.
Qed.

(** C7 at the failing input: the canonical object
    [{confirmed: 0, unconfirmed: 5, total: 5}] with the discriminator
    ['OKX'] comes back as [{confirmed: 5, unconfirmed: 5, total: 10}]:
    the zero [confirmed] is falsy, so the chain
    [confirmed || amount || total || 0] picks [total]. *)
Theorem normalizeBalance_zero_confirmed_doubles :
  normalizeBalance (RawObject (canonical_object 0 5 (0 + 5))) "OKX" =
    {| nconfirmed := 5; nunconfirmed := 5; ntotal := 10 |} /\
  as_object (normalizeBalance (RawObject (canonical_object 0 5 (0 + 5))) "OKX") <>
    canonical_object 0 5 (0 + 5).
Proof. split; [reflexivity | discriminate]. Qed.

(** Where the normalizer is idempotent: a canonical object whose
    [confirmed] is not zero, under any discriminator. *)
Lemma normalizeBalance_idempotent_confirmed_nonzero c u walletName :
  c <> 0 ->
  as_object (normalizeBalance (RawObject (canonical_object c u (c + u))) walletName) =
  canonical_object c u (c + u).
Proof.
  intros Hc. unfold normalizeBalance, as_object, canonical_object.
  cbn [confirmed amount total unconfirmed pending confirm].
  rewrite !orZ_undefined_l, !orZ0_self.
  rewrite (orZ_nonzero c None Hc), (orZ_nonzero c (Some (c + u)) Hc), orZ0_self.
  rewrite orZ0_orZ_undefined_r.
  destruct (String.eqb walletName "Xverse"); [reflexivity |].
  destruct (String.eqb walletName "UniSat"); reflexivity.
Qed.

(** The ['Xverse'] and ['UniSat'] cases read [confirmed] and
    [unconfirmed] alone, and are idempotent also at zero. *)
Lemma normalizeBalance_idempotent_Xverse_UniSat c u walletName :
  walletName = "Xverse" \/ walletName = "UniSat" ->
  as_object (normalizeBalance (RawObject (canonical_object c u (c + u))) walletName) =
  canonical_object c u (c + u).
Proof.
  intros [-> | ->]; unfold normalizeBalance, as_object, canonical_object;
    cbn [confirmed amount total unconfirmed pending confirm];
    rewrite ?orZ_undefined_l, !orZ0_self; reflexivity.
Qed.

End BalanceNormalization.


(** ** The capability guard *)

Section CapabilityGuard.
Import Js Capability BaseWalletProvider Adapters.

Lemma flag_false_walk current parts :
  flag_at current parts = Some (FBool false) -> walk current parts = false.
Proof.
  revert current. induction parts as [| part rest IH]; intros current Hflag.
  - simpl in *. subst current. reflexivity.
  - simpl in *. destruct current as [[b | entries] |]; try discriminate.
    apply IH. exact Hflag.
Qed.

(** A flag written [false] is not supported. *)
Lemma declared_false_not_supported features methodPath :
  declared_false features methodPath = true ->
  supportsMethod features methodPath = false.
Proof.
  unfold declared_false, supportsMethod. intros H.
  apply flag_false_walk.
  destruct (flag_at (Some features) (split_dot methodPath)) as [[[|] | ?] |];
    try discriminate.
  reflexivity.
Qed.

(** A path that does not exist is not supported either. *)
Lemma supportsMethod_missing_path :
  supportsMethod (features_of Phantom) "pushPsbt" = false /\
  supportsMethod (features_of Leather) "runes.etch" = false /\
  supportsMethod (features_of Xverse) "runes.etch" = true.
Proof. repeat split; reflexivity. Qed.

(** The guard of [safeCall] fails before the callback runs. *)
Lemma safeCall_rejects {A} self methodPath (callback : M A) st :
  supportsMethod (features self) methodPath = false ->
  safeCall self methodPath callback None st =
  (Throw (name self +:+ " does not support " +:+ methodPath), st).
Proof. intros H. unfold safeCall. rewrite H. reflexivity. Qed.

(** Every default method that goes through [safeCall] rejects, on an
    installed and connected instance, when its flag is not [true], and
    leaves the record of wallet calls as it was. *)
Lemma default_method_guard self op h this_signPsbt args st :
  walletInstance self = Some h ->
  isConnected self = true ->
  truthyS (address self) = true ->
  supportsMethod (features self) (op_name op) = false ->
  default_method op self this_signPsbt args st =
  (Throw (name self +:+ " does not support " +:+ op_name op), st).
Proof.
  intros Hh Hc Ha Hs.
  destruct op; simpl in Hs |- *;
    unfold getPublicKey, getNetwork, switchNetwork, signPsbts, pushPsbt, pushTx,
      sendInscription, inscribe, bind, requireInstalled, requireConnected;
    rewrite Hh, ?Hc, ?Ha; simpl; apply safeCall_rejects; exact Hs.
Qed.

(** C2, as stated, fails: Magic Eden's descriptor declares
    [getBalance: false], yet with a connected Magic Eden instance active
    its [getBalance] resolves with a zero balance, and the facade's
    [getBalance()] resolves with [0]: nothing is rejected. *)
Lemma MagicEden_getBalance_is_not_guarded :
  let p := connected_provider MagicEden (Some Samples.bare_handle) "bc1pmagic" in
  let zero := BObject {| bal_confirmed := Some 0%Q; bal_unconfirmed := Some 0%Q;
                         bal_total := Some 0%Q |} in
  declared_false (features_of MagicEden) "getBalance" = true /\
  Facade.pass_through (Some p) MagicEden_getBalance no_effects = (Ok zero, no_effects) /\
  Facade.tasks
    (Facade.run (Facade.initial_world ["MagicEden"])
       [Facade.Connect "MagicEden";
        Facade.HandshakeSettled 0%nat (Ok (Samples.sample_handshake "bc1pmagic"));
        Facade.BalanceSettled 0%nat (Ok zero);
        Facade.GetBalance;
        Facade.BalanceSettled 1%nat (Ok zero)]) !! 1%nat =
  Some (Facade.Resolved (Facade.RetValue (VNum 0%Q))).
Proof. repeat split; vm_compute; reflexivity. Qed.

(** C2, amended: for every wallet [w] and every operation among
    [getPublicKey], [getNetwork], [switchNetwork], [signPsbts],
    [pushPsbt], [pushTx], [sendInscription] and [inscribe] that the
    adapter of [w] leaves to the provider contract and whose flag is
    declared [false] in the descriptor of [w], the facade pass-through
    called while a connected instance of [w] is active rejects with
    ["<wallet> does not support <operation>"], and no method of the
    injected wallet object is invoked. *)
Theorem guarded_default_rejects_declared_false
    (w : Wallet) (op : GuardedOp) (h : Handle) (addr : string)
    (method : Provider -> (JsVal -> JsVal -> M JsVal) -> list JsVal -> M JsVal)
    (this_signPsbt : JsVal -> JsVal -> M JsVal) (args : list JsVal) (st : Effects) :
  addr <> EmptyString ->
  inherited_method w op = Some method ->
  declared_false (features_of w) (op_name op) = true ->
  Facade.pass_through (Some (connected_provider w (Some h) addr))
    (fun p => method p this_signPsbt args) st =
  (Throw (wallet_name w +:+ " does not support " +:+ op_name op), st).
Proof.
  intros Haddr Hmethod Hflag. unfold inherited_method in Hmethod.
  destruct (inherits w op); [| discriminate].
  injection Hmethod as <-. unfold Facade.pass_through.
  change (wallet_name w) with (name (connected_provider w (Some h) addr)).
  apply (default_method_guard _ op h); try reflexivity.
  - simpl. destruct (String.eqb_spec addr ""); [contradiction | reflexivity].
  - apply declared_false_not_supported. exact Hflag.
Qed.

Lemma guarded_default_rejects_declared_false_witness :
  inherited_method Leather OpPushPsbt = Some (default_method OpPushPsbt) /\
  declared_false (features_of Leather) "pushPsbt" = true /\
  Facade.pass_through
    (Some (connected_provider Leather (Some Samples.bare_handle) "bc1qleather"))
    (fun p => default_method OpPushPsbt p
                (signPsbt (new_provider Leather (Some Samples.bare_handle)))
                [VStr "70736274ff"]) no_effects =
  (Throw "Leather does not support pushPsbt", no_effects).
Proof.
  split; [reflexivity |]. split; [reflexivity |].
  apply (guarded_default_rejects_declared_false Leather OpPushPsbt
           Samples.bare_handle "bc1qleather" (default_method OpPushPsbt));
    [discriminate | reflexivity | reflexivity].
Defined.

(** The wallet/operation pairs the amended C2 covers. *)
Lemma guarded_pairs :
  filter (fun '(w, op) =>
            is_Some (inherited_method w op) /\
            declared_false (features_of w) (op_name op) = true)
    (w ← all_wallets; op ← all_guarded_ops; [(w, op)]) =
  [(UniSat, OpPushTx); (UniSat, OpSendInscription);
   (OKX, OpSwitchNetwork);
   (Leather, OpGetPublicKey); (Leather, OpGetNetwork); (Leather, OpSwitchNetwork);
   (Leather, OpSignPsbts); (Leather, OpPushPsbt); (Leather, OpPushTx);
   (Leather, OpSendInscription); (Leather, OpInscribe);
   (Wizz, OpSignPsbts); (Wizz, OpPushTx); (Wizz, OpSendInscription);
   (MagicEden, OpGetPublicKey); (MagicEden, OpSwitchNetwork); (MagicEden, OpPushPsbt);
   (MagicEden, OpPushTx); (MagicEden, OpSendInscription); (MagicEden, OpInscribe);
   (Oyl, OpGetPublicKey); (Oyl, OpPushTx); (Oyl, OpSendInscription); (Oyl, OpInscribe)].
Proof. vm_compute. reflexivity. Qed.

End CapabilityGuard.

(** ** Pagination *)

Section Pagination.
Import Js BaseWalletProvider Observe.

(** The single-page method of the instance: the default
    [getInscriptions], or the one its adapter class defines. *)
Variable this_getInscriptions : Z -> Z -> M JsVal.
Variable st : Effects.

Lemma add_calls_nil st0 : add_calls st0 [] = st0.
Proof. destruct st0. unfold add_calls; simpl. rewrite app_nil_r. reflexivity. Qed.

Lemma add_calls_app st0 cs1 cs2 :
  add_calls (add_calls st0 cs1) cs2 = add_calls st0 (cs1 ++ cs2).
Proof. unfold add_calls; simpl. rewrite app_assoc. reflexivity. Qed.

(** [result.list || result.inscriptions || result] reads the records an
    answer carries. *)
Lemma records_of_page_of result items :
  records_of result = Some items -> page_of result = Ok (VArr items).
Proof.
  destruct result as [| | b | q | s | items0 | fields]; try discriminate.
  - intros H. injection H as ->. reflexivity.
  - unfold records_of, page_of. cbn [get_prop].
    destruct (default VUndefined (assoc "list" fields)) as [| | b | q | s | l | o]
      eqn:Hl; cbn [truthy array_items];
      try discriminate;
      try (intros H; injection H as ->; reflexivity);
      try (destruct (default VUndefined (assoc "inscriptions" fields));
           cbn [array_items]; try discriminate;
           intros H; injection H as ->; reflexivity).
    + destruct b; [discriminate |].
      destruct (default VUndefined (assoc "inscriptions" fields));
        cbn [array_items]; try discriminate.
      intros H; injection H as ->; reflexivity.
    + destruct (negb (Qeq_bool q 0)); [discriminate |].
      destruct (default VUndefined (assoc "inscriptions" fields));
        cbn [array_items]; try discriminate.
      intros H; injection H as ->; reflexivity.
    + destruct (negb (String.eqb s EmptyString)); [discriminate |].
      destruct (default VUndefined (assoc "inscriptions" fields));
        cbn [array_items]; try discriminate.
      intros H; injection H as ->; reflexivity.
Qed.

(** An answer other than [null] and [undefined] that carries no records
    reads as something that is not an array. *)
Lemma page_of_not_array result :
  is_nullish result = false ->
  records_of result = None ->
  exists v, page_of result = Ok v /\ is_array v = false.
Proof.
  destruct result as [| | b | q | s | items0 | fields]; try discriminate;
    intros _ Hnone.
  - eexists; split; reflexivity.
  - eexists; split; reflexivity.
  - eexists; split; reflexivity.
  - revert Hnone. unfold records_of, page_of. cbn [get_prop].
    destruct (truthy (default VUndefined (assoc "list" fields))) eqn:Hl.
    + intros Hnone. eexists; split; [reflexivity |].
      destruct (default VUndefined (assoc "list" fields)); try reflexivity.
      discriminate.
    + intros Hnone. eexists; split; [reflexivity |]. unfold or.
      destruct (truthy (default VUndefined (assoc "inscriptions" fields)));
        [| reflexivity].
      destruct (default VUndefined (assoc "inscriptions" fields)); try reflexivity.
      discriminate.
Qed.

Lemma page_cursor_S i : page_cursor i + pageSize = page_cursor (S i).
Proof. unfold page_cursor, pageSize. lia. Qed.

(** One turn of the loop, when the request resolves with records. *)
Lemma pages_loop_turn remaining i allInscriptions result items :
  page_answer this_getInscriptions st i = Ok result ->
  records_of result = Some items ->
  pages_loop this_getInscriptions (S remaining) (page_cursor i) i allInscriptions
    (after_requests this_getInscriptions st i) =
  let st' := after_requests this_getInscriptions st (S i) in
  if Nat.eqb (length items) 0 then (Ok (i, allInscriptions), st')
  else if Z.of_nat (length items) <? pageSize
  then (Ok (i, allInscriptions ++ items), st')
  else pages_loop this_getInscriptions remaining (page_cursor (S i)) (S i)
         (allInscriptions ++ items) st'.
Proof.
  intros Hanswer Hrecords. cbn [pages_loop]. unfold bind at 1.
  change (after_requests this_getInscriptions st (S i))
    with (snd (this_getInscriptions (page_cursor i) pageSize
                 (after_requests this_getInscriptions st i))).
  unfold page_answer in Hanswer.
  destruct (this_getInscriptions (page_cursor i) pageSize
              (after_requests this_getInscriptions st i)) as [[r | e] st'];
    cbn [fst snd] in *; [| discriminate].
  injection Hanswer as ->.
  unfold bind, lift. rewrite (records_of_page_of _ _ Hrecords). cbn iota beta zeta.
  destruct (Nat.eqb (length items) 0); [reflexivity |].
  destruct (Z.of_nat (length items) <? pageSize); [reflexivity |].
  rewrite page_cursor_S. reflexivity.
Qed.

(** One turn of the loop, when the request fails. *)
Lemma pages_loop_error remaining i allInscriptions e :
  page_answer this_getInscriptions st i = Throw e ->
  pages_loop this_getInscriptions (S remaining) (page_cursor i) i allInscriptions
    (after_requests this_getInscriptions st i) =
  (Throw e, after_requests this_getInscriptions st (S i)).
Proof.
  intros Hanswer. cbn [pages_loop]. unfold bind at 1.
  change (after_requests this_getInscriptions st (S i))
    with (snd (this_getInscriptions (page_cursor i) pageSize
                 (after_requests this_getInscriptions st i))).
  unfold page_answer in Hanswer.
  destruct (this_getInscriptions (page_cursor i) pageSize
              (after_requests this_getInscriptions st i)) as [[r | e'] st'];
    cbn [fst snd] in *; [discriminate |].
  injection Hanswer as ->. reflexivity.
Qed.

(** One turn of the loop, when the answer carries no records. *)
Lemma pages_loop_malformed remaining i allInscriptions result :
  page_answer this_getInscriptions st i = Ok result ->
  is_nullish result = false ->
  records_of result = None ->
  pages_loop this_getInscriptions (S remaining) (page_cursor i) i allInscriptions
    (after_requests this_getInscriptions st i) =
  (Ok (i, allInscriptions), after_requests this_getInscriptions st (S i)).
Proof.
  intros Hanswer Hnullish Hnone. cbn [pages_loop]. unfold bind at 1.
  change (after_requests this_getInscriptions st (S i))
    with (snd (this_getInscriptions (page_cursor i) pageSize
                 (after_requests this_getInscriptions st i))).
  unfold page_answer in Hanswer.
  destruct (this_getInscriptions (page_cursor i) pageSize
              (after_requests this_getInscriptions st i)) as [[r | e] st'];
    cbn [fst snd] in *; [| discriminate].
  injection Hanswer as ->.
  destruct (page_of_not_array result Hnullish Hnone) as (v & Hv & Harr).
  unfold bind, lift. rewrite Hv. cbn iota beta.
  destruct v; try reflexivity. discriminate.
Qed.

Lemma page_records_serves i n :
  serves_page this_getInscriptions st i n ->
  length (page_records this_getInscriptions st i) = n.
Proof.
  intros (result & items & Hanswer & Hrecords & Hsize).
  unfold page_records. rewrite Hanswer, Hrecords. exact Hsize.
Qed.

(** [n] full pages in a row take the loop [n] turns further. *)
Lemma pages_loop_full_pages n : forall remaining i allInscriptions,
  (forall j, (i <= j < i + n)%nat -> serves_page this_getInscriptions st j 100) ->
  pages_loop this_getInscriptions (n + remaining) (page_cursor i) i allInscriptions
    (after_requests this_getInscriptions st i) =
  pages_loop this_getInscriptions remaining (page_cursor (i + n)) (i + n)
    (allInscriptions ++
       concat (map (page_records this_getInscriptions st) (seq i n)))
    (after_requests this_getInscriptions st (i + n)).
Proof.
  induction n as [| n IH]; intros remaining i allInscriptions Hfull.
  - cbn [Nat.add seq map concat]. rewrite Nat.add_0_r, app_nil_r. reflexivity.
  - destruct (Hfull i) as (result & items & Hanswer & Hrecords & Hsize); [lia |].
    change (S n + remaining)%nat with (S (n + remaining)).
    rewrite (pages_loop_turn _ _ _ result items Hanswer Hrecords). cbn zeta.
    rewrite Hsize. change (Nat.eqb 100 0) with false.
    change (Z.of_nat 100 <? pageSize) with false. cbn iota.
    rewrite IH by (intros j Hj; apply Hfull; lia).
    replace (S i + n)%nat with (i + S n)%nat by lia.
    cbn [seq map concat].
    assert (Hitems : page_records this_getInscriptions st i = items)
      by (unfold page_records; rewrite Hanswer, Hrecords; reflexivity).
    rewrite Hitems, <- app_assoc. reflexivity.
Qed.

Lemma length_concat_full (f : nat -> list JsVal) start n :
  (forall i, (start <= i < start + n)%nat -> length (f i) = 100%nat) ->
  length (concat (map f (seq start n))) = (n * 100)%nat.
Proof.
  revert start. induction n as [| n IH]; intros start Hfull; [reflexivity |].
  cbn [seq map concat]. rewrite length_app, Hfull, IH by (intros; try apply Hfull; lia).
  lia.
Qed.

(** [N] full pages from the start bring the loop to its turn number [N]. *)
Lemma pages_loop_after_full_pages N remaining :
  (forall i, (i < N)%nat -> serves_page this_getInscriptions st i 100) ->
  pages_loop this_getInscriptions (N + remaining) 0 0 [] st =
  pages_loop this_getInscriptions remaining (page_cursor N) N
    (concat (map (page_records this_getInscriptions st) (seq 0 N)))
    (after_requests this_getInscriptions st N).
Proof.
  intros Hfull.
  pose proof (pages_loop_full_pages N remaining 0 []) as H.
  cbn [Nat.add app after_requests] in H. apply H.
  intros j Hj. apply Hfull. lia.
Qed.

(** The outcome of the whole loop when [N < maxPages] full pages are
    followed by a short one. *)
Lemma pages_loop_full_then_short N k :
  (N < maxPages)%nat -> (k < 100)%nat ->
  (forall i, (i < N)%nat -> serves_page this_getInscriptions st i 100) ->
  serves_page this_getInscriptions st N k ->
  pages_loop this_getInscriptions maxPages 0 0 [] st =
  (Ok (N, concat (map (page_records this_getInscriptions st) (seq 0 (S N)))),
   after_requests this_getInscriptions st (S N)).
Proof.
  intros HN Hk Hfull (result & items & Hanswer & Hrecords & Hsize).
  replace maxPages with (N + S (maxPages - S N))%nat by lia.
  rewrite (pages_loop_after_full_pages N _ Hfull).
  rewrite (pages_loop_turn _ _ _ result items Hanswer Hrecords). cbn zeta.
  rewrite seq_S, map_app, concat_app. cbn [Nat.add map concat]. rewrite app_nil_r.
  assert (Hitems : page_records this_getInscriptions st N = items)
    by (unfold page_records; rewrite Hanswer, Hrecords; reflexivity).
  rewrite Hitems.
  destruct (Nat.eqb_spec (length items) 0) as [Hz | Hnz].
  - destruct items; [| discriminate]. rewrite app_nil_r. reflexivity.
  - destruct (Z.ltb_spec (Z.of_nat (length items)) pageSize) as [_ | Hge];
      [reflexivity |].
    unfold pageSize in Hge. lia.
Qed.

(** The outcome of the whole loop when every page is full. *)
Lemma pages_loop_all_full :
  (forall i, (i < maxPages)%nat -> serves_page this_getInscriptions st i 100) ->
  pages_loop this_getInscriptions maxPages 0 0 [] st =
  (Ok (maxPages,
       concat (map (page_records this_getInscriptions st) (seq 0 maxPages))),
   after_requests this_getInscriptions st maxPages).
Proof.
  intros Hfull.
  pose proof (pages_loop_after_full_pages maxPages 0 Hfull) as H.
  rewrite Nat.add_0_r in H. exact H.
Qed.

(** The outcome of the whole loop when [N < maxPages] full pages are
    followed by a request that fails. *)
Lemma pages_loop_full_then_error N e :
  (N < maxPages)%nat ->
  (forall i, (i < N)%nat -> serves_page this_getInscriptions st i 100) ->
  page_answer this_getInscriptions st N = Throw e ->
  pages_loop this_getInscriptions maxPages 0 0 [] st =
  (Throw e, after_requests this_getInscriptions st (S N)).
Proof.
  intros HN Hfull Hanswer.
  replace maxPages with (N + S (maxPages - S N))%nat by lia.
  rewrite (pages_loop_after_full_pages N _ Hfull).
  apply pages_loop_error. exact Hanswer.
Qed.

(** The outcome of the whole loop when [N < maxPages] full pages are
    followed by an answer that carries no records. *)
Lemma pages_loop_full_then_malformed N result :
  (N < maxPages)%nat ->
  (forall i, (i < N)%nat -> serves_page this_getInscriptions st i 100) ->
  page_answer this_getInscriptions st N = Ok result ->
  is_nullish result = false ->
  records_of result = None ->
  pages_loop this_getInscriptions maxPages 0 0 [] st =
  (Ok (N, concat (map (page_records this_getInscriptions st) (seq 0 N))),
   after_requests this_getInscriptions st (S N)).
Proof.
  intros HN Hfull Hanswer Hnullish Hnone.
  replace maxPages with (N + S (maxPages - S N))%nat by lia.
  rewrite (pages_loop_after_full_pages N _ Hfull).
  apply (pages_loop_malformed _ _ _ result); assumption.
Qed.

(** Full pages, checked by running the requests. *)
Lemma full_pages_from_serves n : forall i,
  full_pages_from this_getInscriptions
    (after_requests this_getInscriptions st i) i n = true ->
  forall j, (i <= j < i + n)%nat -> serves_page this_getInscriptions st j 100.
Proof.
  induction n as [| n IH]; intros i Hrun j Hj; [lia |].
  cbn [full_pages_from] in Hrun.
  destruct (this_getInscriptions (page_cursor i) pageSize
              (after_requests this_getInscriptions st i))
    as [[result | e] st'] eqn:Hcall; [| discriminate].
  destruct (records_of result) as [items |] eqn:Hrecords; [| discriminate].
  apply andb_prop in Hrun as [Hsize Hrest].
  destruct (Nat.eq_dec j i) as [-> | Hne].
  - exists result, items. unfold page_answer. rewrite Hcall.
    repeat split; [exact Hrecords | apply Nat.eqb_eq; exact Hsize].
  - apply (IH (S i)); [| lia].
    change (after_requests this_getInscriptions st (S i))
      with (snd (this_getInscriptions (page_cursor i) pageSize
                   (after_requests this_getInscriptions st i))).
    rewrite Hcall. exact Hrest.
Qed.

Lemma full_pages_serve n :
  full_pages_from this_getInscriptions st 0 n = true ->
  forall i, (i < n)%nat -> serves_page this_getInscriptions st i 100.
Proof.
  intros Hrun i Hi. apply (full_pages_from_serves n 0 Hrun). lia.
Qed.

End Pagination.

Section PaginationClaims.
Import Js BaseWalletProvider Observe.

Lemma getAllInscriptions_guards_pass self h this_getInscriptions st :
  walletInstance self = Some h ->
  isConnected self = true ->
  truthyS (address self) = true ->
  getAllInscriptions self this_getInscriptions st =
  match pages_loop this_getInscriptions maxPages 0 0 [] st with
  | (Ok r, st') =>
      if Nat.leb maxPages (fst r)
      then (Ok (snd r),
            with_warning
              (WarnPaginationLimit (name self) (Z.of_nat maxPages * pageSize)) st')
      else (Ok (snd r), st')
  | (Throw e, st') => (Throw e, st')
  end.
Proof.
  intros Hi Hc Ha. unfold getAllInscriptions.
  remember (pages_loop this_getInscriptions maxPages 0 0 []) as loop eqn:Hloop.
  unfold bind, requireInstalled, requireConnected.
  rewrite Hi, Hc, Ha. cbn [negb orb ret].
  destruct (loop st) as [[r | e] st']; [| reflexivity].
  destruct (Nat.leb maxPages (fst r)); reflexivity.
Qed.

(** C8, as stated, fails: with 100 full pages followed by a page of 5
    records the loop stops at the safety limit, after 100 requests and
    with 10000 records, not after 101 requests with 10005 records. *)
Lemma hundred_full_pages_hit_the_limit :
  let p := Adapters.connected_provider Adapters.Phantom
             (Some (Samples.paged_handle 100 5)) "bc1qphantom" in
  outcome_size (getAllInscriptions p (getInscriptions p) no_effects) =
    Some (100 * 100, 100, [WarnPaginationLimit "Phantom" 10000])%nat /\
  (100 * 100 <> 100 * 100 + 5)%nat /\ (100 <> 100 + 1)%nat.
Proof. split; [vm_compute; reflexivity | split; lia]. Qed.

(** C8, amended: for a connected provider, whatever its single-page
    method [this.getInscriptions] is (the default one or the one of its
    adapter class): when the page requests [this.getInscriptions(0, 100)],
    [this.getInscriptions(100, 100)], ... resolve with exactly
    [pageSize = 100] records on each of the first [N] pages and with
    [k < pageSize] records on the next one, and [N] is below the safety
    limit of 100 pages, [getAllInscriptions()] resolves with the records
    of these [N + 1] pages in order, [N * pageSize + k] in number; its
    effects are those of exactly these [N + 1] requests, and it warns of
    nothing. *)
Theorem getAllInscriptions_full_then_short
    (self : Provider) (h : Handle) (this_getInscriptions : Z -> Z -> M JsVal)
    (st : Effects) (N k : nat) :
  walletInstance self = Some h ->
  isConnected self = true ->
  truthyS (address self) = true ->
  (N < maxPages)%nat ->
  (k < 100)%nat ->
  (forall i, (i < N)%nat -> serves_page this_getInscriptions st i 100) ->
  serves_page this_getInscriptions st N k ->
  let all := concat (map (page_records this_getInscriptions st) (seq 0 (S N))) in
  getAllInscriptions self this_getInscriptions st =
    (Ok all, after_requests this_getInscriptions st (S N)) /\
  length all = (N * 100 + k)%nat.
Proof.
  intros Hi Hc Ha HN Hk Hfull Hlast all. subst all. split.
  - rewrite (getAllInscriptions_guards_pass self h) by assumption.
    rewrite (pages_loop_full_then_short this_getInscriptions st N k) by assumption.
    cbn [fst snd]. destruct (Nat.leb_spec maxPages N) as [Hle | _]; [lia |].
    reflexivity.
  - rewrite seq_S, map_app, concat_app, length_app. cbn [Nat.add map concat].
    rewrite app_nil_r, (page_records_serves _ _ N k Hlast).
    rewrite length_concat_full; [reflexivity |].
    intros i Hi'. apply page_records_serves, Hfull. lia.
Qed.

Lemma getAllInscriptions_full_then_short_witness :
  let p := Adapters.connected_provider Adapters.OKX
             (Some (Samples.paged_handle 2 3)) "bc1qokx" in
  let m := Adapters.OKX_getInscriptions p in
  let all := concat (map (page_records m no_effects) (seq 0 3)) in
  (getAllInscriptions p m no_effects = (Ok all, after_requests m no_effects 3) /\
   length all = (2 * 100 + 3)%nat) /\
  calls (after_requests m no_effects 3) = map page_request (seq 0 3).
Proof.
  intros p m all. split; [| vm_compute; reflexivity].
  apply (getAllInscriptions_full_then_short p (Samples.paged_handle 2 3) m
           no_effects 2 3);
    try reflexivity.
  - unfold maxPages. lia.
  - lia.
  - apply full_pages_serve. vm_compute. reflexivity.
  - eexists. eexists. split; [vm_compute; reflexivity |].
    split; [vm_compute; reflexivity | reflexivity].
Defined.

(** C9: for a connected provider, whatever its single-page method
    [this.getInscriptions] is: when every page request resolves with a
    full page of 100 records, [getAllInscriptions()] stops at the safety
    limit of [maxPages = 100] requests, warns that the limit was
    reached, and resolves with the 10000 records of these 100 pages, in
    order; it neither runs on nor throws. *)
Theorem getAllInscriptions_safety_limit
    (self : Provider) (h : Handle) (this_getInscriptions : Z -> Z -> M JsVal)
    (st : Effects) :
  walletInstance self = Some h ->
  isConnected self = true ->
  truthyS (address self) = true ->
  (forall i, (i < maxPages)%nat -> serves_page this_getInscriptions st i 100) ->
  let all := concat (map (page_records this_getInscriptions st) (seq 0 maxPages)) in
  getAllInscriptions self this_getInscriptions st =
    (Ok all,
     with_warning (WarnPaginationLimit (name self) 10000)
       (after_requests this_getInscriptions st maxPages)) /\
  length all = (maxPages * 100)%nat.
Proof.
  intros Hi Hc Ha Hfull all. subst all. split.
  - rewrite (getAllInscriptions_guards_pass self h) by assumption.
    rewrite (pages_loop_all_full this_getInscriptions st Hfull).
    cbn [fst snd]. rewrite Nat.leb_refl. reflexivity.
  - apply length_concat_full. intros i Hi'. apply page_records_serves, Hfull. lia.
Qed.

Lemma getAllInscriptions_safety_limit_witness :
  let p := Adapters.connected_provider Adapters.UniSat
             (Some Samples.endless_handle) "bc1qunisat" in
  let m := Adapters.UniSat_getInscriptions p in
  let all := concat (map (page_records m no_effects) (seq 0 maxPages)) in
  getAllInscriptions p m no_effects =
    (Ok all,
     with_warning (WarnPaginationLimit "UniSat" 10000)
       (after_requests m no_effects maxPages)) /\
  length all = (maxPages * 100)%nat.
Proof.
  intros p m all.
  apply (getAllInscriptions_safety_limit p Samples.endless_handle m no_effects);
    try reflexivity.
  apply full_pages_serve. vm_compute. reflexivity.
Defined.

End PaginationClaims.

(** ** The connection-state store *)

Section StoreFacts.
Import Js Facade Observe.

Lemma passive_never_throws cb : passive cb -> never_throws cb.
Proof. intros H s. rewrite H. reflexivity. Qed.

Lemma published_passive subs s : Forall passive subs -> published subs s = s.
Proof.
  unfold published. induction 1 as [| cb subs Hcb _ IH]; [reflexivity |].
  simpl. rewrite Hcb. exact IH.
Qed.

(** Publishing to callbacks that return: each is handed the object that
    [currentState] refers to, and what it leaves there stays there. *)
Lemma forEach_returns subs : forall st,
  Forall never_throws subs ->
  (currentState st < length (heap st))%nat ->
  forEach subs st =
  (Ok tt,
   {| heap := <[currentState st := published subs (current st)]> (heap st);
      currentState := currentState st;
      subscribers := subscribers st;
      notified := notified st ++ map (fun cb => (sub_id cb, currentState st)) subs |}).
Proof.
  induction subs as [| cb subs IH]; intros st Hsubs Hwf.
  - simpl. rewrite app_nil_r. f_equal. destruct st as [hp l ss ns]; simpl in *.
    f_equal. symmetry. apply list_insert_id.
    unfold published, current, deref; simpl.
    destruct (hp !! l) as [s |] eqn:Hs; [reflexivity |].
    apply lookup_ge_None in Hs. lia.
  - inversion Hsubs as [| ? ? Hcb Hrest]; subst.
    cbn [forEach]. unfold invoke. rewrite (Hcb (deref st (currentState st))).
    rewrite IH; [| exact Hrest | simpl; rewrite length_insert; exact Hwf].
    unfold write, current, deref; simpl.
    rewrite list_lookup_insert_eq by exact Hwf. simpl.
    rewrite list_insert_insert_eq, <- app_assoc. reflexivity.
Qed.

(** [setState] with callbacks that return: a fresh object holds the
    merged state, [currentState] refers to it, and every callback is
    handed that very object. *)
Lemma setState_returns newState st :
  Forall never_throws (subscribers st) ->
  setState newState st =
  (Ok tt,
   {| heap := heap st ++ [published (subscribers st) (merge (current st) newState)];
      currentState := length (heap st);
      subscribers := subscribers st;
      notified := notified st ++
        map (fun cb => (sub_id cb, length (heap st))) (subscribers st) |}).
Proof.
  intros Hsubs. unfold setState.
  rewrite forEach_returns; simpl; [| exact Hsubs | rewrite length_app; simpl; lia].
  unfold current, deref; simpl.
  rewrite list_lookup_middle by reflexivity. simpl.
  replace (length (heap st)) with (length (heap st) + 0)%nat at 1 by lia.
  rewrite insert_app_r. reflexivity.
Qed.

Lemma setState_current newState st :
  Forall never_throws (subscribers st) ->
  current (snd (setState newState st)) =
  published (subscribers st) (merge (current st) newState).
Proof.
  intros Hsubs. rewrite setState_returns by exact Hsubs.
  unfold current, deref; simpl. rewrite list_lookup_middle by reflexivity.
  reflexivity.
Qed.

(** The object [getState] returns is not the one [currentState] refers
    to: writing to it leaves the canonical state as it was. *)
Lemma getState_returns_a_copy st s :
  (currentState st < length (heap st))%nat ->
  let '(l, st') := getState st in
  deref st' l = current st /\
  l <> currentState st' /\
  current (write st' l s) = current st.
Proof.
  intros Hwf. unfold getState, current, deref, write; simpl.
  rewrite list_lookup_middle by reflexivity.
  split; [reflexivity |]. split; [lia |].
  rewrite list_lookup_insert_ne by lia.
  rewrite lookup_app_l by exact Hwf. reflexivity.
Qed.

(** What [setState] does to the canonical state is decided before the
    callbacks run: also when a callback throws, [currentState] already
    refers to the new object. *)
Lemma setState_currentState newState st :
  currentState (snd (setState newState st)) = length (heap st).
Proof.
  unfold setState.
  set (st' := {| heap := _; currentState := _; subscribers := _; notified := _ |}).
  assert (Hgen : forall subs s0, currentState (snd (forEach subs s0)) = currentState s0).
  { induction subs as [| cb subs IH]; intros s0; [reflexivity |].
    cbn [forEach]. unfold invoke.
    destruct (callback cb (deref s0 (currentState s0))); simpl;
      [rewrite IH; reflexivity | reflexivity]. }
  rewrite Hgen. reflexivity.
Qed.

(** C4 at the failing input: a subscriber that writes [walletType] on
    the object it receives.  After [setState({balance: null})] on the
    initial store the callback has been handed the object [currentState]
    refers to, and the canonical state reads [walletType: 'evil'] although
    the merged state had [walletType: null]. *)
Theorem subscriber_mutation_reaches_canonical_state :
  let st0 := snd (subscribe Samples.tamper initial_store) in
  let st1 := snd (setState (patch_balance None) st0) in
  notified st1 = [(sub_id Samples.tamper, currentState st1)] /\
  walletType (merge (current st0) (patch_balance None)) = None /\
  walletType (current st1) = Some "evil".
Proof. repeat split. Qed.

End StoreFacts.

(** ** The facade's asynchronous functions *)

Section FacadeFacts.
Import Js Facade Observe.

Lemma setState_in_returns newState w :
  Forall never_throws (subscribers (store w)) ->
  exists st',
    setState_in newState w = (Ok tt, with_store w st') /\
    current st' = published (subscribers (store w))
                    (merge (current (store w)) newState) /\
    subscribers st' = subscribers (store w) /\
    currentState st' = length (heap (store w)) /\
    notified st' = notified (store w) ++
      map (fun cb => (sub_id cb, currentState st')) (subscribers (store w)).
Proof.
  intros Hsubs. unfold setState_in.
  pose proof (setState_current newState (store w) Hsubs) as Hcur.
  rewrite (setState_returns newState (store w) Hsubs) in Hcur |- *.
  eexists. split; [reflexivity |]. simpl in Hcur. repeat split; assumption || reflexivity.
Qed.

Lemma merge_patch_all s s' : merge s (patch_all s') = s'.
Proof. destruct s'. reflexivity. Qed.

Lemma lookup_spawned (ts : list Task) x : (ts ++ [x]) !! length ts = Some x.
Proof. apply list_lookup_middle. reflexivity. Qed.

Lemma lookup_set_task (ts : list Task) x y :
  <[length ts := y]> (ts ++ [x]) !! length ts = Some y.
Proof. apply list_lookup_insert_eq. rewrite length_app. simpl. lia. Qed.

(** [disconnect] after its [await] (or without one), with callbacks that
    return. *)
Lemma finish_disconnect_returns w :
  Forall never_throws (subscribers (store w)) ->
  exists st',
    finish_disconnect w = (Resolved RetUndefined, with_store w st') /\
    current st' = published (subscribers (store w)) disconnected /\
    subscribers st' = subscribers (store w) /\
    currentState st' = length (heap (store w)) /\
    notified st' = notified (store w) ++
      map (fun cb => (sub_id cb, currentState st')) (subscribers (store w)).
Proof.
  intros Hsubs. unfold finish_disconnect.
  destruct (setState_in_returns (patch_all disconnected) w Hsubs)
    as (st' & Hset & Hcur & Hrest).
  rewrite Hset. exists st'. rewrite merge_patch_all in Hcur. auto.
Qed.

(** C10, as stated, fails: with a subscriber that throws, [disconnect()]
    on the initial store (no provider) rejects with the subscriber's
    error. *)
Lemma disconnect_rejects_when_a_subscriber_throws :
  let w0 := initial_world [] in
  let w := with_store w0 (snd (subscribe Samples.thrower (store w0))) in
  tasks (run w [Disconnect]) = [Rejected "subscriber failed"].
Proof. reflexivity. Qed.

(** C10, amended: provided no subscriber callback throws, [disconnect()]
    never rejects.  Whatever the store holds, and whether the active
    provider's own [disconnect] resolves or throws, the call resolves;
    before that the store is reset to the disconnected snapshot
    [{isConnected: false, walletType: null, address: null,
      publicKey: null, balance: null, provider: null}]
    and every subscriber is notified, once and in order, with the new
    state object (which then holds what the subscribers left in it: the
    disconnected snapshot itself when they only read it). *)
Theorem disconnect_resolves_when_subscribers_return (w : World) (r : Result unit) :
  Forall never_throws (subscribers (store w)) ->
  let t := length (tasks w) in
  let w' := run w [Disconnect; DisconnectSettled t r] in
  tasks w' !! t = Some (Resolved RetUndefined) /\
  current (store w') = published (subscribers (store w)) disconnected /\
  notified (store w') = notified (store w) ++
    map (fun cb => (sub_id cb, currentState (store w'))) (subscribers (store w)) /\
  (Forall passive (subscribers (store w)) -> current (store w') = disconnected).
Proof.
  intros Hsubs t w'.
  assert (Hmain :
    tasks w' !! t = Some (Resolved RetUndefined) /\
    current (store w') = published (subscribers (store w)) disconnected /\
    notified (store w') = notified (store w) ++
      map (fun cb => (sub_id cb, currentState (store w'))) (subscribers (store w))).
  { subst w' t. unfold run. cbn [foldl step]. unfold disconnect_start.
    destruct (provider (current (store w))) as [p |].
    - (* the provider's disconnect is awaited *)
      cbn [spawn tasks log_call]. rewrite lookup_spawned.
      unfold disconnect_settled.
      set (w1 := match r with
                 | Ok _ => _
                 | Throw error => _
                 end).
      assert (Hstore : store w1 = store w) by (subst w1; destruct r; reflexivity).
      assert (Htasks : tasks w1 = tasks w ++ [Suspended AwaitDisconnect])
        by (subst w1; destruct r; reflexivity).
      destruct (finish_disconnect_returns w1) as (st' & Hfin & Hcur & _ & Hloc & Hnot);
        [rewrite Hstore; exact Hsubs |].
      rewrite Hfin. cbn [set_task tasks store with_store].
      rewrite Htasks, lookup_set_task. rewrite Hstore in Hcur, Hloc, Hnot.
      repeat split; assumption.
    - (* no provider: the call runs to its end at once *)
      destruct (finish_disconnect_returns w Hsubs) as (st' & Hfin & Hcur & _ & Hloc & Hnot).
      rewrite Hfin. simpl. rewrite !lookup_spawned. simpl.
      rewrite lookup_spawned. repeat split; assumption. }
  destruct Hmain as (Ht & Hcur & Hnot). repeat split; try assumption.
  intros Hpassive. rewrite Hcur. apply published_passive. exact Hpassive.
Qed.

Lemma disconnect_resolves_when_subscribers_return_witness :
  let w0 := initial_world ["UniSat"] in
  let w1 := with_store w0 (snd (subscribe Samples.observer (store w0))) in
  let w := run w1 [Connect "UniSat";
                   HandshakeSettled 0%nat (Ok (Samples.sample_handshake "bc1qunisat"));
                   BalanceSettled 0%nat (Ok (BNumber (3690 # 1)))] in
  provider (current (store w)) = Some 0%nat /\
  tasks (run w [Disconnect; DisconnectSettled 1%nat (Throw "wallet locked")]) !! 1%nat =
    Some (Resolved RetUndefined) /\
  current (store (run w [Disconnect; DisconnectSettled 1%nat (Throw "wallet locked")])) =
    disconnected.
Proof.
  intros w0 w1 w. split; [reflexivity |].
  assert (Hsubs : Forall never_throws (subscribers (store w))).
  { repeat constructor. }
  destruct (disconnect_resolves_when_subscribers_return w (Throw "wallet locked") Hsubs)
    as (Ht & _ & _ & Hpassive).
  split; [exact Ht |]. apply Hpassive. repeat constructor.
Defined.

End FacadeFacts.

Section ConnectFacts.
Import Js Facade Observe.

Lemma setState_in_passive newState w :
  Forall passive (subscribers (store w)) ->
  exists st',
    setState_in newState w = (Ok tt, with_store w st') /\
    current st' = merge (current (store w)) newState /\
    subscribers st' = subscribers (store w).
Proof.
  intros Hsubs.
  destruct (setState_in_returns newState w) as (st' & Hset & Hcur & Hs & _).
  { eapply Forall_impl; [exact Hsubs | apply passive_never_throws]. }
  exists st'. rewrite published_passive in Hcur by exact Hsubs. auto.
Qed.

Lemma same_connection_refl w : same_connection w w.
Proof. unfold same_connection. auto. Qed.

Lemma same_connection_trans w1 w2 w3 :
  same_connection w1 w2 -> same_connection w2 w3 -> same_connection w1 w3.
Proof.
  intros (Ha & Hb & Hc & Hd & He) (Ha' & Hb' & Hc' & Hd' & He').
  unfold same_connection. repeat split; try congruence. auto.
Qed.

(** A connect resolves or rejects only once its handshake has settled:
    finishing another task leaves a pending handshake pending. *)
Lemma set_task_keeps_handshakes w t x k :
  tasks w !! t = Some (Suspended k) ->
  (forall p n, k <> AwaitHandshake p n) ->
  forall t' p n,
    tasks w !! t' = Some (Suspended (AwaitHandshake p n)) ->
    tasks (set_task t x w) !! t' = Some (Suspended (AwaitHandshake p n)).
Proof.
  intros Ht Hk t' p n Ht'. simpl.
  rewrite list_lookup_insert_ne; [exact Ht' |].
  intros ->. rewrite Ht in Ht'. inversion Ht'. eapply Hk; eauto.
Qed.

(** The settlement of a balance promise changes neither the wallet nor
    the provider of the connection state. *)
Lemma balance_event_same_connection w t r :
  Forall passive (subscribers (store w)) ->
  same_connection w (step w (BalanceSettled t r)).
Proof.
  intros Hsubs. cbn [step].
  destruct (tasks w !! t) as [[[p n | p n | |] | | |] |] eqn:Ht;
    try apply same_connection_refl.
  - (* connect awaits its balance *)
    unfold connect_balance.
    assert (Hwarn : forall e w0,
      store w0 = store w -> calls w0 = calls w -> tasks w0 = tasks w ->
      same_connection w
        (match setState_in (patch_balance None) (log_console (WarnBalance e) w0) with
         | (Ok _, w'') => set_task t (Resolved (RetProvider p)) w''
         | (Throw e', w'') => connect_failed t n e' w''
         end)).
    { intros e w0 Hst Hcalls Htasks.
      destruct (setState_in_passive (patch_balance None) (log_console (WarnBalance e) w0))
        as (st' & Hset & Hcur & Hs); [simpl; rewrite Hst; exact Hsubs |].
      rewrite Hset. simpl in Hcur, Hs. rewrite Hst in Hcur, Hs.
      unfold same_connection. simpl. rewrite Hcur, Hs, Hcalls, Htasks.
      repeat split; try reflexivity.
      intros t' p' n' Ht'. rewrite list_lookup_insert_ne; [exact Ht' |].
      intros ->. rewrite Ht in Ht'. discriminate. }
    destruct r as [balanceData | e]; [| apply Hwarn; reflexivity].
    destruct (setState_in_passive (patch_balance (Some (balanceInBTC balanceData))) w Hsubs)
      as (st' & Hset & Hcur & Hs).
    rewrite Hset. unfold same_connection. simpl. rewrite Hcur, Hs.
    repeat split; try reflexivity.
    intros t' p' n' Ht'. rewrite list_lookup_insert_ne; [exact Ht' |].
    intros ->. rewrite Ht in Ht'. discriminate.
  - (* getBalance awaits its balance *)
    unfold getBalance_settled. destruct r as [balanceData | e].
    + destruct (setState_in_passive (patch_balance (Some (balanceInBTC balanceData))) w Hsubs)
        as (st' & Hset & Hcur & Hs).
      rewrite Hset. unfold same_connection. simpl. rewrite Hcur, Hs.
      repeat split; try reflexivity.
      intros t' p' n' Ht'. rewrite list_lookup_insert_ne; [exact Ht' |].
      intros ->. rewrite Ht in Ht'. discriminate.
    + unfold same_connection. simpl. repeat split; try reflexivity.
      intros t' p' n' Ht'. rewrite list_lookup_insert_ne; [exact Ht' |].
      intros ->. rewrite Ht in Ht'. discriminate.
Qed.

(** So does its rejection with a reason that is not an [Error]. *)
Lemma balance_rejection_same_connection w t reason :
  Forall passive (subscribers (store w)) ->
  same_connection w (step w (BalanceRejected t reason)).
Proof.
  intros Hsubs. cbn [step].
  destruct (tasks w !! t) as [[[p n | p n | |] | | |] |] eqn:Ht;
    try apply same_connection_refl.
  - (* connect awaits its balance *)
    unfold connect_balance_rejected.
    destruct (get_prop reason "message") as [message | e].
    + destruct (setState_in_passive (patch_balance None)
                  (log_console (WarnBalanceMessage message) w))
        as (st' & Hset & Hcur & Hs); [exact Hsubs |].
      rewrite Hset. simpl in Hcur, Hs.
      unfold same_connection. simpl. rewrite Hcur, Hs.
      repeat split; try reflexivity.
      intros t' p' n' Ht'. rewrite list_lookup_insert_ne; [exact Ht' |].
      intros ->. rewrite Ht in Ht'. discriminate.
    + unfold connect_failed, same_connection. simpl.
      repeat split; try reflexivity.
      intros t' p' n' Ht'. rewrite list_lookup_insert_ne; [exact Ht' |].
      intros ->. rewrite Ht in Ht'. discriminate.
  - (* getBalance awaits its balance *)
    unfold same_connection. simpl. repeat split; try reflexivity.
    intros t' p' n' Ht'. rewrite list_lookup_insert_ne; [exact Ht' |].
    intros ->. rewrite Ht in Ht'. discriminate.
Qed.

Lemma balance_events_same_connection evs : forall w,
  forallb is_balance_event evs = true ->
  Forall passive (subscribers (store w)) ->
  same_connection w (run w evs).
Proof.
  induction evs as [| ev evs IH]; intros w Hevs Hsubs; [apply same_connection_refl |].
  simpl in Hevs. apply andb_prop in Hevs as [Hev Hevs].
  assert (Hone : same_connection w (step w ev)).
  { destruct ev; try discriminate.
    - apply balance_event_same_connection. exact Hsubs.
    - apply balance_rejection_same_connection. exact Hsubs. }
  unfold run. cbn [foldl]. fold (run (step w ev) evs).
  eapply same_connection_trans; [exact Hone |].
  apply IH; [exact Hevs |].
  destruct Hone as (_ & _ & Hs & _). rewrite Hs. exact Hsubs.
Qed.

Lemma createProvider_creatable w walletName :
  creatable w walletName ->
  createProvider walletName w =
  (Ok (length (instances w)),
   {| store := store w; installed := installed w;
      instances := instances w ++ [walletName];
      calls := calls w; console := console w; tasks := tasks w |}).
Proof.
  intros [Hknown Hinstalled]. unfold createProvider.
  rewrite Hknown, Hinstalled. reflexivity.
Qed.

(** [connect], up to its first [await]. *)
Lemma connect_start_creatable w walletName :
  creatable w walletName ->
  let w' := step w (Connect walletName) in
  store w' = store w /\
  installed w' = installed w /\
  instances w' = instances w ++ [walletName] /\
  calls w' = calls w ++ [PConnect (length (instances w))] /\
  tasks w' = tasks w ++ [Suspended (AwaitHandshake (length (instances w)) walletName)].
Proof.
  intros Hc. cbn [step]. unfold connect_start.
  rewrite (createProvider_creatable w walletName Hc). simpl. auto.
Qed.

(** [connect], when its handshake resolves: the state is written with
    no regard to what the store holds by then. *)
Lemma handshake_resolved w t p walletName h :
  tasks w !! t = Some (Suspended (AwaitHandshake p walletName)) ->
  Forall passive (subscribers (store w)) ->
  let w' := step w (HandshakeSettled t (Ok h)) in
  current (store w') = merge (current (store w)) (connected_patch walletName h p) /\
  subscribers (store w') = subscribers (store w) /\
  installed w' = installed w /\
  instances w' = instances w /\
  calls w' = calls w ++ [PGetBalance p] /\
  tasks w' = <[t := Suspended (AwaitConnectBalance p walletName)]> (tasks w).
Proof.
  intros Ht Hsubs. cbn [step]. rewrite Ht. unfold connect_handshake.
  destruct (setState_in_passive (connected_patch walletName h p) w Hsubs)
    as (st' & Hset & Hcur & Hs).
  rewrite Hset. simpl. repeat split; assumption || reflexivity.
Qed.


Lemma run_app w evs1 evs2 : run w (evs1 ++ evs2) = run (run w evs1) evs2.
Proof. unfold run. apply foldl_app. Qed.

(** Two handshakes pending at once: whichever resolves last decides the
    wallet of the connection state. *)
Lemma last_handshake_decides w t1 p1 n1 h1 t2 p2 n2 h2 evs1 evs2 evs3 :
  Forall passive (subscribers (store w)) ->
  tasks w !! t1 = Some (Suspended (AwaitHandshake p1 n1)) ->
  tasks w !! t2 = Some (Suspended (AwaitHandshake p2 n2)) ->
  t1 <> t2 ->
  forallb is_balance_event evs1 = true ->
  forallb is_balance_event evs2 = true ->
  forallb is_balance_event evs3 = true ->
  let w' := run w (evs1 ++ [HandshakeSettled t1 (Ok h1)] ++ evs2 ++
                   [HandshakeSettled t2 (Ok h2)] ++ evs3) in
  walletType (current (store w')) = Some n2 /\
  provider (current (store w')) = Some p2.
Proof.
  intros Hsubs Ht1 Ht2 Hne He1 He2 He3 w'. subst w'.
  rewrite !run_app.
  (* up to the first handshake *)
  destruct (balance_events_same_connection evs1 w He1 Hsubs) as (_ & _ & Hs1 & _ & Hk1).
  set (wa := run w evs1) in *.
  assert (Hsubs_a : Forall passive (subscribers (store wa))) by (rewrite Hs1; exact Hsubs).
  destruct (handshake_resolved wa t1 p1 n1 h1 (Hk1 _ _ _ Ht1) Hsubs_a)
    as (_ & Hs2 & _ & _ & _ & Htasks_b).
  change (run wa [HandshakeSettled t1 (Ok h1)]) with (step wa (HandshakeSettled t1 (Ok h1))).
  set (wb := step wa (HandshakeSettled t1 (Ok h1))) in *.
  assert (Hsubs_b : Forall passive (subscribers (store wb))) by (rewrite Hs2; exact Hsubs_a).
  assert (Ht2_b : tasks wb !! t2 = Some (Suspended (AwaitHandshake p2 n2))).
  { rewrite Htasks_b, list_lookup_insert_ne by exact Hne. apply Hk1. exact Ht2. }
  (* up to the second handshake *)
  destruct (balance_events_same_connection evs2 wb He2 Hsubs_b) as (_ & _ & Hs3 & _ & Hk3).
  set (wc := run wb evs2) in *.
  assert (Hsubs_c : Forall passive (subscribers (store wc))) by (rewrite Hs3; exact Hsubs_b).
  destruct (handshake_resolved wc t2 p2 n2 h2 (Hk3 _ _ _ Ht2_b) Hsubs_c)
    as (Hcur_d & Hs4 & _).
  change (run wc [HandshakeSettled t2 (Ok h2)]) with (step wc (HandshakeSettled t2 (Ok h2))).
  set (wd := step wc (HandshakeSettled t2 (Ok h2))) in *.
  assert (Hsubs_d : Forall passive (subscribers (store wd))) by (rewrite Hs4; exact Hsubs_c).
  (* afterwards *)
  destruct (balance_events_same_connection evs3 wd He3 Hsubs_d) as (Hw & Hp & _).
  rewrite Hw, Hp, Hcur_d. split; reflexivity.
Qed.

End ConnectFacts.

Section ConnectClaims.
Import Js Facade Observe.

(** Two [connect] calls in a row, both awaiting their handshakes. *)
Lemma two_connects_pending w A B :
  creatable w A -> creatable w B ->
  let w' := run w [Connect A; Connect B] in
  store w' = store w /\
  tasks w' !! length (tasks w) =
    Some (Suspended (AwaitHandshake (length (instances w)) A)) /\
  tasks w' !! S (length (tasks w)) =
    Some (Suspended (AwaitHandshake (S (length (instances w))) B)).
Proof.
  intros HA [HBk HBi]. unfold run. cbn [foldl].
  destruct (connect_start_creatable w A HA) as (Hst & Hin & Hinst & _ & Hts).
  set (w1 := step w (Connect A)) in *.
  destruct (connect_start_creatable w1 B) as (Hst' & _ & _ & _ & Hts').
  { split; [exact HBk | rewrite Hin; exact HBi]. }
  rewrite Hst', Hst, Hts', Hts, Hinst. split; [reflexivity |].
  rewrite length_app. simpl. replace (length (instances w) + 1)%nat
    with (S (length (instances w))) by lia.
  split.
  - rewrite lookup_app_l by (rewrite length_app; simpl; lia). apply lookup_spawned.
  - replace (S (length (tasks w)))
      with (length (tasks w ++ [Suspended (AwaitHandshake (length (instances w)) A)]))
      by (rewrite length_app; simpl; lia).
    apply lookup_spawned.
Qed.

(** C1, as stated, fails: [connect("UniSat")], then [connect("Xverse")]
    before the first handshake resolves; the Xverse handshake resolves
    first and its connect runs to the end, then the UniSat handshake
    resolves.  The final state has [walletType === "UniSat"]. *)
Lemma late_handshake_overwrites_the_state :
  let w := run (initial_world ["UniSat"; "Xverse"])
             [Connect "UniSat"; Connect "Xverse";
              HandshakeSettled 1%nat (Ok (Samples.sample_handshake "bc1pxverse"));
              BalanceSettled 1%nat (Ok (BNumber (369 # 10000000)));
              HandshakeSettled 0%nat (Ok (Samples.sample_handshake "bc1qunisat"));
              BalanceSettled 0%nat (Ok (Samples.canonical_balance 3690 0))] in
  tasks w = [Resolved (RetProvider 0%nat); Resolved (RetProvider 1%nat)] /\
  walletType (current (store w)) = Some "UniSat" /\
  walletType (current (store w)) <> Some "Xverse".
Proof. repeat split. discriminate. Qed.

(** C1, amended: when [connect(A)] and then [connect(B)] are issued
    before either handshake resolves, and both handshakes succeed, the
    final state has the wallet of the connect whose handshake resolved
    last: [walletType === A] when A's handshake resolves after B's, and
    [walletType === B] when B's resolves after A's.  (Subscribers only
    read the state; balance promises may settle at any point in
    between.) *)
Theorem connect_race_last_handshake_wins
    (w : World) (A B : string) (hA hB : Handshake) (evs1 evs2 evs3 : list Event) :
  Forall passive (subscribers (store w)) ->
  creatable w A ->
  creatable w B ->
  forallb is_balance_event evs1 = true ->
  forallb is_balance_event evs2 = true ->
  forallb is_balance_event evs3 = true ->
  let tA := length (tasks w) in
  let tB := S tA in
  walletType (current (store (run w
    ([Connect A; Connect B] ++ evs1 ++ [HandshakeSettled tB (Ok hB)] ++ evs2 ++
     [HandshakeSettled tA (Ok hA)] ++ evs3)))) = Some A /\
  walletType (current (store (run w
    ([Connect A; Connect B] ++ evs1 ++ [HandshakeSettled tA (Ok hA)] ++ evs2 ++
     [HandshakeSettled tB (Ok hB)] ++ evs3)))) = Some B.
Proof.
  intros Hsubs HA HB He1 He2 He3 tA tB.
  destruct (two_connects_pending w A B HA HB) as (Hst & HtA & HtB).
  rewrite 2!(run_app w [Connect A; Connect B]).
  set (w2 := run w [Connect A; Connect B]) in *.
  assert (Hsubs2 : Forall passive (subscribers (store w2))) by (rewrite Hst; exact Hsubs).
  split.
  - eapply (last_handshake_decides w2 tB _ B hB tA _ A hA); eauto;
      subst tA tB; lia.
  - eapply (last_handshake_decides w2 tA _ A hA tB _ B hB); eauto;
      subst tA tB; lia.
Qed.

Lemma connect_race_last_handshake_wins_witness :
  let w := initial_world ["UniSat"; "Xverse"] in
  let hA := Samples.sample_handshake "bc1qunisat" in
  let hB := Samples.sample_handshake "bc1pxverse" in
  walletType (current (store (run w
    ([Connect "UniSat"; Connect "Xverse"] ++ [] ++ [HandshakeSettled 1%nat (Ok hB)] ++
     [BalanceSettled 1%nat (Ok BOther)] ++ [HandshakeSettled 0%nat (Ok hA)] ++ [])))) =
    Some "UniSat" /\
  walletType (current (store (run w
    ([Connect "UniSat"; Connect "Xverse"] ++ [] ++ [HandshakeSettled 0%nat (Ok hA)] ++
     [BalanceSettled 1%nat (Ok BOther)] ++ [HandshakeSettled 1%nat (Ok hB)] ++ [])))) =
    Some "Xverse".
Proof.
  intros w hA hB.
  apply (connect_race_last_handshake_wins w "UniSat" "Xverse" hA hB
           [] [BalanceSettled 1%nat (Ok BOther)] []);
    try reflexivity.
  - constructor.
  - split; reflexivity.
  - split; reflexivity.
Defined.




End ConnectClaims.

Section BalanceClaims.
Import Js Facade Observe.

Lemma truthyQ_integer n : truthyQ (Some (inject_Z n)) = negb (n =? 0).
Proof.
  unfold truthyQ, Qeq_bool, inject_Z. simpl. rewrite Z.mul_1_r. reflexivity.
Qed.

(** A canonical balance with a nonzero total converts to
    [total / 100000000]. *)
Lemma balanceInBTC_canonical c u :
  c + u <> 0 ->
  balanceInBTC (Samples.canonical_balance c u) = sats_to_btc (inject_Z (c + u)).
Proof.
  intros Hne. unfold balanceInBTC, Samples.canonical_balance, totalSats.
  cbn [bal_total bal_confirmed]. rewrite truthyQ_integer.
  destruct (Z.eqb_spec (c + u) 0); [contradiction | reflexivity].
Qed.

(** A bare number of at least one satoshi converts to [n / 100000000]. *)
Lemma balanceInBTC_satoshis n :
  1 <= n -> balanceInBTC (BNumber (inject_Z n)) = sats_to_btc (inject_Z n).
Proof.
  intros Hn. unfold balanceInBTC.
  assert (H : Qle_bool 1 (inject_Z n) = true).
  { apply Qle_bool_iff. unfold Qle, inject_Z. simpl. lia. }
  rewrite H. reflexivity.
Qed.

Lemma number_is_not_a_balance_object q : ~ is_canonical_balance (VNum q).
Proof. intros (fields & c & u & Hv & _). discriminate. Qed.

(** C5, as stated, fails: the provider hands the canonical balance
    [{confirmed: 3690, unconfirmed: 0, total: 3690}] to the facade, and
    [getBalance()] resolves with the number [0.0000369], not with a
    balance object. *)
Lemma getBalance_returns_a_number_not_an_object :
  let w := run (initial_world ["UniSat"])
             [Connect "UniSat";
              HandshakeSettled 0%nat (Ok (Samples.sample_handshake "bc1qunisat"));
              BalanceSettled 0%nat (Ok (Samples.canonical_balance 3690 0));
              GetBalance;
              BalanceSettled 1%nat (Ok (Samples.canonical_balance 3690 0))] in
  tasks w !! 1%nat = Some (Resolved (RetValue (VNum (369 # 10000000)))) /\
  ~ is_canonical_balance (VNum (369 # 10000000)).
Proof. split; [reflexivity | apply number_is_not_a_balance_object]. Qed.

(** C5, amended: [getBalance()], called while a provider is active and
    with subscribers that do not throw, resolves with a number, the
    balance in BTC: what the provider's [getBalance] resolved to,
    converted by [balanceInBTC] (satoshis divided by 100000000; for an
    object, its [total || confirmed || 0]).  It makes one [getBalance]
    call on the provider and publishes the number as [state.balance].
    The value is not a [{confirmed, unconfirmed, total}] object. *)
Theorem getBalance_resolves_with_BTC_number
    (w : World) (p : pid) (balanceData : BalanceData) :
  provider (current (store w)) = Some p ->
  Forall never_throws (subscribers (store w)) ->
  let t := length (tasks w) in
  let w' := run w [GetBalance; BalanceSettled t (Ok balanceData)] in
  tasks w' !! t = Some (Resolved (RetValue (VNum (balanceInBTC balanceData)))) /\
  ~ is_canonical_balance (VNum (balanceInBTC balanceData)) /\
  calls w' = calls w ++ [PGetBalance p] /\
  current (store w') =
    published (subscribers (store w))
      (merge (current (store w)) (patch_balance (Some (balanceInBTC balanceData)))).
Proof.
  intros Hp Hsubs t w'. subst w' t. unfold run. cbn [foldl step].
  unfold getBalance_start. rewrite Hp. cbn [spawn log_call tasks].
  rewrite lookup_spawned. unfold getBalance_settled.
  match goal with
  | |- context [setState_in ?newState ?w1] =>
      destruct (setState_in_returns newState w1 Hsubs) as (st' & Hset & Hcur & _);
      rewrite Hset
  end.
  unfold spawn, log_call in Hcur |- *.
  cbn [set_task with_store tasks store calls] in Hcur |- *.
  rewrite lookup_set_task.
  repeat split; try assumption. apply number_is_not_a_balance_object.
Qed.

Lemma getBalance_resolves_with_BTC_number_witness :
  let w := run (initial_world ["UniSat"])
             [Connect "UniSat";
              HandshakeSettled 0%nat (Ok (Samples.sample_handshake "bc1qunisat"));
              BalanceSettled 0%nat (Throw "balance unavailable")] in
  let w' := run w [GetBalance; BalanceSettled 1%nat (Ok (BNumber (3690 # 1)))] in
  provider (current (store w)) = Some 0%nat /\
  tasks w' !! 1%nat = Some (Resolved (RetValue (VNum (369 # 10000000)))) /\
  balance (current (store w')) = Some (369 # 10000000).
Proof.
  intros w w'. split; [reflexivity |].
  destruct (getBalance_resolves_with_BTC_number w 0%nat (BNumber (3690 # 1)))
    as (Ht & _ & _ & _); [reflexivity | constructor |].
  split; [exact Ht | reflexivity].
Defined.

End BalanceClaims.

(** * Further properties *)

(** ** Normalizers *)

Section NormalizerProperties.
Import Js Normalizers Observe.

(** X2: the upstream [total] is not trusted: when [confirmed] or [amount]
    is given and nonzero, the result is the same whatever [total] the
    object carries. *)
Theorem normalizeBalance_ignores_upstream_total
    (c a u p cf t t' : option Z) (walletName : string) :
  truthyZ (orZ c a) = true ->
  normalizeBalance
    (RawObject {| confirmed := c; amount := a; total := t;
                  unconfirmed := u; pending := p; confirm := cf |}) walletName =
  normalizeBalance
    (RawObject {| confirmed := c; amount := a; total := t';
                  unconfirmed := u; pending := p; confirm := cf |}) walletName.
Proof.
  intros Hca. unfold normalizeBalance.
  cbn [confirmed amount total unconfirmed pending confirm].
  assert (H : forall x, orZ0 (orZ (orZ c a) x) 0 = orZ0 (orZ c a) 0).
  { intros x. unfold orZ at 1. rewrite Hca. reflexivity. }
  rewrite !H. reflexivity.
Qed.

Lemma normalizeBalance_ignores_upstream_total_witness :
  normalizeBalance
    (RawObject {| confirmed := Some 7; amount := None; total := Some 1000;
                  unconfirmed := Some 3; pending := None; confirm := None |}) "OKX" =
  normalizeBalance
    (RawObject {| confirmed := Some 7; amount := None; total := None;
                  unconfirmed := Some 3; pending := None; confirm := None |}) "OKX".
Proof.
  apply (normalizeBalance_ignores_upstream_total
           (Some 7) None (Some 3) None None (Some 1000) None "OKX").
  reflexivity.
Defined.

(** X3: an object that carries [total] alone.  With the discriminators
    ['Xverse'] and ['UniSat'] the total is not read and the balance is
    all zeros; with any other discriminator it becomes the confirmed
    amount. *)
Theorem normalizeBalance_total_only (t : Z) (walletName : string) :
  normalizeBalance
    (RawObject {| confirmed := None; amount := None; total := Some t;
                  unconfirmed := None; pending := None; confirm := None |}) walletName =
  if String.eqb walletName "Xverse" || String.eqb walletName "UniSat"
  then {| nconfirmed := 0; nunconfirmed := 0; ntotal := 0 |}
  else {| nconfirmed := t; nunconfirmed := 0; ntotal := t |}.
Proof.
  unfold normalizeBalance.
  cbn [confirmed amount total unconfirmed pending confirm].
  destruct (String.eqb walletName "Xverse"); [reflexivity |].
  destruct (String.eqb walletName "UniSat"); [reflexivity |].
  cbn [orb]. rewrite !orZ_undefined_l, orZ0_self.
  cbn [orZ0]. f_equal. lia.
Qed.


End NormalizerProperties.

Section PsbtAndInscriptionProperties.
Import Js Normalizers Observe.

Lemma or_undefined_r v : survives_or v = true -> or v VUndefined = v.
Proof.
  unfold survives_or, or. destruct (truthy v) eqn:E; [reflexivity |].
  simpl. destruct v; try discriminate; reflexivity.
Qed.

(** X5: which inputs to sign, when the options give [inputsToSign] but no
    [toSignInputs].  With ['UniSat'] the list is dropped and
    [toSignInputs] is [[]]; with a wallet other than ['Xverse'] and
    ['UniSat'] the given [inputsToSign] is taken over. *)
Theorem normalizePsbtOptions_inputsToSign_fallback
    (fields : list (string * JsVal)) (inputs : JsVal) (walletName : string) :
  assoc "toSignInputs" fields = None ->
  assoc "inputsToSign" fields = Some inputs ->
  truthy inputs = true ->
  walletName <> "Xverse" ->
  exists r,
    normalizePsbtOptions (VObj fields) walletName = Ok r /\
    toSignInputs r = if String.eqb walletName "UniSat" then VArr [] else inputs.
Proof.
  intros Ht Hi Htruthy Hx. unfold normalizePsbtOptions.
  cbn [get_prop]. unfold prop; cbn [get_prop]. rewrite Ht, Hi. cbn [default].
  destruct (String.eqb_spec walletName "Xverse") as [? | _]; [contradiction |].
  destruct (String.eqb walletName "UniSat"); eexists; split; try reflexivity.
  cbn [toSignInputs]. unfold id.
  change (or VUndefined inputs) with inputs.
  unfold or. rewrite Htruthy. reflexivity.
Qed.

Lemma normalizePsbtOptions_inputsToSign_fallback_witness :
  (exists r,
     normalizePsbtOptions (VObj [("inputsToSign", VArr [VNum 0%Q; VNum 1%Q])]) "UniSat" = Ok r /\
     toSignInputs r = VArr []) /\
  (exists r,
     normalizePsbtOptions (VObj [("inputsToSign", VArr [VNum 0%Q; VNum 1%Q])]) "OKX" = Ok r /\
     toSignInputs r = VArr [VNum 0%Q; VNum 1%Q]).
Proof.
  split.
  - apply (normalizePsbtOptions_inputsToSign_fallback
             [("inputsToSign", VArr [VNum 0%Q; VNum 1%Q])] (VArr [VNum 0%Q; VNum 1%Q]) "UniSat");
      [reflexivity | reflexivity | reflexivity | discriminate].
  - apply (normalizePsbtOptions_inputsToSign_fallback
             [("inputsToSign", VArr [VNum 0%Q; VNum 1%Q])] (VArr [VNum 0%Q; VNum 1%Q]) "OKX");
      [reflexivity | reflexivity | reflexivity | discriminate].
Defined.




(** X7: under ['Xverse'] the inscription number is read from [number]
    alone, a key the normalized record does not have: normalizing a
    record that is already in normalized form always loses its
    [inscriptionNumber]. *)
Theorem normalizeInscription_Xverse_twice_loses_number (n : Inscription) :
  exists n',
    normalizeInscription (inscription_object n) "Xverse" = Ok n' /\
    inscriptionNumber n' = VUndefined.
Proof. eexists. split; reflexivity. Qed.

(** X8: for every wallet other than ['Xverse'], normalizing is idempotent
    on normalized records whose chained fields are truthy or
    [undefined]: a second pass returns the same record. *)
Theorem normalizeInscription_idempotent (walletName : string) (n : Inscription) :
  walletName <> "Xverse" ->
  forallb survives_or (chained_fields n) = true ->
  normalizeInscription (inscription_object n) walletName = Ok n.
Proof.
  intros Hx Hclean. destruct n as [iid inum addr ov ct cty cl ts gt loc out off].
  unfold chained_fields in Hclean. cbn in Hclean.
  repeat (apply andb_prop in Hclean as [? Hclean]).
  unfold normalizeInscription, inscription_object. cbn [get_prop].
  unfold prop. cbn [get_prop assoc String.eqb Ascii.eqb Bool.eqb default
    inscriptionId inscriptionNumber address outputValue content contentType
    contentLength timestamp genesisTransaction location output offset].
  destruct (String.eqb_spec walletName "Xverse") as [? | _]; [contradiction |].
  destruct (String.eqb walletName "UniSat");
    rewrite ?or_undefined_r by (rewrite ?or_undefined_r by assumption; assumption);
    reflexivity.
Qed.

Lemma normalizeInscription_idempotent_witness :
  exists n,
    normalizeInscription
      (VObj [("id", VStr "abci0"); ("number", VNum 7%Q); ("mimeType", VStr "image/png")])
      "OKX" = Ok n /\
    normalizeInscription (inscription_object n) "OKX" = Ok n.
Proof.
  eexists. split; [reflexivity |].
  apply (normalizeInscription_idempotent "OKX"); [discriminate | reflexivity].
Defined.

End PsbtAndInscriptionProperties.

(** ** The provider contract *)

Section ProviderContractProperties.
Import Js Capability BaseWalletProvider Observe.

(** X9: on an instance without a wallet object every default method
    rejects with the not-installed error, before anything else happens. *)
Theorem default_methods_require_installed
    (op : DefaultOp) (self : Provider) (args : list JsVal) (st : Effects) :
  walletInstance self = None ->
  call_default op self args st =
  (Throw (name self +:+ " wallet not installed or not detected"), st).
Proof.
  intros Hnone.
  destruct op; cbn [call_default];
    unfold getAddress, getPublicKey, getBalance, getNetwork, switchNetwork,
      signMessage, signPsbt, signPsbts, pushPsbt, pushTx, sendBitcoin,
      sendInscription, getInscriptions, getAllInscriptions, inscribe,
      bind, requireInstalled;
    rewrite Hnone; reflexivity.
Qed.

Lemma default_methods_require_installed_witness :
  call_default DSignMessage (Adapters.new_provider Adapters.Phantom None)
    [VStr "hello"] no_effects =
  (Throw "Phantom wallet not installed or not detected", no_effects).
Proof.
  apply (default_methods_require_installed DSignMessage
           (Adapters.new_provider Adapters.Phantom None)).
  reflexivity.
Defined.

Lemma call_default_needs_connection
    (op : DefaultOp) (self : Provider) (h : Handle) (args : list JsVal) (st : Effects) :
  walletInstance self = Some h ->
  isConnected self = false \/ truthyS (address self) = false ->
  requires_connection op = true ->
  call_default op self args st =
  (Throw (name self +:+ " wallet not connected. Please connect first."), st).
Proof.
  intros Hh Hnc Hreq.
  assert (Hguard : requireConnected self st =
            (Throw (name self +:+ " wallet not connected. Please connect first."), st)).
  { unfold requireConnected.
    destruct Hnc as [-> | ->]; rewrite ?orb_true_r; reflexivity. }
  destruct op; try discriminate; cbn [call_default];
    unfold getAddress, getPublicKey, getBalance, signMessage, signPsbt, signPsbts,
      pushPsbt, pushTx, sendBitcoin, sendInscription, getInscriptions,
      getAllInscriptions, inscribe, bind, requireInstalled;
    rewrite Hh; cbn [ret]; rewrite Hguard; reflexivity.
Qed.



(** X11: the fallback of the default [connect].  When the wallet object
    has no [connect] method, [connect()] goes through [getAddress()],
    which requires a connection: on an instance that is not connected yet
    it always rejects with the not-connected error, assigns nothing and
    never calls the wallet, whatever other methods the wallet has. *)
Theorem connect_fallback_never_connects (self : Provider) (h : Handle) (st : Effects) :
  walletInstance self = Some h ->
  has_method h "connect" = false ->
  isConnected self = false ->
  connect self st =
  (Throw (name self +:+ " wallet not connected. Please connect first."), [], st).
Proof.
  intros Hh Hconnect Hnc. unfold connect. rewrite Hh, Hconnect.
  unfold getAddress, bind, requireInstalled, requireConnected.
  rewrite Hh, Hnc. reflexivity.
Qed.

Lemma connect_fallback_never_connects_witness :
  connect (Adapters.new_provider Adapters.Phantom (Some (Samples.paged_handle 1 0)))
    no_effects =
  (Throw "Phantom wallet not connected. Please connect first.", [], no_effects).
Proof.
  apply (connect_fallback_never_connects
           (Adapters.new_provider Adapters.Phantom (Some (Samples.paged_handle 1 0)))
           (Samples.paged_handle 1 0));
    reflexivity.
Defined.

(** X12: the default [connect] sets [isConnected] before it reads the
    result.  When the wallet's [connect] resolves with [null] or
    [undefined], [connect()] rejects with a [TypeError], yet the instance
    is left with [isConnected = true] (and no address). *)
Theorem connect_marks_connected_before_reading_result
    (self : Provider) (h : Handle) (st : Effects) (result : JsVal) :
  walletInstance self = Some h ->
  has_method h "connect" = true ->
  respond h "connect" (length (calls st)) [] = Ok result ->
  result = VNull \/ result = VUndefined ->
  exists e,
    is_TypeError e = true /\
    connect self st =
    (Throw e, [SetIsConnected true],
     add_calls st [{| hc_method := "connect"; hc_args := [] |}]).
Proof.
  intros Hh Hconnect Hresp Hnull. unfold connect. rewrite Hh, Hconnect.
  unfold call_handle. rewrite Hresp.
  destruct Hnull as [-> | ->]; eexists; (split; [| reflexivity]); reflexivity.
Qed.

Lemma connect_marks_connected_before_reading_result_witness :
  exists e,
    is_TypeError e = true /\
    connect (Adapters.new_provider Adapters.Phantom (Some Samples.null_handle)) no_effects =
    (Throw e, [SetIsConnected true],
     add_calls no_effects [{| hc_method := "connect"; hc_args := [] |}]).
Proof.
  apply (connect_marks_connected_before_reading_result
           (Adapters.new_provider Adapters.Phantom (Some Samples.null_handle))
           Samples.null_handle no_effects VNull);
    [reflexivity | reflexivity | reflexivity | left; reflexivity].
Defined.

End ProviderContractProperties.

Section ProviderContractProperties2.
Import Js Capability BaseWalletProvider Observe.

(** X13: after a [disconnect()] that resolved, an instance that holds a
    wallet object is no longer connected: every default method that
    needs a connection rejects with the not-connected error and leaves
    the wallet alone. *)
Theorem disconnect_then_methods_reject
    (self self' : Provider) (h : Handle) (st st' st'' : Effects)
    (op : DefaultOp) (args : list JsVal) :
  walletInstance self = Some h ->
  disconnect self st = (Ok self', st') ->
  requires_connection op = true ->
  call_default op self' args st'' =
  (Throw (name self +:+ " wallet not connected. Please connect first."), st'').
Proof.
  intros Hh Hdis Hreq.
  assert (Hself : self' = {| name := name self; isConnected := false; address := None;
                             publicKey := None; walletInstance := walletInstance self;
                             features := features self |}).
  { unfold disconnect, bind in Hdis. rewrite Hh in Hdis |- *.
    destruct (has_method h "disconnect").
    - unfold call_handle in Hdis.
      destruct (respond h "disconnect" (length (calls st)) []); simpl in Hdis;
        inversion Hdis; reflexivity.
    - simpl in Hdis. inversion Hdis; reflexivity. }
  subst self'.
  exact (call_default_needs_connection op
           {| name := name self; isConnected := false; address := None;
              publicKey := None; walletInstance := walletInstance self;
              features := features self |}
           h args st'' Hh (or_introl eq_refl) Hreq).
Qed.

Lemma disconnect_then_methods_reject_witness :
  let p := Adapters.connected_provider Adapters.Phantom
             (Some Samples.null_handle) "bc1qphantom" in
  exists p' st',
    disconnect p no_effects = (Ok p', st') /\
    call_default DGetBalance p' [] st' =
    (Throw "Phantom wallet not connected. Please connect first.", st').
Proof.
  intros p. eexists. eexists. split; [reflexivity |].
  eapply (disconnect_then_methods_reject p _ Samples.null_handle no_effects);
    reflexivity.
Defined.

(** X14: the default [getBalance] takes [null] for an object.  When the
    wallet's [getBalance] resolves with [null], reading [result.total]
    throws and [getBalance()] rejects with a [TypeError]. *)
Theorem getBalance_null_answer_rejects (self : Provider) (h : Handle) (st : Effects) :
  walletInstance self = Some h ->
  isConnected self = true ->
  truthyS (address self) = true ->
  has_method h "getBalance" = true ->
  respond h "getBalance" (length (calls st)) [] = Ok VNull ->
  exists e,
    is_TypeError e = true /\
    getBalance self st =
    (Throw e, add_calls st [{| hc_method := "getBalance"; hc_args := [] |}]).
Proof.
  intros Hh Hc Ha Hm Hresp.
  unfold getBalance, bind, requireInstalled, requireConnected.
  rewrite Hh, Hc, Ha. cbn [negb orb ret]. rewrite Hm.
  unfold call_handle. rewrite Hresp.
  eexists; (split; [| reflexivity]); reflexivity.
Qed.

Lemma getBalance_null_answer_rejects_witness :
  exists e,
    is_TypeError e = true /\
    getBalance (Adapters.connected_provider Adapters.Leather
                  (Some Samples.null_handle) "bc1qleather") no_effects =
    (Throw e, add_calls no_effects [{| hc_method := "getBalance"; hc_args := [] |}]).
Proof.
  apply (getBalance_null_answer_rejects
           (Adapters.connected_provider Adapters.Leather
              (Some Samples.null_handle) "bc1qleather") Samples.null_handle);
    reflexivity.
Defined.

Lemma sign_each_in_order (this_signPsbt : JsVal -> JsVal -> M JsVal) options
    (sig : JsVal -> JsVal) (reqs : JsVal -> list HandleCall) psbts : forall st,
  (forall psbt st0, In psbt psbts ->
     this_signPsbt psbt options st0 = (Ok (sig psbt), add_calls st0 (reqs psbt))) ->
  sign_each this_signPsbt psbts options st =
  (Ok (map sig psbts), add_calls st (concat (map reqs psbts))).
Proof.
  induction psbts as [| psbt rest IH]; intros st Hsign.
  - simpl. unfold ret. rewrite add_calls_nil. reflexivity.
  - cbn [sign_each]. unfold bind at 1.
    rewrite (Hsign psbt st (or_introl eq_refl)).
    unfold bind at 1. rewrite IH by (intros; apply Hsign; right; assumption).
    cbn [map concat]. unfold ret. rewrite add_calls_app. reflexivity.
Qed.

(** X15: batch signing without a batch method.  When [signPsbts] is
    supported by the descriptor but the wallet object has no [signPsbts],
    the default [signPsbts] goes through the instance's own [signPsbt],
    once per PSBT and in order; when each of these resolves, the signed
    PSBTs come back in the same order. *)
Theorem signPsbts_falls_back_to_signing_each
    (self : Provider) (h : Handle) (this_signPsbt : JsVal -> JsVal -> M JsVal)
    (psbts : list JsVal) (options : JsVal)
    (sig : JsVal -> JsVal) (reqs : JsVal -> list HandleCall) (st : Effects) :
  walletInstance self = Some h ->
  isConnected self = true ->
  truthyS (address self) = true ->
  supportsMethod (features self) "signPsbts" = true ->
  has_method h "signPsbts" = false ->
  (forall psbt st0, In psbt psbts ->
     this_signPsbt psbt options st0 = (Ok (sig psbt), add_calls st0 (reqs psbt))) ->
  signPsbts self this_signPsbt (VArr psbts) options st =
  (Ok (VArr (map sig psbts)), add_calls st (concat (map reqs psbts))).
Proof.
  intros Hh Hc Ha Hs Hbatch Hsign.
  unfold signPsbts, bind at 1 2, requireInstalled, requireConnected.
  rewrite Hh, Hc, Ha. cbn [negb orb ret]. unfold safeCall. rewrite Hs, Hbatch.
  cbn [negb]. unfold bind, iterate, ret.
  rewrite (sign_each_in_order this_signPsbt options sig reqs psbts st Hsign).
  reflexivity.
Qed.

Lemma signPsbts_falls_back_to_signing_each_witness :
  let p := Adapters.connected_provider Adapters.MagicEden
             (Some Samples.signing_handle) "bc1pmagic" in
  signPsbts p (signPsbt p) (VArr [VStr "aa"; VStr "bb"]) (VObj []) no_effects =
  (Ok (VArr [VStr "aa"; VStr "bb"]),
   add_calls no_effects
     [signPsbt_call (VObj []) (VStr "aa"); signPsbt_call (VObj []) (VStr "bb")]).
Proof.
  intros p.
  apply (signPsbts_falls_back_to_signing_each p Samples.signing_handle (signPsbt p)
           [VStr "aa"; VStr "bb"] (VObj []) (fun psbt => psbt)
           (fun psbt => [signPsbt_call (VObj []) psbt]) no_effects);
    try reflexivity.
Defined.

Lemma split_dot_prefix key rest :
  dotless key = true ->
  split_dot (key +:+ String "."%char rest) = key :: split_dot rest.
Proof.
  induction key as [| c key IH]; intros Hdot; [reflexivity |].
  simpl in Hdot. apply andb_prop in Hdot as [Hc Hkey].
  change (String c key +:+ String "."%char rest)
    with (String c (key +:+ String "."%char rest)).
  cbn [split_dot]. destruct (Ascii.eqb c "."); [discriminate |].
  rewrite (IH Hkey). reflexivity.
Qed.

(** X16: a flat flag answers for every path below it.  When the
    descriptor holds a boolean at [key], [supportsMethod] of
    ["key.anything"] is that boolean: the walk stops at the first value
    that is not an object. *)
Theorem supportsMethod_flat_flag_covers_subpaths
    (entries : list (string * Feature)) (key sub : string) (b : bool) :
  dotless key = true ->
  assoc key entries = Some (FBool b) ->
  supportsMethod (FNode entries) (key +:+ "." +:+ sub) = b.
Proof.
  intros Hdot Hkey. unfold supportsMethod.
  change (key +:+ "." +:+ sub) with (key +:+ String "."%char sub).
  rewrite (split_dot_prefix key sub Hdot). cbn [walk]. rewrite Hkey.
  destruct (split_dot sub); destruct b; reflexivity.
Qed.

Lemma supportsMethod_flat_flag_covers_subpaths_witness :
  supportsMethod (Adapters.features_of Adapters.Xverse) "runes.etch" = true /\
  supportsMethod (Adapters.features_of Adapters.Leather) "runes.etch" = false.
Proof.
  split.
  - apply (supportsMethod_flat_flag_covers_subpaths _ "runes" "etch" true); reflexivity.
  - apply (supportsMethod_flat_flag_covers_subpaths _ "runes" "etch" false); reflexivity.
Defined.

End ProviderContractProperties2.

Section PaginationProperties.
Import Js BaseWalletProvider Observe.

(** X17: an error of a page request ends the enumeration with that
    error.  For a connected provider, whatever its single-page method
    [this.getInscriptions] is: when [N] full pages (below the safety
    limit) are followed by a request that rejects with [e],
    [getAllInscriptions()] rejects with [e] after these [N + 1]
    requests: the records accumulated so far are not returned. *)
Theorem getAllInscriptions_propagates_wallet_error
    (self : Provider) (h : Handle) (this_getInscriptions : Z -> Z -> M JsVal)
    (st : Effects) (N : nat) (e : Exn) :
  walletInstance self = Some h ->
  isConnected self = true ->
  truthyS (address self) = true ->
  (N < maxPages)%nat ->
  (forall i, (i < N)%nat -> serves_page this_getInscriptions st i 100) ->
  page_answer this_getInscriptions st N = Throw e ->
  getAllInscriptions self this_getInscriptions st =
  (Throw e, after_requests this_getInscriptions st (S N)).
Proof.
  intros Hh Hc Ha HN Hfull Hanswer.
  rewrite (getAllInscriptions_guards_pass self h) by assumption.
  rewrite (pages_loop_full_then_error this_getInscriptions st N e) by assumption.
  reflexivity.
Qed.

Lemma getAllInscriptions_propagates_wallet_error_witness :
  let p := Adapters.connected_provider Adapters.OKX
             (Some (Samples.pages_then 2 (Throw "wallet locked"))) "bc1qokx" in
  let m := Adapters.OKX_getInscriptions p in
  getAllInscriptions p m no_effects = (Throw "wallet locked", after_requests m no_effects 3) /\
  calls (after_requests m no_effects 3) = map page_request (seq 0 3).
Proof.
  intros p m. split; [| vm_compute; reflexivity].
  apply (getAllInscriptions_propagates_wallet_error p
           (Samples.pages_then 2 (Throw "wallet locked")) m no_effects 2
           "wallet locked");
    try reflexivity.
  - unfold maxPages. lia.
  - apply full_pages_serve. vm_compute. reflexivity.
Defined.

(** X18: an answer that carries no array of records ends the
    enumeration silently.  For a connected provider, whatever its
    single-page method [this.getInscriptions] is: when [N] full pages
    (below the safety limit) are followed by an answer, other than
    [null] and [undefined], whose [list || inscriptions || itself] is
    not an array, [getAllInscriptions()] resolves with the records of
    the [N] pages, in order and [N * 100] in number, after these [N + 1]
    requests, without a warning and without an error. *)
Theorem getAllInscriptions_stops_at_malformed_page
    (self : Provider) (h : Handle) (this_getInscriptions : Z -> Z -> M JsVal)
    (st : Effects) (N : nat) (result : JsVal) :
  walletInstance self = Some h ->
  isConnected self = true ->
  truthyS (address self) = true ->
  (N < maxPages)%nat ->
  (forall i, (i < N)%nat -> serves_page this_getInscriptions st i 100) ->
  page_answer this_getInscriptions st N = Ok result ->
  is_nullish result = false ->
  records_of result = None ->
  let all := concat (map (page_records this_getInscriptions st) (seq 0 N)) in
  getAllInscriptions self this_getInscriptions st =
    (Ok all, after_requests this_getInscriptions st (S N)) /\
  length all = (N * 100)%nat.
Proof.
  intros Hh Hc Ha HN Hfull Hanswer Hnullish Hnone all. subst all. split.
  - rewrite (getAllInscriptions_guards_pass self h) by assumption.
    rewrite (pages_loop_full_then_malformed this_getInscriptions st N result)
      by assumption.
    cbn [fst snd]. destruct (Nat.leb_spec maxPages N) as [Hle | _]; [lia |].
    reflexivity.
  - apply length_concat_full. intros i Hi. apply page_records_serves, Hfull. lia.
Qed.

Lemma getAllInscriptions_stops_at_malformed_page_witness :
  let p := Adapters.connected_provider Adapters.Phantom
             (Some (Samples.pages_then 1 (Ok (VObj [("list", VStr "none")]))))
             "bc1qphantom" in
  let m := getInscriptions p in
  let all := concat (map (page_records m no_effects) (seq 0 1)) in
  (getAllInscriptions p m no_effects = (Ok all, after_requests m no_effects 2) /\
   length all = (1 * 100)%nat) /\
  calls (after_requests m no_effects 2) = map page_request (seq 0 2).
Proof.
  intros p m all. split; [| vm_compute; reflexivity].
  apply (getAllInscriptions_stops_at_malformed_page p
           (Samples.pages_then 1 (Ok (VObj [("list", VStr "none")]))) m
           no_effects 1 (VObj [("list", VStr "none")]));
    try reflexivity.
  - unfold maxPages. lia.
  - apply full_pages_serve. vm_compute. reflexivity.
Defined.

End PaginationProperties.

(** ** The facade *)

Section FacadeProperties.
Import Js Facade Observe.

(** X19: [connect] with a name for which no provider can be handed out
    rejects before any handshake.  For a name that has an adapter class
    whose wallet is not installed, the instance is constructed, its
    [isInstalled()] answers [false], and the error is the not-installed
    message with the download address.  For a name without a class the
    error is ['Unknown wallet: <name>'], except for the names the class
    table inherits from [Object.prototype] (['constructor'],
    ['toString'], ...), for which it is a [TypeError].  In each case
    neither [connect()], [getBalance()] nor [disconnect()] is called on
    a provider, nothing is warned of or logged as an error, and the
    connection state and the subscribers are not touched. *)
Theorem connect_unavailable_wallet_rejects (w : World) (walletName : string) :
  mem walletName PROVIDER_CLASSES && mem walletName (installed w) = false ->
  let w' := step w (Connect walletName) in
  exists e,
    tasks w' = tasks w ++ [Rejected e] /\
    store w' = store w /\
    calls w' = calls w /\
    console w' = console w /\
    if mem walletName PROVIDER_CLASSES
    then e = walletName +:+ " wallet is not installed." +:+ nl +:+ nl +:+
             "Download: " +:+ downloadUrl walletName /\
         instances w' = instances w ++ [walletName]
    else instances w' = instances w /\
         if mem walletName OBJECT_PROTOTYPE
         then is_TypeError e = true
         else e = "Unknown wallet: " +:+ walletName.
Proof.
  intros Hno. cbn [step]. unfold connect_start, createProvider.
  destruct (mem walletName PROVIDER_CLASSES); cbn [negb andb] in *.
  - rewrite Hno. cbn [negb]. eexists. repeat split.
  - destruct (String.eqb_spec walletName "constructor") as [-> | Hne].
    + eexists. repeat split.
    + destruct (mem walletName OBJECT_PROTOTYPE); eexists; repeat split.
Qed.

Lemma connect_unavailable_wallet_rejects_witness :
  let w := initial_world [] in
  (exists e,
     tasks (step w (Connect "UniSat")) = [Rejected e] /\
     e = "UniSat wallet is not installed." +:+ nl +:+ nl +:+
         "Download: https://unisat.io") /\
  (exists e,
     tasks (step w (Connect "Metamask")) = [Rejected e] /\
     e = "Unknown wallet: Metamask") /\
  (exists e,
     tasks (step w (Connect "constructor")) = [Rejected e] /\
     is_TypeError e = true).
Proof.
  intros w. repeat split.
  - destruct (connect_unavailable_wallet_rejects w "UniSat") as (e & Ht & _ & _ & _ & He);
      [reflexivity |].
    exists e. split; [exact Ht | apply He].
  - destruct (connect_unavailable_wallet_rejects w "Metamask") as (e & Ht & _ & _ & _ & He);
      [reflexivity |].
    exists e. split; [exact Ht | apply He].
  - destruct (connect_unavailable_wallet_rejects w "constructor") as (e & Ht & _ & _ & _ & He);
      [reflexivity |].
    exists e. split; [exact Ht | apply He].
Defined.

(** X20: a handshake that fails does not unwind anything.  [connect]
    rejects with the wallet's own error, and the connection state,
    whatever it was, stays as it is; the only call made is [connect()] on
    the new instance. *)
Theorem failed_handshake_keeps_previous_state (w : World) (walletName : string) (e : Exn) :
  creatable w walletName ->
  let t := length (tasks w) in
  let w' := run w [Connect walletName; HandshakeSettled t (Throw e)] in
  tasks w' !! t = Some (Rejected e) /\
  store w' = store w /\
  calls w' = calls w ++ [PConnect (length (instances w))] /\
  console w' = console w ++ [ErrorConnect walletName e].
Proof.
  intros Hc t w'. subst w' t. unfold run. cbn [foldl].
  destruct (connect_start_creatable w walletName Hc) as (Hst & _ & _ & Hcalls & Hts).
  set (w1 := step w (Connect walletName)) in *.
  assert (Hcons : console w1 = console w).
  { subst w1. cbn [step]. unfold connect_start.
    rewrite (createProvider_creatable w walletName Hc). reflexivity. }
  cbn [step]. rewrite Hts, lookup_spawned.
  unfold connect_handshake, connect_failed. cbn [set_task log_console tasks store calls console].
  rewrite Hts, Hst, Hcalls, Hcons, lookup_set_task. repeat split.
Qed.

Lemma failed_handshake_keeps_previous_state_witness :
  let w := run (initial_world ["UniSat"; "Xverse"])
             [Connect "UniSat";
              HandshakeSettled 0%nat (Ok (Samples.sample_handshake "bc1qunisat"));
              BalanceSettled 0%nat (Ok (BNumber (3690 # 1)))] in
  let w' := run w [Connect "Xverse"; HandshakeSettled 1%nat (Throw "User rejected")] in
  tasks w' !! 1%nat = Some (Rejected "User rejected") /\
  walletType (current (store w')) = Some "UniSat".
Proof.
  intros w w'.
  destruct (failed_handshake_keeps_previous_state w "Xverse" "User rejected")
    as (Ht & _); [split; reflexivity |].
  split; [exact Ht | reflexivity].
Defined.

(** X21: a balance that cannot be fetched does not unwind the
    connection.  When the handshake succeeds and [getBalance] then
    fails, the state stays published as connected, with the new
    provider.  When the failure is an [Error], or any reason other than
    [null] and [undefined], [connect] resolves with the provider and the
    balance of the state is [null].  When the reason is [null] or
    [undefined], reading [balanceError.message] throws: [connect]
    rejects with a [TypeError] and the balance of the state is left as
    it was before the call. *)
Theorem connect_survives_balance_failure
    (w : World) (walletName : string) (h : Handshake) (f : BalanceFailure) :
  Forall passive (subscribers (store w)) ->
  creatable w walletName ->
  let t := length (tasks w) in
  let p := length (instances w) in
  let w' := run w [Connect walletName; HandshakeSettled t (Ok h);
                   balance_failed t f] in
  isConnected (current (store w')) = true /\
  walletType (current (store w')) = Some walletName /\
  provider (current (store w')) = Some p /\
  if has_message f
  then tasks w' !! t = Some (Resolved (RetProvider p)) /\
       balance (current (store w')) = None
  else (exists e, is_TypeError e = true /\ tasks w' !! t = Some (Rejected e)) /\
       balance (current (store w')) = balance (current (store w)).
Proof.
  intros Hsubs Hc t p w'. subst w' p. unfold run. cbn [foldl].
  destruct (connect_start_creatable w walletName Hc) as (Hst & _ & _ & _ & Hts).
  set (w1 := step w (Connect walletName)) in *.
  assert (Ht1 : tasks w1 !! t =
            Some (Suspended (AwaitHandshake (length (instances w)) walletName)))
    by (rewrite Hts; apply lookup_spawned).
  assert (Hsubs1 : Forall passive (subscribers (store w1))) by (rewrite Hst; exact Hsubs).
  destruct (handshake_resolved w1 t _ walletName h Ht1 Hsubs1)
    as (Hcur & Hs2 & _ & _ & _ & Hts2).
  set (w2 := step w1 (HandshakeSettled t (Ok h))) in *.
  assert (Ht2 : tasks w2 !! t =
            Some (Suspended (AwaitConnectBalance (length (instances w)) walletName))).
  { rewrite Hts2, Hts. apply lookup_set_task. }
  assert (Hsubs2 : Forall passive (subscribers (store w2))) by (rewrite Hs2; exact Hsubs1).
  assert (Hlt : (t < length (tasks w2))%nat) by (apply lookup_lt_Some in Ht2; exact Ht2).
  rewrite Hst in Hcur.
  assert (Hnull : forall msg,
    let w3 := match setState_in (patch_balance None) (log_console msg w2) with
              | (Ok _, w'') =>
                  set_task t (Resolved (RetProvider (length (instances w)))) w''
              | (Throw e, w'') => connect_failed t walletName e w''
              end in
    isConnected (current (store w3)) = true /\
    walletType (current (store w3)) = Some walletName /\
    provider (current (store w3)) = Some (length (instances w)) /\
    tasks w3 !! t = Some (Resolved (RetProvider (length (instances w)))) /\
    balance (current (store w3)) = None).
  { intros msg.
    destruct (setState_in_passive (patch_balance None) (log_console msg w2))
      as (st' & Hset & Hcur' & _); [exact Hsubs2 |].
    rewrite Hset. cbn zeta. cbn [set_task with_store store tasks log_console].
    rewrite Hcur'. cbn [log_console store]. rewrite Hcur.
    repeat split. apply list_lookup_insert_eq. exact Hlt. }
  destruct f as [e | reason]; cbn [balance_failed has_message step]; rewrite Ht2.
  - unfold connect_balance.
    destruct (Hnull (WarnBalance e)) as (H1 & H2 & H3 & H4 & H5).
    repeat split; assumption.
  - unfold connect_balance_rejected.
    destruct reason as [| | b | q | s | items | fields];
      cbn [get_prop is_nullish negb];
      try (match goal with
           | |- context [log_console ?msg w2] =>
               destruct (Hnull msg) as (H1 & H2 & H3 & H4 & H5);
               repeat split; assumption
           end);
      (unfold connect_failed;
       cbn [set_task log_console store tasks]; rewrite Hcur;
       repeat split;
       eexists; (split; [| apply list_lookup_insert_eq; exact Hlt]); reflexivity).
Qed.

Lemma connect_survives_balance_failure_witness :
  let w := initial_world ["Leather"] in
  let hs := Samples.sample_handshake "bc1qleather" in
  let w1 := run w [Connect "Leather"; HandshakeSettled 0%nat (Ok hs);
                   BalanceSettled 0%nat (Throw "Leather: getBalance not implemented")] in
  let w2 := run w [Connect "Leather"; HandshakeSettled 0%nat (Ok hs);
                   BalanceRejected 0%nat VNull] in
  (tasks w1 !! 0%nat = Some (Resolved (RetProvider 0%nat)) /\
   isConnected (current (store w1)) = true /\
   balance (current (store w1)) = None) /\
  ((exists e, is_TypeError e = true /\ tasks w2 !! 0%nat = Some (Rejected e)) /\
   isConnected (current (store w2)) = true /\
   provider (current (store w2)) = Some 0%nat).
Proof.
  intros w hs w1 w2. split.
  - destruct (connect_survives_balance_failure w "Leather" hs
                (FailsWithError "Leather: getBalance not implemented"))
      as (Hc & _ & _ & Ht & Hb); [constructor | split; reflexivity |].
    repeat split; assumption.
  - destruct (connect_survives_balance_failure w "Leather" hs (FailsWith VNull))
      as (Hc & _ & Hp & Ht & _); [constructor | split; reflexivity |].
    repeat split; assumption.
Defined.

End FacadeProperties.

Section ConnectionInvariant.
Import Js Facade Observe.

(** A step that leaves the store alone, only adds instances, and only
    adds handshakes for instances of the right class. *)
Lemma invariant_frame w w' :
  store w' = store w ->
  (forall p n, instances w !! p = Some n -> instances w' !! p = Some n) ->
  (forall t p n,
     tasks w' !! t = Some (Suspended (AwaitHandshake p n)) ->
     tasks w !! t = Some (Suspended (AwaitHandshake p n)) \/
     instances w' !! p = Some n) ->
  connection_invariant w -> connection_invariant w'.
Proof.
  intros Hst Hinst Htasks (Hsubs & Hcons & Hwf).
  split; [rewrite Hst; exact Hsubs |]. split.
  - unfold store_consistent in *. rewrite Hst. cbn zeta in *.
    destruct (provider (current (store w))) as [p |]; [| exact Hcons].
    destruct Hcons as (Hc & n & Hn & Hp). split; [exact Hc |].
    exists n. split; [exact Hn | apply Hinst; exact Hp].
  - intros t p n Ht. destruct (Htasks t p n Ht) as [Hold | Hnew]; [| exact Hnew].
    apply Hinst. apply (Hwf t). exact Hold.
Qed.

(** A step that writes the state. *)
Lemma invariant_update w w' :
  subscribers (store w') = subscribers (store w) ->
  instances w' = instances w ->
  (forall t p n,
     tasks w' !! t = Some (Suspended (AwaitHandshake p n)) ->
     tasks w !! t = Some (Suspended (AwaitHandshake p n))) ->
  store_consistent w' ->
  connection_invariant w -> connection_invariant w'.
Proof.
  intros Hs Hinst Htasks Hcons' (Hsubs & _ & Hwf).
  split; [rewrite Hs; exact Hsubs |]. split; [exact Hcons' |].
  intros t p n Ht. rewrite Hinst. apply (Hwf t). apply Htasks. exact Ht.
Qed.

Lemma spawned_handshake (ts : list Task) x t p n :
  (ts ++ [x]) !! t = Some (Suspended (AwaitHandshake p n)) ->
  ts !! t = Some (Suspended (AwaitHandshake p n)) \/
  x = Suspended (AwaitHandshake p n).
Proof.
  intros H. apply lookup_snoc_Some in H as [[_ H] | [_ H]]; auto.
Qed.

Lemma finished_handshake (ts : list Task) t0 x t p n :
  (forall p' n', x <> Suspended (AwaitHandshake p' n')) ->
  <[t0 := x]> ts !! t = Some (Suspended (AwaitHandshake p n)) ->
  ts !! t = Some (Suspended (AwaitHandshake p n)).
Proof.
  intros Hx H. apply list_lookup_insert_Some in H as [(_ & Heq & _) | [_ H]];
    [exfalso; eapply Hx; exact Heq | exact H].
Qed.

Lemma consistent_disconnected w st' :
  current st' = disconnected -> store_consistent (with_store w st').
Proof. intros H. unfold store_consistent. cbn [with_store store]. rewrite H. split; reflexivity. Qed.

Lemma consistent_balance_patch w w' b :
  current (store w') = merge (current (store w)) (patch_balance b) ->
  instances w' = instances w ->
  store_consistent w -> store_consistent w'.
Proof.
  intros Hcur Hinst Hcons. unfold store_consistent in *. rewrite Hcur, Hinst.
  exact Hcons.
Qed.

Lemma step_keeps_invariant w ev :
  connection_invariant w -> connection_invariant (step w ev).
Proof.
  intros Hinv. pose proof Hinv as (Hsubs & Hcons & Hwf).
  assert (Hcatch : forall t p n msg w0,
    store w0 = store w -> instances w0 = instances w -> tasks w0 = tasks w ->
    connection_invariant
      (match setState_in (patch_balance None) (log_console msg w0) with
       | (Ok _, w'') => set_task t (Resolved (RetProvider p)) w''
       | (Throw e', w'') => connect_failed t n e' w''
       end)).
  { intros t p n msg w0 Hst0 Hinst0 Hts0.
    destruct (setState_in_passive (patch_balance None) (log_console msg w0))
      as (st' & Hset & Hcur & Hs); [simpl; rewrite Hst0; exact Hsubs |].
    rewrite Hset. simpl in Hcur, Hs. rewrite Hst0 in Hcur, Hs.
    apply (invariant_update w); [exact Hs | exact Hinst0 | | | exact Hinv].
    - cbn [set_task log_console with_store tasks]. rewrite Hts0.
      intros t' p' n'. apply finished_handshake. discriminate.
    - apply (consistent_balance_patch w _ None); [exact Hcur | exact Hinst0 | exact Hcons]. }
  destruct ev as [walletName | | | t r | t r | t r | t reason]; cbn [step].
  - (* connect *)
    unfold connect_start, createProvider.
    destruct (mem walletName PROVIDER_CLASSES); cbn [negb];
      [destruct (mem walletName (installed w)); cbn [negb]
      | destruct (String.eqb walletName "constructor");
        [| destruct (mem walletName OBJECT_PROTOTYPE)]];
      (apply (invariant_frame w); [reflexivity | | | exact Hinv]);
      cbn [spawn log_call instances tasks];
      try (intros p n Hp; apply lookup_app_l_Some; exact Hp);
      try (intros p n Hp; exact Hp);
      intros t p n Ht; apply spawned_handshake in Ht as [Ht | Ht];
      try (left; exact Ht); try discriminate.
    inversion Ht; subst. right. apply list_lookup_middle. reflexivity.
  - (* disconnect *)
    unfold disconnect_start.
    destruct (provider (current (store w))) as [p |].
    + apply (invariant_frame w); [reflexivity | auto | | exact Hinv].
      cbn [spawn log_call tasks]. intros t p' n Ht.
      apply spawned_handshake in Ht as [Ht | Ht]; [left; exact Ht | discriminate].
    + destruct (finish_disconnect_returns w) as (st' & Hfin & Hcur & Hs & _).
      { eapply Forall_impl; [exact Hsubs | apply passive_never_throws]. }
      rewrite Hfin. rewrite published_passive in Hcur by exact Hsubs.
      apply (invariant_update w); [exact Hs | reflexivity | | | exact Hinv].
      * cbn [spawn with_store tasks]. intros t p n Ht.
        apply spawned_handshake in Ht as [Ht | Ht]; [exact Ht | discriminate].
      * apply (consistent_disconnected _ st' Hcur).
  - (* getBalance *)
    unfold getBalance_start.
    destruct (provider (current (store w))) as [p |];
      (apply (invariant_frame w); [reflexivity | auto | | exact Hinv]);
      cbn [spawn log_call tasks]; intros t p' n Ht;
      (apply spawned_handshake in Ht as [Ht | Ht]; [left; exact Ht | discriminate]).
  - (* a handshake settles *)
    destruct (tasks w !! t) as [[[p n | p n | |] | | |] |] eqn:Ht; try exact Hinv.
    unfold connect_handshake, connect_failed. destruct r as [h | e].
    + destruct (setState_in_passive (connected_patch n h p) w Hsubs)
        as (st' & Hset & Hcur & Hs).
      rewrite Hset. apply (invariant_update w); [exact Hs | reflexivity | | | exact Hinv].
      * cbn [set_task log_call with_store tasks]. intros t' p' n'.
        apply finished_handshake. discriminate.
      * unfold store_consistent. cbn [set_task log_call with_store store instances].
        rewrite Hcur. cbn. split; [reflexivity |].
        exists n. split; [reflexivity | apply (Hwf t); exact Ht].
    + apply (invariant_frame w); [reflexivity | auto | | exact Hinv].
      cbn [set_task log_console tasks]. intros t' p' n' Ht'. left.
      revert Ht'. apply finished_handshake. discriminate.
  - (* a balance settles *)
    destruct (tasks w !! t) as [[[p n | p n | |] | | |] |] eqn:Ht; try exact Hinv.
    + unfold connect_balance.
      destruct r as [balanceData | e]; [| apply Hcatch; reflexivity].
      destruct (setState_in_passive (patch_balance (Some (balanceInBTC balanceData))) w Hsubs)
        as (st' & Hset & Hcur & Hs).
      rewrite Hset. apply (invariant_update w); [exact Hs | reflexivity | | | exact Hinv].
      * cbn [set_task with_store tasks]. intros t' p' n'.
        apply finished_handshake. discriminate.
      * apply (consistent_balance_patch w _ (Some (balanceInBTC balanceData)));
          [exact Hcur | reflexivity | exact Hcons].
    + unfold getBalance_settled. destruct r as [balanceData | e].
      * destruct (setState_in_passive (patch_balance (Some (balanceInBTC balanceData))) w Hsubs)
          as (st' & Hset & Hcur & Hs).
        rewrite Hset. apply (invariant_update w); [exact Hs | reflexivity | | | exact Hinv].
        -- cbn [set_task with_store tasks]. intros t' p' n'.
           apply finished_handshake. discriminate.
        -- apply (consistent_balance_patch w _ (Some (balanceInBTC balanceData)));
             [exact Hcur | reflexivity | exact Hcons].
      * apply (invariant_frame w); [reflexivity | auto | | exact Hinv].
        cbn [set_task tasks]. intros t' p' n' Ht'. left.
        revert Ht'. apply finished_handshake. discriminate.
  - (* a disconnect settles *)
    destruct (tasks w !! t) as [[[p n | p n | |] | | |] |] eqn:Ht; try exact Hinv.
    unfold disconnect_settled.
    set (w1 := match r with
               | Ok _ => w
               | Throw error => log_console (WarnDisconnectFailed error) w
               end).
    assert (Hst1 : store w1 = store w) by (subst w1; destruct r; reflexivity).
    assert (Hin1 : instances w1 = instances w) by (subst w1; destruct r; reflexivity).
    assert (Hts1 : tasks w1 = tasks w) by (subst w1; destruct r; reflexivity).
    destruct (finish_disconnect_returns w1) as (st' & Hfin & Hcur & Hs & _).
    { rewrite Hst1. eapply Forall_impl; [exact Hsubs | apply passive_never_throws]. }
    rewrite Hfin. rewrite Hst1 in Hcur, Hs.
    rewrite published_passive in Hcur by exact Hsubs.
    apply (invariant_update w); [exact Hs | exact Hin1 | | | exact Hinv].
    + cbn [set_task with_store tasks]. rewrite Hts1. intros t' p' n'.
      apply finished_handshake. discriminate.
    + unfold store_consistent. cbn [set_task with_store store]. rewrite Hcur.
      split; reflexivity.
  - (* a balance is rejected with a plain value *)
    destruct (tasks w !! t) as [[[p n | p n | |] | | |] |] eqn:Ht; try exact Hinv.
    + unfold connect_balance_rejected.
      destruct (get_prop reason "message") as [message | e];
        [apply Hcatch; reflexivity |].
      apply (invariant_frame w); [reflexivity | auto | | exact Hinv].
      unfold connect_failed. cbn [set_task log_console tasks]. intros t' p' n' Ht'.
      left. revert Ht'. apply finished_handshake. discriminate.
    + apply (invariant_frame w); [reflexivity | auto | | exact Hinv].
      cbn [set_task tasks]. intros t' p' n' Ht'. left.
      revert Ht'. apply finished_handshake. discriminate.
Qed.

(** X22: the connection state agrees with its provider throughout.
    Starting from a world that satisfies the invariant (the initial world
    does), and with subscribers that only read the state, after any
    sequence of calls and settlements: when the state refers to a
    provider, [isConnected] is [true] and [walletType] is the name of
    that provider's class; when it refers to none, [isConnected] is
    [false] and [walletType] is [null]. *)
Theorem connection_state_stays_consistent (w : World) (evs : list Event) :
  connection_invariant w -> store_consistent (run w evs).
Proof.
  intros Hinv.
  assert (H : connection_invariant (run w evs)).
  { revert w Hinv. induction evs as [| ev evs IH]; intros w Hinv; [exact Hinv |].
    unfold run. cbn [foldl]. apply IH. apply step_keeps_invariant. exact Hinv. }
  destruct H as (_ & Hcons & _). exact Hcons.
Qed.

Lemma connection_state_stays_consistent_witness :
  store_consistent
    (run (initial_world ["UniSat"; "Xverse"])
       [Connect "UniSat"; Connect "Xverse";
        HandshakeSettled 1%nat (Ok (Samples.sample_handshake "bc1pxverse"));
        HandshakeSettled 0%nat (Ok (Samples.sample_handshake "bc1qunisat"));
        Disconnect]).
Proof.
  apply connection_state_stays_consistent.
  split; [constructor |]. split; [split; reflexivity |].
  intros t p n Ht. destruct t; discriminate.
Defined.

End ConnectionInvariant.

Section FacadeProperties2.
Import Js Facade Observe.

(** X23: a balance that arrives after the disconnect is still written.
    With subscribers that only read the state: when [getBalance()] is
    awaiting the provider and [disconnect()] runs to its end in the
    meantime, the late balance is merged into the disconnected state:
    the state reads [isConnected: false] and [provider: null], but
    [balance] holds the number. *)
Theorem late_balance_lands_in_disconnected_state
    (w : World) (p : pid) (r : Result unit) (balanceData : BalanceData) :
  provider (current (store w)) = Some p ->
  Forall passive (subscribers (store w)) ->
  let t := length (tasks w) in
  let w' := run w [GetBalance; Disconnect; DisconnectSettled (S t) r;
                   BalanceSettled t (Ok balanceData)] in
  tasks w' !! t = Some (Resolved (RetValue (VNum (balanceInBTC balanceData)))) /\
  isConnected (current (store w')) = false /\
  provider (current (store w')) = None /\
  balance (current (store w')) = Some (balanceInBTC balanceData).
Proof.
  intros Hp Hsubs t w'. subst w'. unfold run. cbn [foldl].
  (* getBalance starts *)
  assert (H1 : step w GetBalance =
            spawn (Suspended AwaitBalance) (log_call (PGetBalance p) w)).
  { cbn [step]. unfold getBalance_start. rewrite Hp. reflexivity. }
  rewrite H1. set (w1 := spawn _ _).
  (* disconnect starts *)
  assert (H2 : step w1 Disconnect =
            spawn (Suspended AwaitDisconnect) (log_call (PDisconnect p) w1)).
  { cbn [step]. unfold disconnect_start. subst w1. cbn [spawn log_call store].
    rewrite Hp. reflexivity. }
  rewrite H2. set (w2 := spawn _ _).
  assert (Hts2 : tasks w2 = (tasks w ++ [Suspended AwaitBalance]) ++ [Suspended AwaitDisconnect])
    by reflexivity.
  assert (Hst2 : store w2 = store w) by reflexivity.
  (* disconnect ends *)
  set (w2' := match r with
              | Ok _ => w2
              | Throw error => log_console (WarnDisconnectFailed error) w2
              end).
  assert (Hst2' : store w2' = store w) by (subst w2'; destruct r; reflexivity).
  assert (Hts2' : tasks w2' = tasks w2) by (subst w2'; destruct r; reflexivity).
  destruct (setState_in_passive (patch_all disconnected) w2')
    as (st3 & Hset3 & Hcur3 & Hs3); [rewrite Hst2'; exact Hsubs |].
  assert (H3 : step w2 (DisconnectSettled (S t) r) =
            set_task (S t) (Resolved RetUndefined) (with_store w2' st3)).
  { cbn [step]. rewrite Hts2.
    replace (S t) with (length (tasks w ++ [Suspended AwaitBalance]))
      by (rewrite length_app; simpl; subst t; lia).
    rewrite lookup_spawned. unfold disconnect_settled. fold w2'.
    unfold finish_disconnect. rewrite Hset3. reflexivity. }
  rewrite H3. set (w3 := set_task _ _ _).
  assert (Hts3 : tasks w3 !! t = Some (Suspended AwaitBalance)).
  { subst w3. cbn [set_task with_store tasks]. rewrite Hts2', Hts2.
    rewrite list_lookup_insert_ne by lia.
    rewrite lookup_app_l by (rewrite length_app; simpl; subst t; lia).
    apply lookup_spawned. }
  rewrite merge_patch_all in Hcur3.
  (* the balance arrives *)
  cbn [step]. rewrite Hts3. unfold getBalance_settled.
  destruct (setState_in_passive (patch_balance (Some (balanceInBTC balanceData))) w3)
    as (st4 & Hset4 & Hcur4 & _).
  { subst w3. cbn [set_task with_store store]. rewrite Hs3, Hst2'. exact Hsubs. }
  rewrite Hset4. cbn [set_task with_store tasks store].
  replace (current (store w3)) with (current st3) in Hcur4 by reflexivity.
  rewrite Hcur4, Hcur3. repeat split.
  apply list_lookup_insert_eq. apply lookup_lt_Some in Hts3. exact Hts3.
Qed.

Lemma late_balance_lands_in_disconnected_state_witness :
  let w := run (initial_world ["UniSat"])
             [Connect "UniSat";
              HandshakeSettled 0%nat (Ok (Samples.sample_handshake "bc1qunisat"));
              BalanceSettled 0%nat (Throw "busy")] in
  let w' := run w [GetBalance; Disconnect; DisconnectSettled 2%nat (Ok tt);
                   BalanceSettled 1%nat (Ok (BNumber (3690 # 1)))] in
  provider (current (store w)) = Some 0%nat /\
  isConnected (current (store w')) = false /\
  provider (current (store w')) = None /\
  balance (current (store w')) = Some (369 # 10000000).
Proof.
  intros w w'. split; [reflexivity |].
  destruct (late_balance_lands_in_disconnected_state w 0%nat (Ok tt) (BNumber (3690 # 1)))
    as (_ & Hc & Hp & Hb); [reflexivity | constructor |].
  repeat split; assumption.
Defined.

Lemma forEach_notifies_subscribers subs : forall st,
  exists k,
    notified (snd (forEach subs st)) =
    notified st ++ map (fun cb => (sub_id cb, currentState st)) (take k subs).
Proof.
  induction subs as [| cb subs IH]; intros st.
  - exists 0%nat. simpl. rewrite app_nil_r. reflexivity.
  - cbn [forEach]. unfold invoke.
    destruct (callback cb (deref st (currentState st))) as [s' | s' e].
    + match goal with |- context [forEach subs ?x] => destruct (IH x) as [k Hk] end.
      exists (S k). rewrite Hk. simpl. rewrite <- app_assoc. reflexivity.
    + exists 1%nat. simpl. rewrite ?take_0. reflexivity.
Qed.

(** X24: after [unsubscribe], a callback is not called again: whatever
    the store and the other subscribers do, a state change made after a
    callback was deleted from the set does not invoke it. *)
Theorem unsubscribed_callback_is_not_notified (st : Store) (id : nat) (newState : Patch) :
  let st' := snd (setState newState (unsubscribe id st)) in
  Forall (fun n => fst n <> id) (drop (length (notified st)) (notified st')).
Proof.
  intros st'. subst st'. unfold setState.
  match goal with |- context [forEach ?subs ?x] =>
    destruct (forEach_notifies_subscribers subs x) as [k Hk] end.
  rewrite Hk. cbn [notified unsubscribe subscribers].
  rewrite drop_app_length. apply Forall_forall. intros n Hn.
  apply list_elem_of_fmap in Hn as (cb & -> & Hcb). simpl.
  apply (subseteq_take k) in Hcb. apply list_elem_of_filter in Hcb as [Hne _].
  exact Hne.
Qed.

(** X25: the object [getState()] returns is a copy.  It holds the
    current state, it is not the object the store holds, and writing to
    it leaves the state of the store as it was. *)
Theorem getState_copy_is_detached (st : Store) (s : Snapshot) :
  (currentState st < length (heap st))%nat ->
  deref (snd (getState st)) (fst (getState st)) = current st /\
  fst (getState st) <> currentState (snd (getState st)) /\
  current (write (snd (getState st)) (fst (getState st)) s) = current st.
Proof.
  intros Hwf. unfold getState, current, deref, write; simpl.
  rewrite list_lookup_middle by reflexivity.
  split; [reflexivity |]. split; [lia |].
  rewrite list_lookup_insert_ne by lia.
  rewrite lookup_app_l by exact Hwf. reflexivity.
Qed.

Lemma getState_copy_is_detached_witness :
  current (write (snd (getState initial_store)) (fst (getState initial_store))
             (left_by (callback Samples.tamper disconnected))) = disconnected.
Proof.
  apply (getState_copy_is_detached initial_store
           (left_by (callback Samples.tamper disconnected))).
  simpl. lia.
Defined.

Lemma inscriptions_list_is_array result : exists items, inscriptions_list result = VArr items.
Proof.
  unfold inscriptions_list.
  destruct (truthy result && typeof_object result &&
            match prop result "list" with VArr _ => true | _ => false end) eqn:E.
  - apply andb_prop in E as [_ E].
    destruct (prop result "list"); try discriminate. eexists; reflexivity.
  - destruct result; eexists; reflexivity.
Qed.

(** X26: the facade's [getInscriptions] always hands out an array.
    Whenever the provider's [getInscriptions] resolves, with whatever
    value ([{list, total}], a bare array, [null], a number, ...), the
    facade resolves with an array and adds no call of its own. *)
Theorem facade_getInscriptions_resolves_with_array
    (p : BaseWalletProvider.Provider)
    (method : BaseWalletProvider.Provider -> BaseWalletProvider.M JsVal)
    (st st' : BaseWalletProvider.Effects) (result : JsVal) :
  method p st = (Ok result, st') ->
  exists items, getInscriptions (Some p) method st = (Ok (VArr items), st').
Proof.
  intros Hm. unfold getInscriptions, pass_through, BaseWalletProvider.bind.
  rewrite Hm. destruct (inscriptions_list_is_array result) as [items Hitems].
  exists items. unfold BaseWalletProvider.ret. rewrite Hitems. reflexivity.
Qed.

Lemma facade_getInscriptions_resolves_with_array_witness :
  exists items,
    getInscriptions
      (Some (Adapters.connected_provider Adapters.Phantom
               (Some Samples.null_handle) "bc1qphantom"))
      (fun p => BaseWalletProvider.getInscriptions p 0 100)
      BaseWalletProvider.no_effects =
    (Ok (VArr items),
     add_calls BaseWalletProvider.no_effects [page_request 0]).
Proof.
  apply (facade_getInscriptions_resolves_with_array _ _ _ _ VNull). reflexivity.
Defined.

(** X27: the normalizer and the facade compose.  When a provider hands
    the facade a balance normalized by [normalizeBalance] whose amounts
    are not negative, the facade's balance in BTC is
    [(confirmed + unconfirmed) / 100000000]. *)
Theorem normalized_balance_in_BTC (raw : Normalizers.RawBalance) (walletName : string) :
  let b := Normalizers.normalizeBalance raw walletName in
  0 <= Normalizers.nconfirmed b ->
  0 <= Normalizers.nunconfirmed b ->
  balanceInBTC (balance_data b) =
  sats_to_btc (inject_Z (Normalizers.nconfirmed b + Normalizers.nunconfirmed b)).
Proof.
  intros b Hc Hu.
  assert (Htotal : Normalizers.ntotal b =
                   Normalizers.nconfirmed b + Normalizers.nunconfirmed b).
  { subst b. destruct raw as [n | o]; [simpl; lia |].
    apply normalizeBalance_total. }
  unfold balanceInBTC, balance_data, totalSats. cbn [bal_total bal_confirmed].
  rewrite !truthyQ_integer, Htotal. cbn [default id].
  destruct (Z.eqb_spec (Normalizers.nconfirmed b + Normalizers.nunconfirmed b) 0)
    as [Hz | Hnz]; cbn [negb].
  - assert (Hc0 : Normalizers.nconfirmed b = 0) by lia.
    rewrite Hz, Hc0. reflexivity.
  - reflexivity.
Qed.

Lemma normalized_balance_in_BTC_witness :
  balanceInBTC
    (balance_data
       (Normalizers.normalizeBalance
          (Normalizers.RawObject (Normalizers.confirm_pending_object 100 50)) "UniSat")) =
  sats_to_btc (inject_Z (100 + 50)).
Proof.
  apply (normalized_balance_in_BTC
           (Normalizers.RawObject (Normalizers.confirm_pending_object 100 50)) "UniSat");
    simpl; lia.
Defined.

End FacadeProperties2.
